(** * The Android H.264 encoder pipeline of aethercast

    A shallow embedding of [src/ac/android/h264encoder.cpp]: the encoder
    object ([H264Encoder]), the codec runtime it drives through the
    [media_*] compatibility layer, and the buffer bookkeeping between both.

    - The encoder's member variables are the fields of the record
      [H264Encoder]; every member function takes the object and the state of
      the outside world ([World]) and returns the new ones.
    - The codec runtime is an external black box.  Its objects live in a heap
      of handles; the outcome of each of its fallible calls is scripted in the
      world (a list of outcomes, consumed call by call), so the functions stay
      executable while theorems quantify over all scripts.
    - Everything observable from outside (reporter and delegate
      notifications, warnings and errors of the logger, calls into the codec,
      buffers handed back to their producer) is appended to one [trace].
      Diagnostic [AC_DEBUG] lines are not part of the trace.
    - C undefined behaviour (a read or write outside an allocation, signed
      overflow of a loop counter) is the outcome [UB] of the type [result]. *)

From stdpp Require Import gmap strings list.
From Stdlib Require Import ZArith Lia.

Local Open Scope Z_scope.

(** ** Machine integers *)

Module MachineInt.

(** [unsigned int] / [uint32_t]: arithmetic wraps modulo [2^32]. *)
Definition wrap32 (z : Z) : Z := z mod 2 ^ 32.

(** Conversion to [int32_t] (two's complement, as gcc and clang do). *)
Definition to_int32 (z : Z) : Z :=
  let u := z mod 2 ^ 32 in if 2 ^ 31 <=? u then u - 2 ^ 32 else u.

Definition INT_MAX : Z := 2 ^ 31 - 1.

(** A byte of memory is a [Z] in [0, 256). *)
Definition to_byte (z : Z) : Z := z mod 256.

(** The value of a byte of memory read through a plain [char] lvalue.
    Whether plain [char] is signed is a property of the target ABI. *)
Definition char_of_byte (char_signed : bool) (b : Z) : Z :=
  let u := b mod 256 in
  if char_signed && (128 <=? u) then u - 256 else u.

(** The cast [(char) z] of an [int]. *)
Definition cast_char (char_signed : bool) (z : Z) : Z :=
  char_of_byte char_signed z.

End MachineInt.
Export MachineInt.

(** ** Outcomes of C code that may run into undefined behaviour *)

Inductive result (A : Type) : Type :=
| Ok (a : A)
| UB.
Arguments Ok {A} a.
Arguments UB {A}.

Global Instance result_bind : MBind result :=
  λ A B f r, match r with Ok a => f a | UB => UB end.

Global Instance result_ret : MRet result := λ A a, Ok a.

(** ** Data model *)

(** Handles of runtime objects; a nullable pointer is an [option handle]. *)
Abbreviation handle := positive.

(** Modelled from the spec: the declaration of [video::BaseEncoder::Config]
    (baseencoder.h) is missing.  Width, height and bitrate are unsigned
    32-bit quantities, the framerate is signed with [-1] for "the encoder
    decides", the remaining fields are unsigned with [0] for "unset". *)
Record Config : Type := {
  width : Z;
  height : Z;
  framerate : Z;
  bitrate : Z;
  i_frame_interval : Z;
  intra_refresh_mode : Z;
  profile_idc : Z;
  level_idc : Z;
  constraint_set : Z;
}.

(** Modelled from the spec: the class [video::Buffer] (buffer.h) is missing.
    A frame buffer has an identity ([buf_id], the object behind the shared
    pointer), a pixel payload, an optional native handle and a capture
    timestamp; its length is the size of the payload. *)
Record Buffer : Type := {
  buf_id : nat;
  Data : list Z;
  NativeHandle : option handle;
  Timestamp : Z;
}.

Definition Length (b : Buffer) : Z := Z.of_nat (length (Data b)).

(** The output of [MediaSourceBuffer::Create]: a copy of an encoded unit. *)
Record MediaSourceBuffer : Type := {
  msb_buffer : list Z;
  msb_size : Z;
  msb_timestamp : Z;
}.

(** [BufferItem] of h264encoder.h, as it is built in [PackBuffer]. *)
Record BufferItem : Type := {
  buffer : Buffer;
  media_buffer : handle;
}.

(** Keys of [MediaMetaDataWrapper] ([MEDIA_META_DATA_KEY_*]). *)
Inductive MetaKey : Type :=
| KEY_MIME | KEY_COLOR_FORMAT | KEY_WIDTH | KEY_HEIGHT | KEY_STRIDE
| KEY_SLICE_HEIGHT | KEY_FRAMERATE | KEY_TIME | KEY_IS_CODEC_CONFIG.

Inductive MetaValue : Type :=
| MetaCString (s : string)
| MetaInt32 (z : Z)
| MetaInt64 (z : Z).

Inductive MsgValue : Type :=
| MsgString (s : string)
| MsgInt32 (z : Z).

Global Instance MetaKey_eq_dec : EqDecision MetaKey.
Proof. solve_decision. Defined.

Abbreviation MetaData := (list (MetaKey * MetaValue)).

Inductive SourceCallback : Type :=
| CbStart | CbStop | CbRead | CbPause.

(** What the data pointer of a [MediaBufferWrapper] points to: raw bytes, or
    the [VideoNativeMetadata] structure written by [PackBuffer]. *)
Inductive Payload : Type :=
| Bytes (bs : list Z)
| NativeMetadata (eType : Z) (pBuffer : option handle) (nFenceFd : Z).

Record MediaBuffer : Type := {
  mb_size : Z;
  mb_data : Payload;
  mb_meta : MetaData;
  mb_observer : bool;   (* a return callback is registered *)
}.

Inductive RtObject : Type :=
| ObjMessage (m : gmap string MsgValue)
| ObjMetaData (md : MetaData)
| ObjSource (format : option handle) (cbs : list SourceCallback)
| ObjCodecSource (format source : handle) (flags : Z)
| ObjBuffer (mb : MediaBuffer).

(** ** The trace of observable events *)

Inductive LogLevel : Type := Warning | Error.

Inductive ReportEvent : Type :=
| Started
| Stopped
| ReceivedInputBuffer (ts : Z)
| BeganFrame (ts : Z)
| FinishedFrame (ts : Z).

Inductive DelegateEvent : Type :=
| OnBufferAvailable (b : MediaSourceBuffer)
| OnBufferWithCodecConfig (b : MediaSourceBuffer).

Inductive CodecCall : Type :=
| CodecStart (enc : handle)
| CodecStop (enc : handle)
| CodecRead (enc : option handle)
| CodecRequestIDR (enc : handle).

Inductive Event : Type :=
| EvLog (lvl : LogLevel) (msg : string)
| EvReport (r : ReportEvent)
| EvDelegate (d : DelegateEvent)
| EvRelease (b : Buffer)                       (* [Buffer::Release] *)
| EvCodec (c : CodecCall)
| EvPullRead (code : Z) (out : option handle).  (* what a pull-read gave the runtime *)

(** ** The world outside the encoder object *)

(** An encoded unit handed out by [media_codec_source_read]. *)
Record EncodedUnit : Type := {
  eu_data : list Z;
  eu_meta : option MetaData;
}.

(** What the runtime does inside one [media_codec_source_start] call: the
    source comment in [Start] says that it "will directly call OnSourceRead";
    [pulls] lists those calls (for each, whether the output slot pointer is
    non-null), [start_ok] is the value the call returns. *)
Record StartEpisode : Type := {
  pulls : list bool;
  start_ok : bool;
}.

Record ABI : Type := {
  char_signed : bool;
  sizeof_VideoNativeMetadata : Z;
}.

Record World : Type := {
  heap : gmap handle RtObject;
  next_handle : handle;
  alloc_plan : list bool;            (* outcomes of the next object creations *)
  start_plan : list StartEpisode;    (* behaviour of the next codec starts *)
  stop_plan : list bool;             (* outcomes of the next codec stops *)
  read_plan : list (option EncodedUnit);   (* results of the next codec reads *)
  widi_colorformat : option Z;       (* system property ubuntu.widi.colorformat *)
  delegate_alive : bool;             (* [delegate_.lock()] succeeds *)
  abi : ABI;
  trace : list Event;
}.

(** The member variables of [H264Encoder] ([report_] and [delegate_] point to
    objects of the world; their notifications go to the trace). *)
Record H264Encoder : Type := {
  format_ : option handle;
  source_format_ : option handle;
  encoder_ : option handle;
  running_ : bool;
  readout_ : bool;
  input_queue_ : list Buffer;
  pending_buffers_ : list BufferItem;
  config_ : Config;
  start_time_ : Z;
  frame_count_ : Z;
}.

(** ** Field updates *)

Section Updates.

Definition set_heap (hp : gmap handle RtObject) (w : World) : World :=
  {| heap := hp; next_handle := next_handle w; alloc_plan := alloc_plan w;
     start_plan := start_plan w; stop_plan := stop_plan w;
     read_plan := read_plan w; widi_colorformat := widi_colorformat w;
     delegate_alive := delegate_alive w; abi := abi w; trace := trace w |}.

Definition set_next_handle (h : handle) (w : World) : World :=
  {| heap := heap w; next_handle := h; alloc_plan := alloc_plan w;
     start_plan := start_plan w; stop_plan := stop_plan w;
     read_plan := read_plan w; widi_colorformat := widi_colorformat w;
     delegate_alive := delegate_alive w; abi := abi w; trace := trace w |}.

Definition set_alloc_plan (p : list bool) (w : World) : World :=
  {| heap := heap w; next_handle := next_handle w; alloc_plan := p;
     start_plan := start_plan w; stop_plan := stop_plan w;
     read_plan := read_plan w; widi_colorformat := widi_colorformat w;
     delegate_alive := delegate_alive w; abi := abi w; trace := trace w |}.

Definition set_start_plan (p : list StartEpisode) (w : World) : World :=
  {| heap := heap w; next_handle := next_handle w; alloc_plan := alloc_plan w;
     start_plan := p; stop_plan := stop_plan w;
     read_plan := read_plan w; widi_colorformat := widi_colorformat w;
     delegate_alive := delegate_alive w; abi := abi w; trace := trace w |}.

Definition set_stop_plan (p : list bool) (w : World) : World :=
  {| heap := heap w; next_handle := next_handle w; alloc_plan := alloc_plan w;
     start_plan := start_plan w; stop_plan := p;
     read_plan := read_plan w; widi_colorformat := widi_colorformat w;
     delegate_alive := delegate_alive w; abi := abi w; trace := trace w |}.

Definition set_read_plan (p : list (option EncodedUnit)) (w : World) : World :=
  {| heap := heap w; next_handle := next_handle w; alloc_plan := alloc_plan w;
     start_plan := start_plan w; stop_plan := stop_plan w;
     read_plan := p; widi_colorformat := widi_colorformat w;
     delegate_alive := delegate_alive w; abi := abi w; trace := trace w |}.

Definition set_abi (a : ABI) (w : World) : World :=
  {| heap := heap w; next_handle := next_handle w; alloc_plan := alloc_plan w;
     start_plan := start_plan w; stop_plan := stop_plan w;
     read_plan := read_plan w; widi_colorformat := widi_colorformat w;
     delegate_alive := delegate_alive w; abi := a; trace := trace w |}.

(** Append one event to the trace. *)
Definition emit (ev : Event) (w : World) : World :=
  {| heap := heap w; next_handle := next_handle w; alloc_plan := alloc_plan w;
     start_plan := start_plan w; stop_plan := stop_plan w;
     read_plan := read_plan w; widi_colorformat := widi_colorformat w;
     delegate_alive := delegate_alive w; abi := abi w;
     trace := trace w ++ [ev] |}.

Definition set_running_ (b : bool) (e : H264Encoder) : H264Encoder :=
  {| format_ := format_ e; source_format_ := source_format_ e;
     encoder_ := encoder_ e; running_ := b; readout_ := readout_ e;
     input_queue_ := input_queue_ e; pending_buffers_ := pending_buffers_ e;
     config_ := config_ e; start_time_ := start_time_ e;
     frame_count_ := frame_count_ e |}.

Definition set_encoder_ (h : option handle) (e : H264Encoder) : H264Encoder :=
  {| format_ := format_ e; source_format_ := source_format_ e;
     encoder_ := h; running_ := running_ e; readout_ := readout_ e;
     input_queue_ := input_queue_ e; pending_buffers_ := pending_buffers_ e;
     config_ := config_ e; start_time_ := start_time_ e;
     frame_count_ := frame_count_ e |}.

Definition set_input_queue_ (q : list Buffer) (e : H264Encoder) : H264Encoder :=
  {| format_ := format_ e; source_format_ := source_format_ e;
     encoder_ := encoder_ e; running_ := running_ e; readout_ := readout_ e;
     input_queue_ := q; pending_buffers_ := pending_buffers_ e;
     config_ := config_ e; start_time_ := start_time_ e;
     frame_count_ := frame_count_ e |}.

Definition set_pending_buffers_ (p : list BufferItem) (e : H264Encoder)
  : H264Encoder :=
  {| format_ := format_ e; source_format_ := source_format_ e;
     encoder_ := encoder_ e; running_ := running_ e; readout_ := readout_ e;
     input_queue_ := input_queue_ e; pending_buffers_ := p;
     config_ := config_ e; start_time_ := start_time_ e;
     frame_count_ := frame_count_ e |}.

(** The three assignments at the end of a successful [Configure]. *)
Definition set_configuration (c : Config) (format source_format : handle)
    (e : H264Encoder) : H264Encoder :=
  {| format_ := Some format; source_format_ := Some source_format;
     encoder_ := encoder_ e; running_ := running_ e; readout_ := readout_ e;
     input_queue_ := input_queue_ e; pending_buffers_ := pending_buffers_ e;
     config_ := c; start_time_ := start_time_ e;
     frame_count_ := frame_count_ e |}.

End Updates.

(** Logger and reporter. *)
Definition AC_WARNING (msg : string) : World → World := emit (EvLog Warning msg).
Definition AC_ERROR (msg : string) : World → World := emit (EvLog Error msg).
Definition report_ (r : ReportEvent) : World → World := emit (EvReport r).

(** [delegate_.lock()] followed by a call on the delegate. *)
Definition notify_delegate (d : DelegateEvent) (w : World) : World :=
  if delegate_alive w then emit (EvDelegate d) w else w.

(** ** The codec runtime (compatibility layer) *)

Module Runtime.

(** Creation of a runtime object: fails (null) when the script says so,
    otherwise yields a fresh handle.  An exhausted script means success. *)
Definition next_alloc_ok (w : World) : bool :=
  match alloc_plan w with
  | false :: _ => false
  | _ => true
  end.

Definition create_object (o : RtObject) (w : World) : option handle * World :=
  let w' := set_alloc_plan (tail (alloc_plan w)) w in
  if next_alloc_ok w then
    let h := next_handle w in
    (Some h, set_next_handle (Pos.succ h) (set_heap (<[h := o]> (heap w)) w'))
  else (None, w').

Definition release_object (h : handle) (w : World) : World :=
  set_heap (delete h (heap w)) w.

Definition update_object (f : RtObject → RtObject) (h : handle) (w : World)
  : World :=
  set_heap (alter f h (heap w)) w.

(** Messages ([AMessage]) *)
Definition media_message_create : World → option handle * World :=
  create_object (ObjMessage ∅).

Definition message_set (key : string) (v : MsgValue) (o : RtObject) : RtObject :=
  match o with
  | ObjMessage m => ObjMessage (<[key := v]> m)
  | _ => o
  end.

Definition media_message_set_string (msg : handle) (key value : string)
  : World → World :=
  update_object (message_set key (MsgString value)) msg.

Definition media_message_set_int32 (msg : handle) (key : string) (value : Z)
  : World → World :=
  update_object (message_set key (MsgInt32 value)) msg.

Definition media_message_release : handle → World → World := release_object.

(** Meta data *)
Definition media_meta_data_create : World → option handle * World :=
  create_object (ObjMetaData []).

Definition meta_set (key : MetaKey) (v : MetaValue) (o : RtObject) : RtObject :=
  match o with
  | ObjMetaData md => ObjMetaData ((key, v) :: md)
  | _ => o
  end.

Definition media_meta_data_set_cstring (md : handle) (key : MetaKey) (v : string)
  : World → World :=
  update_object (meta_set key (MetaCString v)) md.

Definition media_meta_data_set_int32 (md : handle) (key : MetaKey) (v : Z)
  : World → World :=
  update_object (meta_set key (MetaInt32 v)) md.

Definition media_meta_data_release : handle → World → World := release_object.

(** Lookup of a key in meta data: the latest value set wins. *)
Fixpoint meta_find (key : MetaKey) (md : MetaData) : option MetaValue :=
  match md with
  | [] => None
  | (k, v) :: rest => if decide (k = key) then Some v else meta_find key rest
  end.

(** Media sources *)
Definition media_source_create : World → option handle * World :=
  create_object (ObjSource None []).

Definition media_source_set_format (src md : handle) : World → World :=
  update_object
    (λ o, match o with ObjSource _ cbs => ObjSource (Some md) cbs | _ => o end)
    src.

Definition media_source_set_callback (src : handle) (cb : SourceCallback)
  : World → World :=
  update_object
    (λ o, match o with ObjSource f cbs => ObjSource f (cbs ++ [cb]) | _ => o end)
    src.

Definition media_source_release : handle → World → World := release_object.

(** Codec sources *)
Definition media_codec_source_create (format source : handle) (flags : Z)
  : World → option handle * World :=
  create_object (ObjCodecSource format source flags).

Definition next_stop_ok (w : World) : bool :=
  match stop_plan w with
  | false :: _ => false
  | _ => true
  end.

Definition media_codec_source_stop (enc : handle) (w : World) : bool * World :=
  let w := emit (EvCodec (CodecStop enc)) w in
  (next_stop_ok w, set_stop_plan (tail (stop_plan w)) w).

(** A blocking read of one encoded unit; it fails when the script says so or
    is exhausted. *)
Definition media_codec_source_read (enc : option handle) (w : World)
  : option EncodedUnit * World :=
  let w := emit (EvCodec (CodecRead enc)) w in
  match read_plan w with
  | [] => (None, w)
  | u :: plan => (u, set_read_plan plan w)
  end.

Definition media_codec_source_request_idr_frame (enc : handle) : World → World :=
  emit (EvCodec (CodecRequestIDR enc)).

(** Media buffers.  The memory of a new buffer is uninitialised; the model
    fills it with zeros. *)
Definition media_buffer_create (size : Z) : World → option handle * World :=
  create_object
    (ObjBuffer {| mb_size := size; mb_data := Bytes (replicate (Z.to_nat size) 0);
                  mb_meta := []; mb_observer := false |}).

Definition lookup_buffer (h : handle) (w : World) : option MediaBuffer :=
  match heap w !! h with
  | Some (ObjBuffer mb) => Some mb
  | _ => None
  end.

(** The bytes behind [media_buffer_get_data]. *)
Definition media_buffer_get_data (h : handle) (w : World) : list Z :=
  match lookup_buffer h w with
  | Some {| mb_data := Bytes bs |} => bs
  | _ => []
  end.

Definition update_buffer (f : MediaBuffer → MediaBuffer) : handle → World → World :=
  update_object (λ o, match o with ObjBuffer mb => ObjBuffer (f mb) | _ => o end).

(** Writing through the data pointer of a buffer. *)
Definition media_buffer_write (h : handle) (p : Payload) : World → World :=
  update_buffer (λ mb, {| mb_size := mb_size mb; mb_data := p;
                          mb_meta := mb_meta mb; mb_observer := mb_observer mb |}) h.

Definition media_buffer_set_return_callback (h : handle) (registered : bool)
  : World → World :=
  update_buffer (λ mb, {| mb_size := mb_size mb; mb_data := mb_data mb;
                          mb_meta := mb_meta mb; mb_observer := registered |}) h.

(** [media_meta_data_set_int64 (media_buffer_get_meta_data h) key v]. *)
Definition media_buffer_meta_set_int64 (h : handle) (key : MetaKey) (v : Z)
  : World → World :=
  update_buffer (λ mb, {| mb_size := mb_size mb; mb_data := mb_data mb;
                          mb_meta := (key, MetaInt64 v) :: mb_meta mb;
                          mb_observer := mb_observer mb |}) h.

(** Releasing a buffer frees it once no observer is registered (the comment
    in [OnBufferReturned]: "It has an internal check if an observer is still
    set or not before it will actually release itself"). *)
Definition media_buffer_release (h : handle) (w : World) : World :=
  match lookup_buffer h w with
  | Some mb => if mb_observer mb then w else release_object h w
  | None => w
  end.

End Runtime.
Import Runtime.

(** ** The buffer queue *)

(** Modelled from the spec: [video::BufferQueue] (bufferqueue.h) is missing.
    "A FIFO of Frame Buffers. Push is non-blocking and always succeeds. Next
    removes and returns the oldest buffer, or a null/empty result if none is
    available." *)
Module BufferQueue.

Definition Create : list Buffer := [].

Definition Push (b : Buffer) (q : list Buffer) : list Buffer := q ++ [b].

Definition Next (q : list Buffer) : option Buffer * list Buffer :=
  match q with
  | [] => (None, [])
  | b :: rest => (Some b, rest)
  end.

End BufferQueue.

(** ** Constants of h264encoder.cpp *)

Definition kMetadataBufferTypeANWBuffer : Z := 2.
Definition kMetadataBufferTypeInvalid : Z := -1.

Definition kH264MimeType : string := "video/avc".
Definition kRawMimeType : string := "video/raw".
Definition kOMXColorFormatAndroidOpaque : Z := 0x7F000789.
Definition kOMXVideoIntraRefreshCyclic : Z := 0.
Definition kOMXVideoControlRateConstant : Z := 2.
Definition kAnyFramerate : Z := -1.
Definition kDefaultBitrate : Z := 5000000.
Definition kDefaultIFrameInterval : Z := 15.

Definition kAndroidMediaErrorBase : Z := -1000.
Definition kAndroidMediaErrorNotConnected : Z := kAndroidMediaErrorBase - 1.
Definition kAndroidMediaErrorBufferTooSmall : Z := kAndroidMediaErrorBase - 9.
Definition kAndroidMediaErrorEndOfStream : Z := kAndroidMediaErrorBase - 11.

Definition kFormatKeyMime : string := "mime".
Definition kFormatKeyStoreMetaDataInBuffers : string := "store-metadata-in-buffers".
Definition kFormatKeyStoreMetaDataInBuffersOutput : string :=
  "store-metadata-in-buffers-output".
Definition kFormatKeyWidth : string := "width".
Definition kFormatKeyHeight : string := "height".
Definition kFormatKeyStride : string := "stride".
Definition kFormatKeySliceHeight : string := "slice-height".
Definition kFormatKeyColorFormat : string := "color-format".
Definition kFormatKeyBitrate : string := "bitrate".
Definition kFormatKeyBitrateMode : string := "bitrate-mode".
Definition kFormatKeyFramerate : string := "frame-rate".
Definition kFormatKeyIntraRefreshMode : string := "intra-refresh-mode".
Definition kFormatKeyIntraRefreshCIRMbs : string := "intra-refresh-CIR-mbs".
Definition kFormatKeyIFrameInterval : string := "i-frame-interval".
Definition kFormatKeyProfileIdc : string := "profile-idc".
Definition kFormatKeyLevelIdc : string := "level-idc".
Definition kFormatKeyConstraintSet : string := "constraint-set".
Definition kFormatKeyPrependSpsPpstoIdrFrames : string :=
  "prepend-sps-pps-to-idr-frames".

(** ** The encoder *)

(** [H264Encoder::DefaultConfiguration].  The fields it does not assign keep
    the value given by the default constructor of [Config] (declared in the
    missing baseencoder.h), taken to be zero. *)
Definition DefaultConfiguration : Config :=
  {| width := 0; height := 0;
     framerate := kAnyFramerate;
     bitrate := kDefaultBitrate;
     i_frame_interval := kDefaultIFrameInterval;
     intra_refresh_mode := kOMXVideoIntraRefreshCyclic;
     profile_idc := 0; level_idc := 0; constraint_set := 0 |}.

(** [H264Encoder::Create]: the constructor
    [H264Encoder::H264Encoder(report, readout)], with a default-constructed
    [config_]. *)
Definition Create (readout : bool) : H264Encoder :=
  {| format_ := None; source_format_ := None; encoder_ := None;
     running_ := false; readout_ := readout;
     input_queue_ := BufferQueue.Create; pending_buffers_ := [];
     config_ := {| width := 0; height := 0; framerate := 0; bitrate := 0;
                   i_frame_interval := 0; intra_refresh_mode := 0;
                   profile_idc := 0; level_idc := 0; constraint_set := 0 |};
     start_time_ := -1; frame_count_ := 0 |}.

(** The number of macroblocks refreshed per frame, line 333:
    [(((config.width + 15) / 16) * ((config.height + 15) / 16) * 10) / 100]
    in [unsigned int] arithmetic, stored in an [int32_t]. *)
Definition intra_refresh_mbs (config : Config) : Z :=
  to_int32
    (wrap32 (wrap32 ((wrap32 (width config + 15) / 16)
                     * (wrap32 (height config + 15) / 16)) * 10) / 100).

(** The colour format, lines 312-320: [kOMXColorFormatAndroidOpaque] unless
    the system property gives a positive override.  [widi_colorformat] is
    the number [atoi] reads from the property (an unset property has the
    default ["0"]); it is stored in an [int32_t]. *)
Definition color_format (w : World) : Z :=
  let colorFormatOverride := to_int32 (default 0 (widi_colorformat w)) in
  if 0 <? colorFormatOverride then colorFormatOverride
  else kOMXColorFormatAndroidOpaque.

Definition metadata_buffer_type (readout : bool) : Z :=
  if readout then kMetadataBufferTypeInvalid else kMetadataBufferTypeANWBuffer.

(** Lines 298-350: the fields put into the format message. *)
Definition fill_format (readout : bool) (config : Config) (format : handle)
    (w : World) : World :=
  let w := media_message_set_string format kFormatKeyMime kH264MimeType w in
  let w := media_message_set_int32 format kFormatKeyStoreMetaDataInBuffers
             (metadata_buffer_type readout) w in
  let w := media_message_set_int32 format kFormatKeyStoreMetaDataInBuffersOutput 0 w in
  let w := media_message_set_int32 format "android._input-metadata-buffer-type"
             (metadata_buffer_type readout) w in
  let w := media_message_set_int32 format "android._store-metadata-in-buffers-output"
             0 w in
  let w := media_message_set_int32 format kFormatKeyWidth (to_int32 (width config)) w in
  let w := media_message_set_int32 format kFormatKeyHeight (to_int32 (height config)) w in
  let w := media_message_set_int32 format kFormatKeyStride (to_int32 (width config)) w in
  let w := media_message_set_int32 format kFormatKeySliceHeight
             (to_int32 (height config)) w in
  let w := media_message_set_int32 format kFormatKeyColorFormat (color_format w) w in
  let w := media_message_set_int32 format kFormatKeyBitrate (to_int32 (bitrate config)) w in
  let w := media_message_set_int32 format kFormatKeyBitrateMode
             kOMXVideoControlRateConstant w in
  let w := media_message_set_int32 format kFormatKeyFramerate (framerate config) w in
  let w := media_message_set_int32 format kFormatKeyIntraRefreshMode 0 w in
  let mbs := intra_refresh_mbs config in
  let w := media_message_set_int32 format kFormatKeyIntraRefreshCIRMbs mbs w in
  let w := if 0 <? i_frame_interval config
           then media_message_set_int32 format kFormatKeyIFrameInterval
                  (to_int32 (i_frame_interval config)) w
           else w in
  let w := if 0 <? profile_idc config
           then media_message_set_int32 format kFormatKeyProfileIdc
                  (to_int32 (profile_idc config)) w
           else w in
  let w := if 0 <? level_idc config
           then media_message_set_int32 format kFormatKeyLevelIdc
                  (to_int32 (level_idc config)) w
           else w in
  let w := if 0 <? constraint_set config
           then media_message_set_int32 format kFormatKeyConstraintSet
                  (to_int32 (constraint_set config)) w
           else w in
  media_message_set_int32 format kFormatKeyPrependSpsPpstoIdrFrames 1 w.

(** Lines 371-401: the format of the source and its callbacks. *)
Definition fill_source (config : Config) (source source_format : handle)
    (w : World) : World :=
  let w := media_meta_data_set_cstring source_format KEY_MIME kRawMimeType w in
  let w := media_meta_data_set_int32 source_format KEY_COLOR_FORMAT
             kOMXColorFormatAndroidOpaque w in
  let w := media_meta_data_set_int32 source_format KEY_WIDTH (to_int32 (width config)) w in
  let w := media_meta_data_set_int32 source_format KEY_HEIGHT
             (to_int32 (height config)) w in
  let w := media_meta_data_set_int32 source_format KEY_STRIDE (to_int32 (width config)) w in
  let w := media_meta_data_set_int32 source_format KEY_SLICE_HEIGHT
             (to_int32 (height config)) w in
  let w := media_meta_data_set_int32 source_format KEY_FRAMERATE (framerate config) w in
  let w := media_source_set_format source source_format w in
  let w := media_source_set_callback source CbStart w in
  let w := media_source_set_callback source CbStop w in
  let w := media_source_set_callback source CbRead w in
  media_source_set_callback source CbPause w.

Definition Configure (config : Config) (thiz : H264Encoder) (w : World)
  : bool * H264Encoder * World :=
  match encoder_ thiz with
  | Some _ => (false, thiz, w)
  | None =>
    match media_message_create w with
    | (None, w) => (false, thiz, w)
    | (Some format, w) =>
      let w := fill_format (readout_ thiz) config format w in
      match media_source_create w with
      | (None, w) =>
          let w := AC_ERROR "Failed to create media input source for encoder" w in
          let w := media_message_release format w in
          (false, thiz, w)
      | (Some source, w) =>
        match media_meta_data_create w with
        | (None, w) =>
            let w := AC_ERROR "Failed to create media meta data for encoder source" w in
            let w := media_message_release format w in
            let w := media_source_release source w in
            (false, thiz, w)
        | (Some source_format, w) =>
          let w := fill_source config source source_format w in
          let '(enc, w) := media_codec_source_create format source 0 w in
          let thiz := set_encoder_ enc thiz in
          match enc with
          | None =>
              let w := AC_ERROR "Failed to create encoder instance" w in
              let w := media_meta_data_release source_format w in
              let w := media_message_release format w in
              let w := media_source_release source w in
              (false, thiz, w)
          | Some _ =>
              (true, set_configuration config format source_format thiz, w)
          end
        end
      end
    end
  end.

(** *** Colour conversion *)

(** The locals of [rgb2yuv420p] that change while it runs. *)
Record Cursor : Type := {
  yuv420p : list Z;
  i_ : Z;
  ui_ : Z;
  vi_ : Z;
  s_ : Z;
}.

(** [mem[idx]] as an rvalue of type [char]; an index outside the
    allocation is undefined behaviour. *)
Definition load_char (char_signed : bool) (mem : list Z) (idx : Z) : result Z :=
  if (0 <=? idx) && (idx <? Z.of_nat (length mem))
  then Ok (char_of_byte char_signed (default 0 (mem !! Z.to_nat idx)))
  else UB.

(** [mem[idx] = v] for an [int] value [v], converted to [char]. *)
Definition store_char (mem : list Z) (idx : Z) (v : Z) : result (list Z) :=
  if (0 <=? idx) && (idx <? Z.of_nat (length mem))
  then Ok (<[Z.to_nat idx := to_byte v]> mem)
  else UB.

Definition luma (sR sG sB : Z) : Z := 66 * sR + 129 * sG + 25 * sB + 128.
Definition chroma_u (sR sG sB : Z) : Z := -38 * sR - 74 * sG + 112 * sB + 128.
Definition chroma_v (sR sG sB : Z) : Z := 112 * sR - 94 * sG - 18 * sB + 128.

(** The body of the inner loop, lines 485-493 ([>>] on a negative [int] is
    the arithmetic shift, as gcc and clang compile it). *)
Definition pixel (char_signed : bool) (rgb : list Z) (j k : Z) (c : Cursor)
  : result Cursor :=
  sR ← load_char char_signed rgb (wrap32 (s_ c + 0));
  sG ← load_char char_signed rgb (wrap32 (s_ c + 1));
  sB ← load_char char_signed rgb (wrap32 (s_ c + 2));
  y1 ← store_char (yuv420p c) (i_ c)
         (cast_char char_signed (luma sR sG sB ≫ 8) + 16);
  if (0 =? j `rem` 2) && (0 =? k `rem` 2) then
    y2 ← store_char y1 (ui_ c)
           (cast_char char_signed (chroma_u sR sG sB ≫ 8) + 128);
    y3 ← store_char y2 (vi_ c)
           (cast_char char_signed (chroma_v sR sG sB ≫ 8) + 128);
    Ok {| yuv420p := y3; i_ := wrap32 (i_ c + 1); ui_ := wrap32 (ui_ c + 1);
          vi_ := wrap32 (vi_ c + 1); s_ := wrap32 (s_ c + 4) |}
  else
    Ok {| yuv420p := y1; i_ := wrap32 (i_ c + 1); ui_ := ui_ c; vi_ := vi_ c;
          s_ := wrap32 (s_ c + 4) |}.

(** [for (int k = ...; k < width; k++)], with [n] iterations left. *)
Fixpoint columns (n : nat) (char_signed : bool) (rgb : list Z) (j k : Z)
    (c : Cursor) : result Cursor :=
  match n with
  | O => Ok c
  | S n' => c' ← pixel char_signed rgb j k c;
            columns n' char_signed rgb j (k + 1) c'
  end.

(** [for (int j = ...; j < height; j++)], with [n] iterations left. *)
Fixpoint rows (n : nat) (char_signed : bool) (rgb : list Z) (width : Z) (j : Z)
    (c : Cursor) : result Cursor :=
  match n with
  | O => Ok c
  | S n' => c' ← columns (Z.to_nat width) char_signed rgb j 0 c;
            rows n' char_signed rgb width (j + 1) c'
  end.

(** [rgb2yuv420p], lines 469-495.  The counters [j] and [k] are [int]s
    compared with [unsigned] bounds: a bound above [INT_MAX] makes the
    increment overflow. *)
Definition rgb2yuv420p (char_signed : bool) (rgb yuv : list Z) (width height : Z)
  : result (list Z) :=
  if (INT_MAX <? height) || ((0 <? height) && (INT_MAX <? width)) then UB
  else
    let numpixels := wrap32 (width * height) in
    c ← rows (Z.to_nat height) char_signed rgb width 0
          {| yuv420p := yuv; i_ := 0; ui_ := numpixels;
             vi_ := wrap32 (numpixels + numpixels / 4); s_ := 0 |};
    Ok (yuv420p c).

(** *** Packing and the runtime callbacks *)

Definition has_native_handle (b : Buffer) : bool :=
  match NativeHandle b with Some _ => true | None => false end.

(** Lines 531-545, the common tail of [PackBuffer]. *)
Definition register_packed (input_buffer : Buffer) (timestamp : Z)
    (buffer : handle) (thiz : H264Encoder) (w : World)
  : option handle * H264Encoder * World :=
  let w := media_buffer_set_return_callback buffer true w in
  let w := media_buffer_meta_set_int64 buffer KEY_TIME timestamp w in
  let thiz :=
    set_pending_buffers_
      (pending_buffers_ thiz
         ++ [{| buffer := input_buffer; media_buffer := buffer |}]) thiz in
  (Some buffer, thiz, w).

Definition PackBuffer (input_buffer : Buffer) (timestamp : Z)
    (thiz : H264Encoder) (w : World)
  : result (option handle * H264Encoder * World) :=
  if readout_ thiz && negb (has_native_handle input_buffer)
     && (0 <? Length input_buffer)
  then
    match media_buffer_create
            (wrap32 (wrap32 (width (config_ thiz) * height (config_ thiz)) * 3) / 2)
            w with
    | (None, w) => Ok (None, thiz, AC_WARNING "Ignoring media buffer" w)
    | (Some buffer, w) =>
        yuv ← rgb2yuv420p (char_signed (abi w)) (Data input_buffer)
                (media_buffer_get_data buffer w)
                (width (config_ thiz)) (height (config_ thiz));
        let w := media_buffer_write buffer (Bytes yuv) w in
        Ok (register_packed input_buffer timestamp buffer thiz w)
    end
  else if negb (readout_ thiz) && has_native_handle input_buffer
  then
    match media_buffer_create (sizeof_VideoNativeMetadata (abi w)) w with
    | (None, w) => Ok (None, thiz, AC_WARNING "Ignoring media buffer" w)
    | (Some buffer, w) =>
        let bufferHandle := NativeHandle input_buffer in
        let w := media_buffer_write buffer
                   (NativeMetadata kMetadataBufferTypeANWBuffer bufferHandle (-1)) w in
        Ok (register_packed input_buffer timestamp buffer thiz w)
    end
  else Ok (None, thiz, AC_WARNING "Could not allocate media buffer" w).

(** The pull-read callback.  [buffer] tells whether the output slot pointer
    is non-null and [user_data] whether the instance pointer is; [thiz] is
    the object behind a non-null instance pointer.  The result is the status
    code, the content of the output slot, and the new states. *)
Definition OnSourceRead (buffer : bool) (user_data : bool) (thiz : H264Encoder)
    (w : World) : result (Z * option handle * H264Encoder * World) :=
  if negb user_data || negb (running_ thiz)
  then Ok (kAndroidMediaErrorNotConnected, None, thiz, w)
  else if negb buffer
  then Ok (kAndroidMediaErrorBufferTooSmall, None, thiz, w)
  else
    match BufferQueue.Next (input_queue_ thiz) with
    | (None, _) => Ok (kAndroidMediaErrorEndOfStream, None, thiz, w)
    | (Some input_buffer, queue) =>
        let thiz := set_input_queue_ queue thiz in
        '(next_buffer, thiz, w) ←
          PackBuffer input_buffer (Timestamp input_buffer) thiz w;
        match next_buffer with
        | None => Ok (kAndroidMediaErrorEndOfStream, None, thiz, w)
        | Some _ =>
            let w := report_ (BeganFrame (Timestamp input_buffer)) w in
            Ok (0, next_buffer, thiz, w)
        end
    end.

(** The linear scan of [OnBufferReturned]: position and content of the first
    pending entry whose [media_buffer] is [mb]. *)
Fixpoint find_pending (mb : handle) (l : list BufferItem)
  : option (nat * BufferItem) :=
  match l with
  | [] => None
  | item :: rest =>
      if decide (media_buffer item = mb) then Some (O, item)
      else prod_map S id <$> find_pending mb rest
  end.

(** The buffer-returned callback. *)
Definition OnBufferReturned (buffer : handle) (user_data : bool)
    (thiz : H264Encoder) (w : World) : H264Encoder * World :=
  if negb user_data then (thiz, w)
  else
    match find_pending buffer (pending_buffers_ thiz) with
    | None => (thiz, AC_WARNING "Didn't remember returned buffer!?" w)
    | Some (iter, {| buffer := buf; media_buffer := iter_media_buffer |}) =>
        let w := media_buffer_set_return_callback iter_media_buffer false w in
        let w := media_buffer_release iter_media_buffer w in
        let thiz := set_pending_buffers_ (delete iter (pending_buffers_ thiz)) thiz in
        (thiz, emit (EvRelease buf) w)
    end.

(** *** Lifecycle *)

(** The pull-reads the runtime performs while it starts; what each of them
    returned to the runtime is recorded in the trace. *)
Fixpoint run_pulls (slots : list bool) (thiz : H264Encoder) (w : World)
  : result (H264Encoder * World) :=
  match slots with
  | [] => Ok (thiz, w)
  | slot :: rest =>
      '(code, out, thiz, w) ← OnSourceRead slot true thiz w;
      run_pulls rest thiz (emit (EvPullRead code out) w)
  end.

Definition next_start_episode (w : World) : StartEpisode * World :=
  match start_plan w with
  | [] => ({| pulls := []; start_ok := true |}, w)
  | ep :: plan => (ep, set_start_plan plan w)
  end.

Definition media_codec_source_start (enc : handle) (thiz : H264Encoder)
    (w : World) : result (bool * H264Encoder * World) :=
  let w := emit (EvCodec (CodecStart enc)) w in
  let '(ep, w) := next_start_episode w in
  '(thiz, w) ← run_pulls (pulls ep) thiz w;
  Ok (start_ok ep, thiz, w).

Definition Start (thiz : H264Encoder) (w : World)
  : result (bool * H264Encoder * World) :=
  match encoder_ thiz with
  | None => Ok (false, thiz, w)
  | Some enc =>
      if running_ thiz then Ok (false, thiz, w)
      else
        let thiz := set_running_ true thiz in
        '(ok, thiz, w) ← media_codec_source_start enc thiz w;
        if negb ok then
          let w := AC_ERROR "Failed to start encoder" w in
          let thiz := set_running_ false thiz in
          Ok (false, thiz, w)
        else
          let w := report_ Started w in
          Ok (true, thiz, w)
  end.

Definition Stop (thiz : H264Encoder) (w : World) : bool * H264Encoder * World :=
  match encoder_ thiz with
  | None => (false, thiz, w)
  | Some enc =>
      if negb (running_ thiz) then (false, thiz, w)
      else
        let '(ok, w) := media_codec_source_stop enc w in
        if negb ok then (false, thiz, w)
        else
          let thiz := set_running_ false thiz in
          let w := report_ Stopped w in
          (true, thiz, w)
  end.

Definition QueueBuffer (buffer : Buffer) (thiz : H264Encoder) (w : World)
  : H264Encoder * World :=
  if negb (running_ thiz) then (thiz, w)
  else
    let thiz := set_input_queue_ (BufferQueue.Push buffer (input_queue_ thiz)) thiz in
    let w := report_ (ReceivedInputBuffer (Timestamp buffer)) w in
    (thiz, w).

(** [MediaSourceBuffer::Create]: a copy of the payload; the timestamp is read
    from the meta data under [KEY_TIME] (0 when the key is absent), and stays
    at the initial value 0 of a fresh buffer when there is no meta data. *)
Definition ExtractTimestamp (u : EncodedUnit) : Z :=
  match eu_meta u with
  | None => 0
  | Some md =>
      match meta_find KEY_TIME md with
      | Some (MetaInt64 time_us) => time_us
      | _ => 0
      end
  end.

Definition MediaSourceBuffer_Create (u : EncodedUnit) : MediaSourceBuffer :=
  {| msb_buffer := eu_data u;
     msb_size := Z.of_nat (length (eu_data u));
     msb_timestamp := ExtractTimestamp u |}.

Definition DoesBufferContainCodecConfig (u : EncodedUnit) : bool :=
  match eu_meta u with
  | None => false
  | Some md =>
      match meta_find KEY_IS_CODEC_CONFIG md with
      | Some (MetaInt32 is_codec_config) => negb (is_codec_config =? 0)
      | _ => false
      end
  end.

Definition Execute (thiz : H264Encoder) (w : World) : bool * H264Encoder * World :=
  if negb (running_ thiz) then
    (false, thiz, AC_ERROR "Tried to execute encoder while not started" w)
  else
    match media_codec_source_read (encoder_ thiz) w with
    | (None, w) =>
        (false, thiz, AC_ERROR "Failed to read a new buffer from encoder" w)
    | (Some buffer, w) =>
        let mbuf := MediaSourceBuffer_Create buffer in
        let w := report_ (FinishedFrame (msb_timestamp mbuf)) w in
        let w := if DoesBufferContainCodecConfig buffer
                 then notify_delegate (OnBufferWithCodecConfig mbuf) w
                 else w in
        let w := notify_delegate (OnBufferAvailable mbuf) w in
        (true, thiz, w)
    end.

Definition Configuration (thiz : H264Encoder) : Config := config_ thiz.

Definition SendIDRFrame (thiz : H264Encoder) (w : World) : World :=
  match encoder_ thiz with
  | None => w
  | Some enc => media_codec_source_request_idr_frame enc w
  end.

(** *** The destructor *)



(** ** The pipeline as a transition system *)

(** The calls that reach an encoder: its public member functions, invoked by
    the owner of the pipeline, and the two callbacks, invoked by the codec
    runtime with the encoder as [user_data]. *)
Inductive Op : Type :=
| OpConfigure (config : Config)
| OpStart
| OpStop
| OpQueueBuffer (b : Buffer)
| OpExecute
| OpSendIDRFrame
| OpSourceRead (slot : bool)
| OpBufferReturned (mb : handle).

Definition step (o : Op) (thiz : H264Encoder) (w : World)
  : result (H264Encoder * World) :=
  match o with
  | OpConfigure config =>
      let '(_, thiz, w) := Configure config thiz w in Ok (thiz, w)
  | OpStart => '(_, thiz, w) ← Start thiz w; Ok (thiz, w)
  | OpStop => let '(_, thiz, w) := Stop thiz w in Ok (thiz, w)
  | OpQueueBuffer b => Ok (QueueBuffer b thiz w)
  | OpExecute => let '(_, thiz, w) := Execute thiz w in Ok (thiz, w)
  | OpSendIDRFrame => Ok (thiz, SendIDRFrame thiz w)
  | OpSourceRead slot =>
      '(code, out, thiz, w) ← OnSourceRead slot true thiz w;
      Ok (thiz, emit (EvPullRead code out) w)
  | OpBufferReturned mb => Ok (OnBufferReturned mb true thiz w)
  end.

Fixpoint run (ops : list Op) (thiz : H264Encoder) (w : World)
  : result (H264Encoder * World) :=
  match ops with
  | [] => Ok (thiz, w)
  | o :: rest => '(thiz, w) ← step o thiz w; run rest thiz w
  end.

(** ** Notions used in the statements *)

(** *** Configuration *)

(** The spec's words for the macroblock count: ⌈a/b⌉, and
    "⌈width/16⌉·⌈height/16⌉·10%" in integer arithmetic. *)
Definition ceil_div (a b : Z) : Z :=
  if a mod b =? 0 then a / b else a / b + 1.

Definition macroblock_refresh_count (width height : Z) : Z :=
  (ceil_div width 16 * ceil_div height 16 * 10) / 100.

(** The value stored under [key] in the format message of a configured
    encoder. *)
Definition format_entry (key : string) (thiz : H264Encoder) (w : World)
  : option MsgValue :=
  match format_ thiz with
  | Some format =>
      match heap w !! format with
      | Some (ObjMessage m) => m !! key
      | _ => None
      end
  | None => None
  end.

(** A configuration the spec calls valid. *)
Definition valid_config (c : Config) : Prop :=
  0 < width c ∧ 0 < height c ∧ 0 < bitrate c.

(** No object lives at a handle that has not been handed out yet. *)
Definition heap_fresh (w : World) : Prop :=
  ∀ h, (next_handle w ≤ h)%positive → heap w !! h = None.

(** *** Traces *)

(** The events appended to the trace between two worlds. *)
Definition events_since (w w' : World) : list Event :=
  drop (length (trace w)) (trace w').

Definition is_stopped (ev : Event) : bool :=
  match ev with EvReport Stopped => true | _ => false end.

Definition count_stopped (evs : list Event) : nat :=
  length (List.filter is_stopped evs).

Definition is_report (ev : Event) : bool :=
  match ev with EvReport _ => true | _ => false end.

Definition is_pull_read (ev : Event) : bool :=
  match ev with EvPullRead _ _ => true | _ => false end.

Definition is_release_of (b : Buffer) (ev : Event) : Prop :=
  match ev with EvRelease b' => b' = b | _ => False end.

(** What may happen inside [media_codec_source_start]: log lines, began-frame
    reports, and pull-reads answered with anything but not-connected. *)
Definition start_inner_event (ev : Event) : bool :=
  match ev with
  | EvLog _ _ => true
  | EvReport (BeganFrame _) => true
  | EvPullRead code _ => negb (code =? kAndroidMediaErrorNotConnected)
  | _ => false
  end.

(** *** Encoder states *)

(** Two encoder states that differ at most in the input queue and in the
    pending buffers. *)
Definition only_buffers_differ (a b : H264Encoder) : Prop :=
  format_ a = format_ b ∧ source_format_ a = source_format_ b
  ∧ encoder_ a = encoder_ b ∧ running_ a = running_ b
  ∧ readout_ a = readout_ b ∧ config_ a = config_ b
  ∧ start_time_ a = start_time_ b ∧ frame_count_ a = frame_count_ b.

(** The buffers that do not fit the mode of the encoder: in readout mode one
    that carries a native handle or is empty, in zero-copy mode one without
    a native handle. *)
Definition mode_mismatch (readout : bool) (b : Buffer) : bool :=
  if readout then has_native_handle b || (Length b =? 0)
  else negb (has_native_handle b).

(** *** The pending set *)

(** The number of pending entries whose runtime-side buffer is [mb]. *)
Definition count_pending (mb : handle) (l : list BufferItem) : nat :=
  length (List.filter (λ item, Pos.eqb (media_buffer item) mb) l).

(** Every pending entry refers to a buffer the runtime has handed out:
    handles of later allocations are new.  It holds for a new encoder and is
    kept by every call (see [run_keeps_pending_wf]). *)
Definition pending_wf (thiz : H264Encoder) (w : World) : Prop :=
  ∀ item, item ∈ pending_buffers_ thiz → (media_buffer item < next_handle w)%positive.

(** The invariant of the pending set: it is well-formed and, when an entry
    [item] is being followed, [item] is the one pending entry of its
    runtime-side buffer, a buffer handed out in the past. *)
Definition pending_inv (keep : option BufferItem) (thiz : H264Encoder)
    (w : World) : Prop :=
  pending_wf thiz w
  ∧ ∀ item, keep = Some item →
      (media_buffer item < next_handle w)%positive
      ∧ count_pending (media_buffer item) (pending_buffers_ thiz) = 1%nat
      ∧ item ∈ pending_buffers_ thiz.

(** The calls that do not return the runtime-side buffer of [keep]. *)
Definition does_not_return (keep : option BufferItem) (o : Op) : Prop :=
  ∀ item, keep = Some item → o ≠ OpBufferReturned (media_buffer item).

(** *** Colour conversion *)

(** The colour channel [c] (0, 1, 2 for red, green, blue) of the pixel in
    row [j], column [k] of a frame of four bytes per pixel, as the [char]
    that [rgb2yuv420p] reads. *)
Definition channel (char_signed : bool) (rgb : list Z) (width j k c : Z) : Z :=
  char_of_byte char_signed (default 0 (rgb !! Z.to_nat (4 * (j * width + k) + c))).

(** The three values [rgb2yuv420p] computes for a pixel. *)
Definition luma_value (char_signed : bool) (rgb : list Z) (width j k : Z) : Z :=
  (luma (channel char_signed rgb width j k 0) (channel char_signed rgb width j k 1)
     (channel char_signed rgb width j k 2) ≫ 8) + 16.

Definition u_value (char_signed : bool) (rgb : list Z) (width j k : Z) : Z :=
  (chroma_u (channel char_signed rgb width j k 0) (channel char_signed rgb width j k 1)
     (channel char_signed rgb width j k 2) ≫ 8) + 128.

Definition v_value (char_signed : bool) (rgb : list Z) (width j k : Z) : Z :=
  (chroma_v (channel char_signed rgb width j k 0) (channel char_signed rgb width j k 1)
     (channel char_signed rgb width j k 2) ≫ 8) + 128.

(** [yuv] holds what [rgb2yuv420p] stores for pixel (j, k), whatever the
    signedness of [char]: the luma byte in the Y plane and, for even [j] and
    [k], the chroma bytes in the U plane (from offset width*height) and in
    the V plane (from offset width*height + width*height/4), in scan order. *)
Definition pixel_converted (char_signed : bool) (rgb : list Z) (width height : Z)
    (yuv : list Z) (j k : Z) : Prop :=
  yuv !! Z.to_nat (j * width + k)
  = Some (to_byte (luma_value char_signed rgb width j k))
  ∧ (j mod 2 = 0 → k mod 2 = 0 →
     yuv !! Z.to_nat (width * height + (j / 2) * (width / 2) + k / 2)
     = Some (to_byte (u_value char_signed rgb width j k))
     ∧ yuv !! Z.to_nat (width * height + width * height / 4
                        + (j / 2) * (width / 2) + k / 2)
       = Some (to_byte (v_value char_signed rgb width j k))).

(** The claim's words for the conversion.  [rgb_byte] is one of the first
    three bytes (c = 0, 1, 2 for R, G, B) of the 4-byte group of pixel
    (j, k); [yuv420p_pixel] says that [yuv] holds the luma byte of the pixel
    in the Y plane and, for even [j] and [k], its chroma bytes in the U plane
    (from offset width*height) and in the V plane (from offset
    width*height + width*height/4), in scan order. *)
Definition rgb_byte (rgb : list Z) (width j k c : Z) : Z :=
  default 0 (rgb !! Z.to_nat (4 * (j * width + k) + c)).

Definition yuv420p_pixel (rgb : list Z) (width height : Z) (yuv : list Z)
    (j k : Z) : Prop :=
  let R := rgb_byte rgb width j k 0 in
  let G := rgb_byte rgb width j k 1 in
  let B := rgb_byte rgb width j k 2 in
  yuv !! Z.to_nat (j * width + k)
  = Some (((66 * R + 129 * G + 25 * B + 128) ≫ 8) + 16)
  ∧ (j mod 2 = 0 → k mod 2 = 0 →
     yuv !! Z.to_nat (width * height + (j / 2) * (width / 2) + k / 2)
     = Some (((-38 * R - 74 * G + 112 * B + 128) ≫ 8) + 128)
     ∧ yuv !! Z.to_nat (width * height + width * height / 4
                        + (j / 2) * (width / 2) + k / 2)
       = Some (((112 * R - 94 * G - 18 * B + 128) ≫ 8) + 128)).

(** [PackBuffer] returns a runtime buffer of width*height*3/2 bytes that
    holds the conversion of every pixel of the input. *)
Definition packs_yuv420p (b : Buffer) (ts : Z) (thiz : H264Encoder) (w : World)
  : Prop :=
  ∃ p thiz' w' yuv,
    PackBuffer b ts thiz w = Ok (Some p, thiz', w')
    ∧ mb_size <$> lookup_buffer p w'
      = Some (width (config_ thiz) * height (config_ thiz) * 3 / 2)
    ∧ mb_data <$> lookup_buffer p w' = Some (Bytes yuv)
    ∧ Z.of_nat (length yuv) = width (config_ thiz) * height (config_ thiz) * 3 / 2
    ∧ ∀ j k, 0 ≤ j < height (config_ thiz) → 0 ≤ k < width (config_ thiz) →
             yuv420p_pixel (Data b) (width (config_ thiz))
               (height (config_ thiz)) yuv j k.

(** The bytes of a buffer are bytes. *)
Definition is_byte (x : Z) : Prop := 0 ≤ x < 256.

(** The number of chroma samples written before pixel (j, k) is reached: one
    for every pixel in an even row and an even column. *)
Definition chroma_count (width j k : Z) : Z :=
  ((j + 1) / 2) * (width / 2) + (if j mod 2 =? 0 then (k + 1) / 2 else 0).

(** The invariant of the loops of [rgb2yuv420p] before pixel (j, k) of a
    width x height frame is converted: the cursor stands at that pixel and
    all pixels before it in scan order are converted. *)
Definition cursor_at (char_signed : bool) (rgb : list Z) (width height : Z)
    (j k : Z) (c : Cursor) : Prop :=
  i_ c = j * width + k
  ∧ s_ c = 4 * (j * width + k)
  ∧ ui_ c = width * height + chroma_count width j k
  ∧ vi_ c = width * height + width * height / 4 + chroma_count width j k
  ∧ Z.of_nat (length (yuv420p c)) = width * height * 3 / 2
  ∧ ∀ j' k', 0 ≤ j' → 0 ≤ k' < width → j' < j ∨ (j' = j ∧ k' < k) →
             pixel_converted char_signed rgb width height (yuv420p c) j' k'.

(** ** Concrete inputs *)

Definition abi_arm32 : ABI :=
  {| char_signed := false; sizeof_VideoNativeMetadata := 12 |}.

(** A world in which every runtime call succeeds, and variations of it. *)
Definition quiet_world : World :=
  {| heap := ∅; next_handle := 1%positive; alloc_plan := []; start_plan := [];
     stop_plan := []; read_plan := []; widi_colorformat := None;
     delegate_alive := true; abi := abi_arm32; trace := [] |}.

(** A world whose next object creation fails. *)
Definition failing_alloc_world : World := set_alloc_plan [false] quiet_world.

(** An ABI with signed plain [char] and 64-bit pointers. *)
Definition abi_x86_64 : ABI :=
  {| char_signed := true; sizeof_VideoNativeMetadata := 24 |}.

(** Configurations. *)
Definition config_of_size (w h : Z) : Config :=
  {| width := w; height := h; framerate := kAnyFramerate;
     bitrate := kDefaultBitrate; i_frame_interval := kDefaultIFrameInterval;
     intra_refresh_mode := kOMXVideoIntraRefreshCyclic;
     profile_idc := 0; level_idc := 0; constraint_set := 0 |}.

Definition config_720p : Config := config_of_size 1280 720.

(** A frame of 2^20 by 2^20 pixels: 65536 by 65536 macroblocks. *)
Definition config_huge : Config := config_of_size 1048576 1048576.

(** Frame buffers: one with a native handle, a frame of 2 by 2 pixels (red,
    green, blue, white), a single pixel, a grey frame of 3 by 3 pixels. *)
Definition handle_buffer : Buffer :=
  {| buf_id := 1; Data := []; NativeHandle := Some 99%positive; Timestamp := 1000 |}.

Definition pixel_buffer : Buffer :=
  {| buf_id := 2;
     Data := [255; 0; 0; 255;  0; 255; 0; 255;  0; 0; 255; 255;  255; 255; 255; 255];
     NativeHandle := None; Timestamp := 2000 |}.

Definition one_pixel_buffer : Buffer :=
  {| buf_id := 3; Data := [255; 0; 0; 255]; NativeHandle := None; Timestamp := 3000 |}.

Definition frame_3x3 : Buffer :=
  {| buf_id := 4; Data := replicate 36 128; NativeHandle := None; Timestamp := 4000 |}.

(** A frame of 2 by 2 pixels, every byte of which is 200. *)
Definition bright_frame_2x2 : Buffer :=
  {| buf_id := 5; Data := replicate 16 200; NativeHandle := None; Timestamp := 5000 |}.

(** The results of configuring new encoders in the quiet world: zero-copy
    encoders for 1280 by 720 and for 2^20 by 2^20 pixels, readout encoders for
    2 by 2 and for 3 by 3 pixels. *)
Definition configured_720p : bool * H264Encoder * World :=
  Configure config_720p (Create false) quiet_world.

Definition configured_huge : bool * H264Encoder * World :=
  Configure config_huge (Create false) quiet_world.

Definition configured_readout_2x2 : bool * H264Encoder * World :=
  Configure (config_of_size 2 2) (Create true) quiet_world.

Definition configured_readout_3x3 : bool * H264Encoder * World :=
  Configure (config_of_size 3 3) (Create true) quiet_world.

(** The configured zero-copy encoder with a given input queue, not yet
    started; the same with the running flag set; and the world the
    configuration left behind. *)
Definition configured_encoder_with (q : list Buffer) : H264Encoder :=
  set_input_queue_ q configured_720p.1.2.

Definition running_encoder : H264Encoder :=
  set_running_ true configured_720p.1.2.

Definition zero_copy_encoder_with (q : list Buffer) : H264Encoder :=
  set_input_queue_ q running_encoder.

Definition running_world : World := configured_720p.2.

(** The configured readout encoder for 2 by 2 pixels, running, with a given
    input queue. *)
Definition readout_encoder_with (q : list Buffer) : H264Encoder :=
  set_input_queue_ q (set_running_ true configured_readout_2x2.1.2).

(** A world whose runtime pulls two buffers while it starts, and one whose
    start fails after one pull. *)
Definition pulling_world : World :=
  set_start_plan [{| pulls := [true; true]; start_ok := true |}] running_world.

Definition failing_start_world : World :=
  set_start_plan [{| pulls := [true]; start_ok := false |}] running_world.

(** The configured readout encoder for 2 by 2 pixels, not running, with a
    given input queue (as [Stop] may leave it behind), and a world whose
    runtime pulls two buffers while it starts that encoder. *)
Definition stopped_readout_encoder_with (q : list Buffer) : H264Encoder :=
  set_input_queue_ q configured_readout_2x2.1.2.

Definition readout_pulling_world : World :=
  set_start_plan [{| pulls := [true; true]; start_ok := true |}]
    configured_readout_2x2.2.

(** The running zero-copy encoder after packing a buffer, and after queueing
    and packing the same buffer once more. *)
Definition packed_state : H264Encoder * World :=
  match PackBuffer handle_buffer 1000 running_encoder running_world with
  | Ok (_, thiz, w) => (thiz, w)
  | UB => (running_encoder, running_world)
  end.

Definition later_state : H264Encoder * World :=
  match run [OpQueueBuffer handle_buffer; OpSourceRead true]
          packed_state.1 packed_state.2 with
  | Ok s => s
  | UB => packed_state
  end.

(** ** Notions and inputs of the further properties *)

(** The read cursor always stands on the first byte of a pixel. *)
Definition on_pixel (c : Cursor) : Prop :=
  0 ≤ s_ c < 2 ^ 32 ∧ s_ c mod 4 = 0.

(** The content of the runtime buffer [PackBuffer] hands out for a frame
    buffer with a native handle. *)
Definition native_metadata_buffer (w : World) (b : Buffer) (ts : Z) : MediaBuffer :=
  {| mb_size := sizeof_VideoNativeMetadata (abi w);
     mb_data := NativeMetadata kMetadataBufferTypeANWBuffer (NativeHandle b) (-1);
     mb_meta := [(KEY_TIME, MetaInt64 ts)];
     mb_observer := true |}.

(** An encoded unit that has a timestamp in its meta data. *)
Definition stamped_unit : EncodedUnit :=
  {| eu_data := [0; 0; 0; 1; 103];
     eu_meta := Some [(KEY_IS_CODEC_CONFIG, MetaInt32 1); (KEY_TIME, MetaInt64 4000)] |}.

(** Two encoder states with the same configuration: they differ at most in
    the running flag, the input queue and the pending buffers. *)
Definition same_configuration (a b : H264Encoder) : Prop :=
  format_ a = format_ b ∧ source_format_ a = source_format_ b
  ∧ encoder_ a = encoder_ b ∧ readout_ a = readout_ b ∧ config_ a = config_ b
  ∧ start_time_ a = start_time_ b ∧ frame_count_ a = frame_count_ b.





(** * Properties *)

(** ** Machine arithmetic *)

Lemma wrap32_small z : 0 ≤ z < 2 ^ 32 → wrap32 z = z.
Proof. intros H. unfold wrap32. apply Z.mod_small. exact H. Qed.

Lemma to_int32_small z : 0 ≤ z < 2 ^ 31 → to_int32 z = z.
Proof.
  intros H. unfold to_int32.
  rewrite Z.mod_small by lia.
  destruct (Z.leb_spec (2 ^ 31) z); lia.
Qed.

Lemma ceil_div_16 a : 0 ≤ a → (a + 15) / 16 = ceil_div a 16.
Proof.
  intros Ha. unfold ceil_div.
  destruct (Z.eqb_spec (a mod 16) 0) as [E | E];
    Z.div_mod_to_equations; lia.
Qed.

(** The machine computation agrees with the spec's formula as long as
    nothing wraps. *)
Lemma intra_refresh_mbs_exact (c : Config) :
  0 ≤ width c < 2 ^ 32 - 15 →
  0 ≤ height c < 2 ^ 32 - 15 →
  ceil_div (width c) 16 * ceil_div (height c) 16 * 10 < 2 ^ 32 →
  intra_refresh_mbs c = macroblock_refresh_count (width c) (height c).
Proof.
  intros Hw Hh Hfit. unfold intra_refresh_mbs, macroblock_refresh_count.
  rewrite <- !ceil_div_16 in * by lia.
  assert (0 ≤ (width c + 15) / 16) by (apply Z.div_pos; lia).
  assert (0 ≤ (height c + 15) / 16) by (apply Z.div_pos; lia).
  rewrite (wrap32_small (width c + 15)) by lia.
  rewrite (wrap32_small (height c + 15)) by lia.
  set (a := (width c + 15) / 16) in *. set (b := (height c + 15) / 16) in *.
  assert (0 ≤ a * b) by (apply Z.mul_nonneg_nonneg; lia).
  rewrite (wrap32_small (a * b)) by lia.
  rewrite wrap32_small by lia.
  apply to_int32_small.
  split; [apply Z.div_pos; lia | ].
  apply Z.div_lt_upper_bound; lia.
Qed.

(** ** The runtime heap *)

Lemma create_object_ok o w :
  next_alloc_ok w = true →
  create_object o w =
    (Some (next_handle w),
     set_next_handle (Pos.succ (next_handle w))
       (set_heap (<[next_handle w := o]> (heap w))
          (set_alloc_plan (tail (alloc_plan w)) w))).
Proof. intros H. unfold create_object. now rewrite H. Qed.

Lemma create_object_fail o w :
  next_alloc_ok w = false →
  create_object o w = (None, set_alloc_plan (tail (alloc_plan w)) w).
Proof. intros H. unfold create_object. now rewrite H. Qed.

Lemma create_object_Some o w h w' :
  create_object o w = (Some h, w') →
  h = next_handle w ∧ heap w' = <[h := o]> (heap w)
  ∧ next_handle w' = Pos.succ h ∧ trace w' = trace w ∧ abi w' = abi w.
Proof.
  unfold create_object. destruct (next_alloc_ok w); intros [= <- <-]; auto.
Qed.

Lemma create_object_None o w w' :
  create_object o w = (None, w') →
  next_alloc_ok w = false ∧ heap w' = heap w ∧ next_handle w' = next_handle w
  ∧ trace w' = trace w.
Proof.
  unfold create_object. destruct (next_alloc_ok w); intros [= <-]; auto.
Qed.

Lemma heap_update_object f h w h' :
  heap (update_object f h w) !! h'
  = if decide (h = h') then f <$> heap w !! h' else heap w !! h'.
Proof.
  unfold update_object. cbn. destruct (decide (h = h')) as [-> | Hne].
  - apply lookup_alter_eq.
  - now apply lookup_alter_ne.
Qed.

Lemma heap_update_object_ne f h w h' :
  h ≠ h' → heap (update_object f h w) !! h' = heap w !! h'.
Proof. intros H. rewrite heap_update_object. now destruct (decide (h = h')). Qed.

Lemma next_handle_update_object f h w :
  next_handle (update_object f h w) = next_handle w.
Proof. reflexivity. Qed.

Lemma alloc_plan_update_object f h w :
  alloc_plan (update_object f h w) = alloc_plan w.
Proof. reflexivity. Qed.

Lemma heap_update_object_eq f h w :
  heap (update_object f h w) !! h = f <$> heap w !! h.
Proof. unfold update_object. cbn. apply lookup_alter_eq. Qed.

(** ** Configure *)

(** [fill_format] only writes into the message [format]. *)
Lemma fill_format_frame readout c format w :
  next_handle (fill_format readout c format w) = next_handle w
  ∧ alloc_plan (fill_format readout c format w) = alloc_plan w
  ∧ trace (fill_format readout c format w) = trace w
  ∧ ∀ h, h ≠ format → heap (fill_format readout c format w) !! h = heap w !! h.
Proof.
  unfold fill_format, media_message_set_int32, media_message_set_string.
  cbv zeta.
  destruct (0 <? i_frame_interval c), (0 <? profile_idc c),
    (0 <? level_idc c), (0 <? constraint_set c);
    (repeat split; [intros h Hne; now rewrite !heap_update_object_ne by done]).
Qed.

Lemma fill_format_mbs readout c format w m0 :
  heap w !! format = Some (ObjMessage m0) →
  ∃ m, heap (fill_format readout c format w) !! format = Some (ObjMessage m)
       ∧ m !! kFormatKeyIntraRefreshCIRMbs = Some (MsgInt32 (intra_refresh_mbs c)).
Proof.
  intros H0.
  unfold fill_format, media_message_set_int32, media_message_set_string.
  cbv zeta.
  destruct (0 <? i_frame_interval c), (0 <? profile_idc c),
    (0 <? level_idc c), (0 <? constraint_set c);
    rewrite !heap_update_object_eq, H0; cbn; eexists; (split; [reflexivity | ]);
    unfold kFormatKeyIntraRefreshCIRMbs;
    rewrite ?lookup_insert_ne by done; apply lookup_insert_eq.
Qed.

Lemma fill_source_frame c source source_format w :
  next_handle (fill_source c source source_format w) = next_handle w
  ∧ alloc_plan (fill_source c source source_format w) = alloc_plan w
  ∧ trace (fill_source c source source_format w) = trace w
  ∧ ∀ h, h ≠ source → h ≠ source_format →
         heap (fill_source c source source_format w) !! h = heap w !! h.
Proof.
  unfold fill_source, media_meta_data_set_cstring, media_meta_data_set_int32,
    media_source_set_format, media_source_set_callback.
  cbv zeta. repeat split.
  intros h H1 H2. now rewrite !heap_update_object_ne by done.
Qed.

Lemma set_encoder_same thiz : set_encoder_ (encoder_ thiz) thiz = thiz.
Proof. now destruct thiz. Qed.

(** A failing [Configure] leaves every member variable as it was. *)
Lemma Configure_false config thiz w thiz' w' :
  Configure config thiz w = (false, thiz', w') → thiz' = thiz.
Proof.
  unfold Configure. destruct (encoder_ thiz) as [enc | ] eqn:Henc.
  { now intros [= <- <-]. }
  destruct (media_message_create w) as [[format | ] w1]; [ | now intros [= <- <-]].
  destruct (media_source_create _) as [[source | ] w2]; [ | now intros [= <- <-]].
  destruct (media_meta_data_create _) as [[source_format | ] w3];
    [ | now intros [= <- <-]].
  destruct (media_codec_source_create _ _ _ _) as [[enc | ] w4]; [discriminate | ].
  intros [= <- <-]. rewrite <- Henc. apply set_encoder_same.
Qed.

(** What a successful [Configure] leaves behind. *)
Lemma Configure_true config thiz w thiz' w' :
  Configure config thiz w = (true, thiz', w') →
  encoder_ thiz = None
  ∧ thiz' = set_configuration config (next_handle w)
              (Pos.succ (Pos.succ (next_handle w)))
              (set_encoder_ (Some (Pos.succ (Pos.succ (Pos.succ (next_handle w)))))
                 thiz)
  ∧ trace w' = trace w
  ∧ ∃ m, heap w' !! next_handle w = Some (ObjMessage m)
         ∧ m !! kFormatKeyIntraRefreshCIRMbs
           = Some (MsgInt32 (intra_refresh_mbs config)).
Proof.
  unfold Configure. destruct (encoder_ thiz) as [enc | ] eqn:Henc; [discriminate | ].
  destruct (media_message_create w) as [[format | ] w1] eqn:H1; [ | discriminate].
  apply create_object_Some in H1 as (-> & Hh1 & Hn1 & Ht1 & _).
  destruct (fill_format_frame (readout_ thiz) config (next_handle w) w1)
    as (Hn1' & _ & Ht1' & _).
  destruct (fill_format_mbs (readout_ thiz) config (next_handle w) w1 ∅)
    as (m & Hm & Hmbs).
  { rewrite Hh1. apply lookup_insert_eq. }
  set (wf := fill_format _ _ _ w1) in *.
  destruct (media_source_create wf) as [[source | ] w2] eqn:H2; [ | discriminate].
  apply create_object_Some in H2 as (-> & Hh2 & Hn2 & Ht2 & _).
  destruct (media_meta_data_create w2) as [[source_format | ] w3] eqn:H3;
    [ | discriminate].
  apply create_object_Some in H3 as (-> & Hh3 & Hn3 & Ht3 & _).
  destruct (fill_source_frame config (next_handle wf) (next_handle w2) w3)
    as (Hn3' & _ & Ht3' & Hh3').
  set (ws := fill_source _ _ _ w3) in *.
  destruct (media_codec_source_create _ _ _ ws) as [[enc | ] w4] eqn:H4;
    [ | discriminate].
  apply create_object_Some in H4 as (-> & Hh4 & Hn4 & Ht4 & _).
  rewrite Hn1 in Hn1'. rewrite Hn1' in Hn2, Hh2. rewrite Hn2 in Hn3, Hh3, Hh3'.
  rewrite Hn3 in Hn3'. rewrite Hn1' in Hh3'. rewrite Hn3' in Hh4.
  intros [= <- <-]. split; [done | ].
  rewrite ?Hn3, ?Hn2.
  split; [done | ]. split; [congruence | ].
  exists m. split; [ | done].
  rewrite Hh4, lookup_insert_ne by lia.
  rewrite Hh3' by lia.
  rewrite Hh3, lookup_insert_ne by lia.
  rewrite Hh2, lookup_insert_ne by lia.
  exact Hm.
Qed.

(** [Configure] succeeds on an unconfigured encoder when the runtime creates
    the four objects it is asked for. *)
Lemma Configure_succeeds config thiz w :
  encoder_ thiz = None →
  alloc_plan w = [] →
  (Configure config thiz w).1.1 = true.
Proof.
  intros He Hp. unfold Configure. rewrite He.
  assert (∀ x, alloc_plan x = [] → next_alloc_ok x = true) as Hok
    by (intros x Hx; unfold next_alloc_ok; now rewrite Hx).
  unfold media_message_create. rewrite create_object_ok by auto.
  set (w1 := set_next_handle _ _).
  assert (alloc_plan w1 = []) as Hp1 by (unfold w1; cbn; now rewrite Hp).
  destruct (fill_format_frame (readout_ thiz) config (next_handle w) w1)
    as (_ & Hpf & _).
  set (wf := fill_format _ _ _ w1) in *. clearbody wf. rewrite Hp1 in Hpf.
  unfold media_source_create. rewrite create_object_ok by auto.
  set (w2 := set_next_handle _ _).
  assert (alloc_plan w2 = []) as Hp2 by (unfold w2; cbn; now rewrite Hpf).
  clearbody w2.
  unfold media_meta_data_create. rewrite create_object_ok by auto.
  set (w3 := set_next_handle _ _).
  assert (alloc_plan w3 = []) as Hp3 by (unfold w3; cbn; now rewrite Hp2).
  clearbody w3.
  destruct (fill_source_frame config (next_handle wf) (next_handle w2) w3)
    as (_ & Hps & _).
  set (ws := fill_source _ _ _ w3) in *. clearbody ws. rewrite Hp3 in Hps.
  unfold media_codec_source_create. rewrite create_object_ok by auto.
  reflexivity.
Qed.

(** C7, as stated, fails: for a frame of 2^20 by 2^20 pixels (a valid
    configuration: positive width, height and bitrate) the product
    65536 * 65536 wraps to 0 in 32-bit arithmetic, so [Configure] succeeds
    and stores 0 under "intra-refresh-CIR-mbs", whereas
    ⌈width/16⌉·⌈height/16⌉·10% is 429496729. *)
Lemma Configure_mbs_wraps :
  valid_config config_huge
  ∧ configured_huge.1.1 = true
  ∧ format_entry kFormatKeyIntraRefreshCIRMbs configured_huge.1.2 configured_huge.2
    = Some (MsgInt32 0)
  ∧ macroblock_refresh_count (width config_huge) (height config_huge) = 429496729.
Proof.
  split; [repeat split | ].
  vm_compute. repeat split.
Qed.

(** C7 (amended): whenever ⌈width/16⌉·⌈height/16⌉·10 fits into 32 bits
    (and width + 15, height + 15 do), a successful [Configure] stores
    ⌈width/16⌉·⌈height/16⌉·10% (integer division) under
    "intra-refresh-CIR-mbs" in the format message; for 1280 by 720 the stored
    count is 360. *)
Theorem Configure_intra_refresh_mbs config thiz w thiz' w' :
  0 ≤ width config < 2 ^ 32 - 15 →
  0 ≤ height config < 2 ^ 32 - 15 →
  ceil_div (width config) 16 * ceil_div (height config) 16 * 10 < 2 ^ 32 →
  Configure config thiz w = (true, thiz', w') →
  format_entry kFormatKeyIntraRefreshCIRMbs thiz' w'
  = Some (MsgInt32 (macroblock_refresh_count (width config) (height config)))
  ∧ (width config = 1280 → height config = 720 →
     format_entry kFormatKeyIntraRefreshCIRMbs thiz' w' = Some (MsgInt32 360)).
Proof.
  intros Hw Hh Hfit HC.
  apply Configure_true in HC as (_ & -> & _ & m & Hm & Hmbs).
  assert (format_entry kFormatKeyIntraRefreshCIRMbs
            (set_configuration config (next_handle w)
               (Pos.succ (Pos.succ (next_handle w)))
               (set_encoder_
                  (Some (Pos.succ (Pos.succ (Pos.succ (next_handle w))))) thiz)) w'
          = Some (MsgInt32 (macroblock_refresh_count (width config) (height config))))
    as E.
  { unfold format_entry. cbn. rewrite Hm, Hmbs.
    now rewrite intra_refresh_mbs_exact. }
  split; [exact E | ].
  intros E1 E2. rewrite E, E1, E2. reflexivity.
Qed.

Lemma Configure_intra_refresh_mbs_witness :
  format_entry kFormatKeyIntraRefreshCIRMbs configured_720p.1.2 configured_720p.2
  = Some (MsgInt32 360).
Proof.
  refine (proj2 (Configure_intra_refresh_mbs config_720p (Create false)
                   quiet_world configured_720p.1.2 configured_720p.2
                   _ _ _ _) _ _).
  - cbn; lia.
  - cbn; lia.
  - vm_compute; reflexivity.
  - vm_compute; reflexivity.
  - reflexivity.
  - reflexivity.
Defined.

Lemma events_since_app w w' evs :
  trace w' = trace w ++ evs → events_since w w' = evs.
Proof. unfold events_since. intros ->. apply drop_app_length. Qed.

(** Objects created and released within a failing [Configure] leave the heap
    as it was. *)
Lemma Configure_false_heap config thiz w thiz' w' :
  heap_fresh w →
  Configure config thiz w = (false, thiz', w') →
  heap w' = heap w.
Proof.
  intros Hfresh. unfold Configure.
  destruct (encoder_ thiz) as [enc | ]; [now intros [= <- <-] | ].
  destruct (media_message_create w) as [[format | ] w1] eqn:H1.
  2:{ apply create_object_None in H1 as (_ & Hh & _). now intros [= _ <-]. }
  apply create_object_Some in H1 as (-> & Hh1 & Hn1 & _).
  destruct (fill_format_frame (readout_ thiz) config (next_handle w) w1)
    as (Hn1' & _ & _ & Hf1).
  set (wf := fill_format _ _ _ w1) in *. clearbody wf.
  rewrite Hn1 in Hn1'.
  destruct (media_source_create wf) as [[source | ] w2] eqn:H2.
  2:{ apply create_object_None in H2 as (_ & Hh2 & _). intros [= _ <-].
      unfold media_message_release, release_object, AC_ERROR. cbn.
      apply map_eq. intros h. rewrite Hh2.
      destruct (decide (h = next_handle w)) as [-> | Hne].
      - rewrite lookup_delete_eq. symmetry. apply Hfresh. lia.
      - rewrite lookup_delete_ne, Hf1, Hh1, lookup_insert_ne by done. done. }
  apply create_object_Some in H2 as (-> & Hh2 & Hn2 & _).
  rewrite Hn1' in Hn2, Hh2.
  destruct (media_meta_data_create w2) as [[source_format | ] w3] eqn:H3.
  2:{ apply create_object_None in H3 as (_ & Hh3 & _). intros [= _ <-].
      unfold media_source_release, media_message_release, release_object, AC_ERROR.
      cbn. apply map_eq. intros h. rewrite Hh3, Hh2, Hn1'.
      destruct (decide (h = Pos.succ (next_handle w))) as [-> | Hne2].
      { rewrite lookup_delete_eq. symmetry. apply Hfresh. lia. }
      rewrite lookup_delete_ne by done.
      destruct (decide (h = next_handle w)) as [-> | Hne].
      { rewrite lookup_delete_eq. symmetry. apply Hfresh. lia. }
      rewrite lookup_delete_ne, lookup_insert_ne, Hf1, Hh1, lookup_insert_ne
        by done. done. }
  apply create_object_Some in H3 as (-> & Hh3 & Hn3 & _).
  rewrite Hn2 in Hn3, Hh3. rewrite Hn1', Hn2.
  destruct (fill_source_frame config (Pos.succ (next_handle w))
              (Pos.succ (Pos.succ (next_handle w))) w3) as (Hn3' & _ & _ & Hf3).
  set (ws := fill_source _ _ _ w3) in *. clearbody ws.
  destruct (media_codec_source_create _ _ _ ws) as [[enc | ] w4] eqn:H4;
    [discriminate | ].
  apply create_object_None in H4 as (_ & Hh4 & _). intros [= _ <-].
  unfold media_source_release, media_message_release, media_meta_data_release,
    release_object, AC_ERROR.
  cbn. apply map_eq. intros h. rewrite Hh4.
  destruct (decide (h = Pos.succ (next_handle w))) as [-> | Hne2].
  { rewrite lookup_delete_eq. symmetry. apply Hfresh. lia. }
  rewrite lookup_delete_ne by done.
  destruct (decide (h = next_handle w)) as [-> | Hne].
  { rewrite lookup_delete_eq. symmetry. apply Hfresh. lia. }
  rewrite lookup_delete_ne by done.
  destruct (decide (h = Pos.succ (Pos.succ (next_handle w)))) as [-> | Hne3].
  { rewrite lookup_delete_eq. symmetry. apply Hfresh. lia. }
  rewrite lookup_delete_ne, Hf3, Hh3, lookup_insert_ne, Hh2, lookup_insert_ne,
    Hf1, Hh1, lookup_insert_ne by done.
  done.
Qed.

(** C4: after a successful [Configure] with a valid configuration, any
    further [Configure] call fails and changes nothing: the first
    configuration and the encoder handle stay stored.  Any failing
    [Configure] call (duplicate call, or a runtime object that cannot be
    created) leaves all member variables as they were -- the stored
    configuration, format, source format and encoder handle -- and, the
    objects created on the way being released again, the runtime heap too. *)
Theorem Configure_twice_fails config thiz w thiz1 w1 :
  valid_config config →
  Configure config thiz w = (true, thiz1, w1) →
  (∀ config', Configure config' thiz1 w1 = (false, thiz1, w1))
  ∧ config_ thiz1 = config
  ∧ is_Some (encoder_ thiz1)
  ∧ (∀ c e x e' x',
       Configure c e x = (false, e', x') →
       e' = e
       ∧ config_ e' = config_ e ∧ format_ e' = format_ e
       ∧ source_format_ e' = source_format_ e ∧ encoder_ e' = encoder_ e
       ∧ (heap_fresh x → heap x' = heap x)).
Proof.
  intros _ HC. apply Configure_true in HC as (_ & -> & _).
  split; [ | split; [reflexivity | split; [now eexists | ]]].
  - intros config'. reflexivity.
  - intros c e x e' x' HF. pose proof (Configure_false _ _ _ _ _ HF) as ->.
    repeat split. intros Hfresh. eapply Configure_false_heap; eauto.
Qed.

Lemma Configure_twice_fails_witness :
  Configure config_huge configured_720p.1.2 configured_720p.2
  = (false, configured_720p.1.2, configured_720p.2)
  ∧ config_ configured_720p.1.2 = config_720p.
Proof.
  pose proof (Configure_twice_fails config_720p (Create false) quiet_world
                configured_720p.1.2 configured_720p.2) as H.
  destruct H as (H1 & H2 & _).
  - repeat split.
  - vm_compute; reflexivity.
  - split; [apply H1 | apply H2].
Defined.

(** ** The running flag as a gate *)

(** C8: while [running_] is false, [Start] on an unconfigured encoder
    ([encoder_] is null, as the constructor leaves it and as a failing
    [Configure] keeps it) fails without setting the flag; [Stop] fails and
    changes nothing; [Execute] fails, leaves the encoder as it is and only
    logs an error; [QueueBuffer] changes neither the queue nor anything else
    and notifies nobody; a pull-read answers not-connected and changes
    nothing. *)
Theorem not_running_is_gated thiz w :
  running_ thiz = false →
  (encoder_ thiz = None → Start thiz w = Ok (false, thiz, w))
  ∧ Stop thiz w = (false, thiz, w)
  ∧ Execute thiz w
    = (false, thiz, AC_ERROR "Tried to execute encoder while not started" w)
  ∧ (∀ b, QueueBuffer b thiz w = (thiz, w)
          ∧ length (input_queue_ (QueueBuffer b thiz w).1) = length (input_queue_ thiz)
          ∧ List.filter is_report (events_since w (QueueBuffer b thiz w).2) = [])
  ∧ (∀ slot user_data,
       OnSourceRead slot user_data thiz w
       = Ok (kAndroidMediaErrorNotConnected, None, thiz, w))
  ∧ encoder_ (Create (readout_ thiz)) = None
  ∧ running_ (Create (readout_ thiz)) = false.
Proof.
  intros Hr. repeat split.
  - intros He. unfold Start. now rewrite He.
  - unfold Stop. rewrite Hr. now destruct (encoder_ thiz).
  - unfold Execute. now rewrite Hr.
  - unfold QueueBuffer. now rewrite Hr.
  - unfold QueueBuffer. now rewrite Hr.
  - unfold QueueBuffer. rewrite Hr. cbn.
    now rewrite (events_since_app w w []) by (now rewrite app_nil_r).
  - unfold OnSourceRead. rewrite Hr. now destruct user_data.
Qed.

Lemma not_running_is_gated_witness :
  Start (Create true) quiet_world = Ok (false, Create true, quiet_world)
  ∧ Stop (Create true) quiet_world = (false, Create true, quiet_world)
  ∧ QueueBuffer pixel_buffer (Create true) quiet_world = (Create true, quiet_world).
Proof.
  destruct (not_running_is_gated (Create true) quiet_world) as (H1 & H2 & _ & H4 & _).
  - reflexivity.
  - split; [apply H1; reflexivity | ].
    split; [apply H2 | apply H4].
Defined.

(** ** Stop *)

Lemma Stop_running thiz w enc :
  encoder_ thiz = Some enc →
  running_ thiz = true →
  Stop thiz w =
    let w1 := set_stop_plan (tail (stop_plan w)) (emit (EvCodec (CodecStop enc)) w) in
    if next_stop_ok w then (true, set_running_ false thiz, report_ Stopped w1)
    else (false, thiz, w1).
Proof.
  intros He Hr. unfold Stop. rewrite He, Hr. cbn.
  assert (next_stop_ok (emit (EvCodec (CodecStop enc)) w) = next_stop_ok w) as ->
    by reflexivity.
  now destruct (next_stop_ok w).
Qed.

Lemma Stop_not_running thiz w :
  running_ thiz = false → Stop thiz w = (false, thiz, w).
Proof. intros Hr. unfold Stop. rewrite Hr. now destruct (encoder_ thiz). Qed.

(** C9: [Stop] on a configured, running encoder asks the runtime to stop.
    If the runtime succeeds, the call returns true, [running_] is cleared and
    the reporter is told [Stopped]; a second [Stop] right after returns false
    and changes nothing, so that both calls together notify [Stopped] exactly
    once.  If the runtime fails, the call returns false, the encoder is
    unchanged and nothing is reported. *)
Theorem Stop_twice thiz w enc :
  encoder_ thiz = Some enc →
  running_ thiz = true →
  if next_stop_ok w then
    ∃ thiz1 w1,
      Stop thiz w = (true, thiz1, w1)
      ∧ thiz1 = set_running_ false thiz
      ∧ running_ thiz1 = false
      ∧ trace w1 = trace w ++ [EvCodec (CodecStop enc); EvReport Stopped]
      ∧ Stop thiz1 w1 = (false, thiz1, w1)
      ∧ count_stopped (events_since w (Stop thiz1 w1).2) = 1%nat
  else
    ∃ w1,
      Stop thiz w = (false, thiz, w1)
      ∧ trace w1 = trace w ++ [EvCodec (CodecStop enc)].
Proof.
  intros He Hr. rewrite (Stop_running thiz w enc He Hr). cbv zeta.
  destruct (next_stop_ok w).
  - eexists _, _. split; [reflexivity | ]. split; [reflexivity | ].
    split; [reflexivity | ].
    assert (∀ A (l : list A) x y, (l ++ [x]) ++ [y] = l ++ [x; y]) as Happ
      by (intros; now rewrite <- app_assoc).
    split; [apply Happ | ].
    rewrite Stop_not_running by reflexivity.
    split; [reflexivity | ].
    cbn [snd].
    rewrite (events_since_app w _ [EvCodec (CodecStop enc); EvReport Stopped]).
    + reflexivity.
    + apply Happ.
  - eexists. split; reflexivity.
Qed.

Lemma Stop_twice_witness :
  ∃ thiz1 w1,
    Stop running_encoder running_world = (true, thiz1, w1)
    ∧ running_ thiz1 = false
    ∧ Stop thiz1 w1 = (false, thiz1, w1)
    ∧ count_stopped (events_since running_world (Stop thiz1 w1).2) = 1%nat.
Proof.
  pose proof (Stop_twice running_encoder running_world 4%positive) as H.
  cbv beta in H.
  assert (encoder_ running_encoder = Some 4%positive) as He
    by (vm_compute; reflexivity).
  assert (running_ running_encoder = true) as Hr by reflexivity.
  specialize (H He Hr).
  assert (next_stop_ok running_world = true) as Hok by (vm_compute; reflexivity).
  rewrite Hok in H.
  destruct H as (thiz1 & w1 & H1 & _ & H2 & _ & H3 & H4).
  exists thiz1, w1. auto.
Defined.

(** ** Packing *)

Lemma Length_nonneg b : 0 ≤ Length b.
Proof. unfold Length. lia. Qed.

Lemma PackBuffer_mismatch b ts thiz w :
  mode_mismatch (readout_ thiz) b = true →
  PackBuffer b ts thiz w
  = Ok (None, thiz, AC_WARNING "Could not allocate media buffer" w).
Proof.
  unfold mode_mismatch, PackBuffer. pose proof (Length_nonneg b).
  destruct (readout_ thiz), (has_native_handle b); cbn; try discriminate; try done.
  destruct (Z.eqb_spec (Length b) 0) as [-> | ]; [done | discriminate].
Qed.

Lemma PackBuffer_alloc_failure b ts thiz w :
  mode_mismatch (readout_ thiz) b = false →
  next_alloc_ok w = false →
  PackBuffer b ts thiz w
  = Ok (None, thiz,
        AC_WARNING "Ignoring media buffer" (set_alloc_plan (tail (alloc_plan w)) w)).
Proof.
  unfold mode_mismatch, PackBuffer, media_buffer_create. intros Hm Ha.
  pose proof (Length_nonneg b).
  destruct (readout_ thiz), (has_native_handle b); cbn in *; try discriminate;
    rewrite ?create_object_fail by done; try done.
  destruct (Z.ltb_spec 0 (Length b)), (Z.eqb_spec (Length b) 0);
    try discriminate; try lia.
  reflexivity.
Qed.

(** C5: packing a buffer that does not fit the mode -- in readout mode a
    buffer with a native handle or of length zero, in zero-copy mode a buffer
    without a native handle -- yields no packed buffer, adds no pending entry
    (the encoder is unchanged) and only logs a warning.  The same holds when
    the runtime cannot allocate the packed buffer.  In all these cases the
    call returns normally. *)
Theorem PackBuffer_drops_unfit_buffers b ts thiz w :
  (readout_ thiz = true → has_native_handle b = true ∨ Length b = 0 →
   PackBuffer b ts thiz w
   = Ok (None, thiz, AC_WARNING "Could not allocate media buffer" w))
  ∧ (readout_ thiz = false → has_native_handle b = false →
     PackBuffer b ts thiz w
     = Ok (None, thiz, AC_WARNING "Could not allocate media buffer" w))
  ∧ (next_alloc_ok w = false →
     ∃ msg w',
       PackBuffer b ts thiz w = Ok (None, thiz, w')
       ∧ trace w' = trace w ++ [EvLog Warning msg]
       ∧ heap w' = heap w).
Proof.
  repeat split.
  - intros Hr Hb. apply PackBuffer_mismatch. unfold mode_mismatch. rewrite Hr.
    destruct Hb as [-> | ->]; [done | apply orb_true_r].
  - intros Hr Hb. apply PackBuffer_mismatch. unfold mode_mismatch.
    now rewrite Hr, Hb.
  - intros Ha. destruct (mode_mismatch (readout_ thiz) b) eqn:Hm.
    + rewrite PackBuffer_mismatch by done. now eexists _, _.
    + rewrite PackBuffer_alloc_failure by done. now eexists _, _.
Qed.

Lemma PackBuffer_drops_unfit_buffers_witness :
  PackBuffer handle_buffer 1000 (readout_encoder_with []) configured_readout_2x2.2
  = Ok (None, readout_encoder_with [],
        AC_WARNING "Could not allocate media buffer" configured_readout_2x2.2)
  ∧ PackBuffer pixel_buffer 2000 running_encoder running_world
    = Ok (None, running_encoder,
          AC_WARNING "Could not allocate media buffer" running_world)
  ∧ ∃ msg w',
      PackBuffer handle_buffer 1000 running_encoder failing_alloc_world
      = Ok (None, running_encoder, w')
      ∧ trace w' = trace failing_alloc_world ++ [EvLog Warning msg]
      ∧ heap w' = heap failing_alloc_world.
Proof.
  split; [ | split].
  - apply (proj1 (PackBuffer_drops_unfit_buffers handle_buffer 1000
                    (readout_encoder_with []) configured_readout_2x2.2)).
    + reflexivity.
    + left; reflexivity.
  - apply (proj1 (proj2 (PackBuffer_drops_unfit_buffers pixel_buffer 2000
                           running_encoder running_world))).
    + reflexivity.
    + reflexivity.
  - apply (proj2 (proj2 (PackBuffer_drops_unfit_buffers handle_buffer 1000
                           running_encoder failing_alloc_world))).
    reflexivity.
Defined.

(** ** The pull-read callback *)

Lemma OnSourceRead_queue thiz w b rest :
  running_ thiz = true →
  input_queue_ thiz = b :: rest →
  OnSourceRead true true thiz w =
    match PackBuffer b (Timestamp b) (set_input_queue_ rest thiz) w with
    | Ok (Some p, thiz', w') =>
        Ok (0, Some p, thiz', report_ (BeganFrame (Timestamp b)) w')
    | Ok (None, thiz', w') => Ok (kAndroidMediaErrorEndOfStream, None, thiz', w')
    | UB => UB
    end.
Proof.
  intros Hr Hq. unfold OnSourceRead. rewrite Hr, Hq. cbn.
  destruct (PackBuffer _ _ _ _) as [[[[p | ] thiz'] w'] | ]; reflexivity.
Qed.

(** C2, as stated, fails: the callback does not always answer success once a
    buffer has been popped.  A running readout encoder whose queue holds a
    buffer with a native handle pops it and answers end-of-stream (-1011),
    with an empty output slot. *)
Lemma OnSourceRead_popped_but_not_packed :
  running_ (readout_encoder_with [handle_buffer]) = true
  ∧ input_queue_ (readout_encoder_with [handle_buffer]) = [handle_buffer]
  ∧ OnSourceRead true true (readout_encoder_with [handle_buffer])
      configured_readout_2x2.2
    = Ok (-1011, None, readout_encoder_with [],
          AC_WARNING "Could not allocate media buffer" configured_readout_2x2.2)
  ∧ -1011 ≠ 0.
Proof. vm_compute. repeat split. discriminate. Qed.

(** C2 (amended): the pull-read callback answers not-connected (-1001) if
    the instance pointer is null or the encoder is not running; otherwise
    buffer-too-small (-1009) if the output slot pointer is null; otherwise
    end-of-stream (-1011) if the queue is empty; otherwise it pops the oldest
    buffer and packs it: if packing yields a buffer, it answers 0 with that
    buffer in the output slot and reports [BeganFrame] with the timestamp of
    the popped buffer; if packing yields none, it answers end-of-stream. *)
Theorem OnSourceRead_cases buffer user_data thiz w :
  (user_data = false ∨ running_ thiz = false →
   OnSourceRead buffer user_data thiz w = Ok (-1001, None, thiz, w))
  ∧ (user_data = true → running_ thiz = true → buffer = false →
     OnSourceRead buffer user_data thiz w = Ok (-1009, None, thiz, w))
  ∧ (user_data = true → running_ thiz = true → buffer = true →
     input_queue_ thiz = [] →
     OnSourceRead buffer user_data thiz w = Ok (-1011, None, thiz, w))
  ∧ (∀ b rest p thiz' w',
       user_data = true → running_ thiz = true → buffer = true →
       input_queue_ thiz = b :: rest →
       PackBuffer b (Timestamp b) (set_input_queue_ rest thiz) w
       = Ok (Some p, thiz', w') →
       OnSourceRead buffer user_data thiz w
       = Ok (0, Some p, thiz', report_ (BeganFrame (Timestamp b)) w'))
  ∧ (∀ b rest thiz' w',
       user_data = true → running_ thiz = true → buffer = true →
       input_queue_ thiz = b :: rest →
       PackBuffer b (Timestamp b) (set_input_queue_ rest thiz) w
       = Ok (None, thiz', w') →
       OnSourceRead buffer user_data thiz w = Ok (-1011, None, thiz', w')).
Proof.
  repeat split.
  - intros [-> | Hr]; unfold OnSourceRead; [done | ].
    rewrite Hr. now destruct user_data.
  - intros -> Hr ->. unfold OnSourceRead. now rewrite Hr.
  - intros -> Hr -> Hq. unfold OnSourceRead. now rewrite Hr, Hq.
  - intros b rest p thiz' w' -> Hr -> Hq HP.
    rewrite (OnSourceRead_queue thiz w b rest Hr Hq). now rewrite HP.
  - intros b rest thiz' w' -> Hr -> Hq HP.
    rewrite (OnSourceRead_queue thiz w b rest Hr Hq). now rewrite HP.
Qed.

Lemma OnSourceRead_cases_witness :
  OnSourceRead true true (Create false) quiet_world
  = Ok (-1001, None, Create false, quiet_world)
  ∧ OnSourceRead false true running_encoder running_world
    = Ok (-1009, None, running_encoder, running_world)
  ∧ OnSourceRead true true running_encoder running_world
    = Ok (-1011, None, running_encoder, running_world)
  ∧ ∃ thiz' w',
      OnSourceRead true true (zero_copy_encoder_with [handle_buffer]) running_world
      = Ok (0, Some 5%positive, thiz', report_ (BeganFrame 1000) w').
Proof.
  split; [ | split; [ | split]].
  - apply (proj1 (OnSourceRead_cases true true (Create false) quiet_world)).
    right; vm_compute; reflexivity.
  - apply (proj1 (proj2 (OnSourceRead_cases false true running_encoder
                           running_world))); vm_compute; reflexivity.
  - apply (proj1 (proj2 (proj2 (OnSourceRead_cases true true running_encoder
                                  running_world)))); vm_compute; reflexivity.
  - eexists _, _.
    apply (proj1 (proj2 (proj2 (proj2
             (OnSourceRead_cases true true
                (zero_copy_encoder_with [handle_buffer]) running_world))))
             handle_buffer []); vm_compute; reflexivity.
Defined.

(** ** The buffer-returned callback *)

Lemma find_pending_Some mb l i item :
  find_pending mb l = Some (i, item) →
  l !! i = Some item ∧ media_buffer item = mb.
Proof.
  revert i. induction l as [ | x l IH]; intros i; cbn; [discriminate | ].
  destruct (decide (media_buffer x = mb)) as [E | NE].
  - now intros [= <- <-].
  - destruct (find_pending mb l) as [[j y] | ]; [ | discriminate].
    cbn. intros [= <- <-]. cbn. now apply IH.
Qed.

Lemma find_pending_None mb l :
  find_pending mb l = None ↔ ∀ item, item ∈ l → media_buffer item ≠ mb.
Proof.
  induction l as [ | x l IH]; cbn.
  - split; [ | done]. intros _ item Hin. now apply elem_of_nil in Hin.
  - destruct (decide (media_buffer x = mb)) as [E | NE].
    + split; [discriminate | ]. intros H. exfalso. apply (H x); [left | done].
    + destruct (find_pending mb l) as [[j y] | ]; cbn.
      * split; [discriminate | ]. intros H. exfalso.
        assert (Some (j, y) = None) as [=]. apply IH.
        intros item Hin. apply H. now right.
      * split; [ | done]. intros _ item Hin.
        apply elem_of_cons in Hin as [-> | Hin]; [done | ].
        now apply (proj1 IH).
Qed.

Lemma trace_media_buffer_release h w :
  trace (media_buffer_release h w) = trace w.
Proof.
  unfold media_buffer_release. destruct (lookup_buffer h w) as [mb | ]; [ | done].
  now destruct (mb_observer mb).
Qed.

(** The two ways [OnBufferReturned] can go. *)
Lemma OnBufferReturned_cases mb thiz w :
  (find_pending mb (pending_buffers_ thiz) = None
   ∧ OnBufferReturned mb true thiz w
     = (thiz, AC_WARNING "Didn't remember returned buffer!?" w))
  ∨ (∃ i item,
       find_pending mb (pending_buffers_ thiz) = Some (i, item)
       ∧ (OnBufferReturned mb true thiz w).1
         = set_pending_buffers_ (delete i (pending_buffers_ thiz)) thiz
       ∧ trace (OnBufferReturned mb true thiz w).2
         = trace w ++ [EvRelease (buffer item)]).
Proof.
  unfold OnBufferReturned. cbn.
  destruct (find_pending mb (pending_buffers_ thiz)) as [[i [b m]] | ] eqn:Hf.
  - right. exists i, {| buffer := b; media_buffer := m |}.
    split; [done | ]. split; [done | ]. cbn.
    now rewrite trace_media_buffer_release.
  - now left.
Qed.

(** C10: when a running encoder's pull-read pops a buffer that cannot be
    packed (it does not fit the mode, or the runtime cannot allocate), the
    callback answers end-of-stream, the code it also gives for an empty
    queue.  The buffer is gone from the queue, the pending set is as before,
    nothing but a warning is added to the trace (no release), and a later
    buffer-returned callback does not release it either, unless the same
    buffer was already pending. *)
Theorem pull_read_drops_unpackable_buffer thiz w b rest :
  running_ thiz = true →
  input_queue_ thiz = b :: rest →
  mode_mismatch (readout_ thiz) b = true ∨ next_alloc_ok w = false →
  ∃ msg w',
    OnSourceRead true true thiz w
    = Ok (kAndroidMediaErrorEndOfStream, None, set_input_queue_ rest thiz, w')
    ∧ OnSourceRead true true (set_input_queue_ [] thiz) w
      = Ok (kAndroidMediaErrorEndOfStream, None, set_input_queue_ [] thiz, w)
    ∧ input_queue_ (set_input_queue_ rest thiz) = rest
    ∧ pending_buffers_ (set_input_queue_ rest thiz) = pending_buffers_ thiz
    ∧ events_since w w' = [EvLog Warning msg]
    ∧ ∀ mb ev,
        (∀ item, item ∈ pending_buffers_ thiz → buffer item ≠ b) →
        ev ∈ events_since w'
               (OnBufferReturned mb true (set_input_queue_ rest thiz) w').2 →
        ¬ is_release_of b ev.
Proof.
  intros Hr Hq Hfail.
  assert (∃ msg w', PackBuffer b (Timestamp b) (set_input_queue_ rest thiz) w
                    = Ok (None, set_input_queue_ rest thiz, w')
                    ∧ trace w' = trace w ++ [EvLog Warning msg])
    as (msg & w' & HP & Ht).
  { destruct (mode_mismatch (readout_ thiz) b) eqn:Hm.
    - rewrite PackBuffer_mismatch by done. now eexists _, _.
    - destruct Hfail as [ | Ha]; [done | ].
      rewrite PackBuffer_alloc_failure by done. now eexists _, _. }
  exists msg, w'.
  split. { rewrite (OnSourceRead_queue thiz w b rest Hr Hq). now rewrite HP. }
  split. { unfold OnSourceRead. cbn. now rewrite Hr. }
  split; [done | ]. split; [done | ].
  split. { now apply events_since_app. }
  intros mb ev Hnot Hev.
  destruct (OnBufferReturned_cases mb (set_input_queue_ rest thiz) w')
    as [[_ E] | (i & item & Hf & _ & E)].
  - rewrite E in Hev. unfold AC_WARNING in Hev.
    rewrite (events_since_app w' _ [EvLog Warning "Didn't remember returned buffer!?"])
      in Hev by done.
    apply list_elem_of_singleton in Hev as ->. cbn. tauto.
  - rewrite (events_since_app w' _ [EvRelease (buffer item)]) in Hev by done.
    apply list_elem_of_singleton in Hev as ->. cbn.
    apply find_pending_Some in Hf as [Hl _]. apply Hnot.
    cbn in Hl. eapply list_elem_of_lookup_2. exact Hl.
Qed.

Lemma pull_read_drops_unpackable_buffer_witness :
  ∃ msg w',
    OnSourceRead true true (readout_encoder_with [handle_buffer; pixel_buffer])
      configured_readout_2x2.2
    = Ok (kAndroidMediaErrorEndOfStream, None,
          set_input_queue_ [pixel_buffer]
            (readout_encoder_with [handle_buffer; pixel_buffer]), w')
    ∧ events_since configured_readout_2x2.2 w' = [EvLog Warning msg].
Proof.
  destruct (pull_read_drops_unpackable_buffer
              (readout_encoder_with [handle_buffer; pixel_buffer])
              configured_readout_2x2.2 handle_buffer [pixel_buffer])
    as (msg & w' & H1 & _ & _ & _ & H2 & _).
  - reflexivity.
  - reflexivity.
  - left. vm_compute; reflexivity.
  - exists msg, w'. split; [exact H1 | exact H2].
Defined.

(** ** Frame properties of packing and of the callbacks *)

Lemma only_buffers_differ_refl a : only_buffers_differ a a.
Proof. now repeat split. Qed.

Lemma only_buffers_differ_trans a b c :
  only_buffers_differ a b → only_buffers_differ b c → only_buffers_differ a c.
Proof.
  unfold only_buffers_differ. intros (?&?&?&?&?&?&?&?) (?&?&?&?&?&?&?&?).
  repeat split; congruence.
Qed.

(** What a returning [PackBuffer] has done. *)
Lemma PackBuffer_Ok b ts thiz w r thiz' w' :
  PackBuffer b ts thiz w = Ok (r, thiz', w') →
  match r with
  | None =>
      thiz' = thiz ∧ next_handle w' = next_handle w
      ∧ ∃ msg, trace w' = trace w ++ [EvLog Warning msg]
  | Some p =>
      p = next_handle w ∧ next_handle w' = Pos.succ p
      ∧ thiz' = set_pending_buffers_
                  (pending_buffers_ thiz ++ [{| buffer := b; media_buffer := p |}])
                  thiz
      ∧ trace w' = trace w
  end.
Proof.
  unfold PackBuffer, media_buffer_create.
  destruct (readout_ thiz && negb (has_native_handle b) && (0 <? Length b)).
  { destruct (create_object _ w) as [[p | ] w1] eqn:Hc.
    - apply create_object_Some in Hc as (-> & _ & Hn & Ht & _).
      destruct (rgb2yuv420p _ _ _ _ _) as [yuv | ]; [ | discriminate].
      cbn. intros [= <- <- <-]. cbn. now rewrite Hn, Ht.
    - apply create_object_None in Hc as (_ & _ & Hn & Ht).
      intros [= <- <- <-]. cbn. rewrite Hn, Ht. eauto. }
  destruct (negb (readout_ thiz) && has_native_handle b).
  { destruct (create_object _ w) as [[p | ] w1] eqn:Hc.
    - apply create_object_Some in Hc as (-> & _ & Hn & Ht & _).
      cbn. intros [= <- <- <-]. cbn. now rewrite Hn, Ht.
    - apply create_object_None in Hc as (_ & _ & Hn & Ht).
      intros [= <- <- <-]. cbn. rewrite Hn, Ht. eauto. }
  intros [= <- <- <-]. cbn. eauto.
Qed.

(** In zero-copy mode packing always returns. *)
Lemma PackBuffer_zero_copy_defined b ts thiz w :
  readout_ thiz = false → ∃ r, PackBuffer b ts thiz w = Ok r.
Proof.
  intros Hr. unfold PackBuffer. rewrite Hr. cbn.
  destruct (has_native_handle b); [ | eauto].
  destruct (media_buffer_create _ w) as [[p | ] w1]; eauto.
Qed.

Lemma PackBuffer_frame b ts thiz w r thiz' w' :
  PackBuffer b ts thiz w = Ok (r, thiz', w') →
  only_buffers_differ thiz thiz' ∧ input_queue_ thiz' = input_queue_ thiz.
Proof.
  intros H. apply PackBuffer_Ok in H. destruct r as [p | ].
  - destruct H as (_ & _ & -> & _). now repeat split.
  - destruct H as (-> & _). now repeat split.
Qed.

(** What a returning pull-read has done to the trace and to the encoder. *)
Lemma OnSourceRead_Ok slot thiz w code out thiz' w' :
  running_ thiz = true →
  OnSourceRead slot true thiz w = Ok (code, out, thiz', w') →
  only_buffers_differ thiz thiz'
  ∧ code ≠ kAndroidMediaErrorNotConnected
  ∧ ∃ evs, trace w' = trace w ++ evs
           ∧ Forall (λ ev, start_inner_event ev = true) evs
           ∧ Forall (λ ev, is_pull_read ev = false) evs.
Proof.
  intros Hr. unfold OnSourceRead. rewrite Hr. cbn.
  destruct slot; cbn.
  2:{ intros [= <- <- <- <-]. split; [apply only_buffers_differ_refl | ].
      split; [done | ]. exists []. now rewrite app_nil_r. }
  destruct (input_queue_ thiz) as [ | b rest]; cbn.
  { intros [= <- <- <- <-]. split; [apply only_buffers_differ_refl | ].
    split; [done | ]. exists []. now rewrite app_nil_r. }
  destruct (PackBuffer _ _ _ _) as [[[r thiz1] w1] | ] eqn:HP; [ | discriminate].
  cbn. pose proof (PackBuffer_frame _ _ _ _ _ _ _ HP) as [Hd _].
  apply PackBuffer_Ok in HP.
  assert (only_buffers_differ thiz thiz1) as Hd'.
  { eapply only_buffers_differ_trans; [ | exact Hd]. now repeat split. }
  destruct r as [p | ].
  - destruct HP as (_ & _ & _ & Ht). intros [= <- <- <- <-].
    split; [done | ]. split; [done | ].
    exists [EvReport (BeganFrame (Timestamp b))]. cbn. rewrite Ht.
    split; [done | ]. split; repeat constructor.
  - destruct HP as (_ & _ & msg & Ht). intros [= <- <- <- <-].
    split; [done | ]. split; [done | ].
    exists [EvLog Warning msg]. split; [done | ]. split; repeat constructor.
Qed.

Lemma OnSourceRead_zero_copy_defined slot user_data thiz w :
  readout_ thiz = false → ∃ r, OnSourceRead slot user_data thiz w = Ok r.
Proof.
  intros Hr. unfold OnSourceRead.
  destruct (negb user_data || negb (running_ thiz)); [eauto | ].
  destruct (negb slot); [eauto | ].
  destruct (input_queue_ thiz) as [ | b rest]; cbn; [eauto | ].
  destruct (PackBuffer_zero_copy_defined b (Timestamp b)
              (set_input_queue_ rest thiz) w Hr) as [[[r thiz1] w1] ->].
  cbn. destruct r; eauto.
Qed.

(** ** Start *)

Lemma run_pulls_Ok slots thiz w thiz' w' :
  running_ thiz = true →
  run_pulls slots thiz w = Ok (thiz', w') →
  only_buffers_differ thiz thiz'
  ∧ ∃ evs, trace w' = trace w ++ evs
           ∧ Forall (λ ev, start_inner_event ev = true) evs
           ∧ length (List.filter is_pull_read evs) = length slots.
Proof.
  revert thiz w. induction slots as [ | slot slots IH]; intros thiz w Hr; cbn.
  - intros [= <- <-]. split; [apply only_buffers_differ_refl | ].
    exists []. now rewrite app_nil_r.
  - destruct (OnSourceRead slot true thiz w) as [[[[code out] thiz1] w1] | ] eqn:HR;
      [ | discriminate].
    cbn. intros Hrun.
    apply OnSourceRead_Ok in HR as (Hd & Hcode & evs1 & Ht1 & Hin1 & Hnp1); [ | done].
    apply IH in Hrun as (Hd2 & evs2 & Ht2 & Hin2 & Hlen2).
    2:{ destruct Hd as (_ & _ & _ & <- & _). exact Hr. }
    split; [eapply only_buffers_differ_trans; eauto | ].
    exists (evs1 ++ [EvPullRead code out] ++ evs2).
    split; [cbn in Ht2; rewrite Ht2, Ht1; now rewrite <- !app_assoc | ].
    split.
    + apply Forall_app. split; [done | ]. constructor; [ | done].
      cbn. apply negb_true_iff. now apply Z.eqb_neq.
    + rewrite List.filter_app, length_app. cbn. rewrite Hlen2.
      assert (List.filter is_pull_read evs1 = []) as ->; [ | done].
      clear -Hnp1. induction Hnp1 as [ | ev l Hev _ IHl]; [done | ].
      cbn. now rewrite Hev.
Qed.

Lemma run_pulls_zero_copy_defined slots thiz w :
  readout_ thiz = false → running_ thiz = true →
  ∃ r, run_pulls slots thiz w = Ok r.
Proof.
  revert thiz w. induction slots as [ | slot slots IH]; intros thiz w Hro Hr; cbn.
  - eauto.
  - destruct (OnSourceRead_zero_copy_defined slot true thiz w Hro)
      as [[[[code out] thiz1] w1] HR].
    rewrite HR. cbn.
    apply OnSourceRead_Ok in HR as ((_ & _ & _ & Hr' & Hro' & _) & _); [ | done].
    apply IH; congruence.
Qed.

(** With an empty input queue the pull-reads of a running encoder return in
    either mode: there is nothing to pack. *)
Lemma run_pulls_empty_queue slots thiz w :
  running_ thiz = true → input_queue_ thiz = [] →
  ∃ w', run_pulls slots thiz w = Ok (thiz, w').
Proof.
  intros Hr Hq. revert w. induction slots as [ | slot slots IH]; intros w; cbn.
  - eauto.
  - unfold OnSourceRead. rewrite Hr, Hq. destruct slot; cbn; apply IH.
Qed.

(** C3: [Start] on a configured encoder that is not running raises
    [running_] before it calls the runtime: every pull-read the runtime
    performs inside [media_codec_source_start] is answered with something
    other than not-connected, the answer of an encoder that is not running.
    The result of [Start] is the result of the runtime call; on failure an
    error is logged and [running_] is false again, on success [running_]
    stays true and the reporter is told [Started] after the runtime call.
    In either mode [Start] returns, with that result, whenever the pull-reads
    of the runtime return; they do in zero-copy mode, with an empty input
    queue, and when the runtime pulls nothing. *)
Theorem Start_raises_running_first thiz w enc :
  encoder_ thiz = Some enc →
  running_ thiz = false →
  (∀ r thiz' w',
     Start thiz w = Ok (r, thiz', w') →
     r = start_ok (next_start_episode w).1
     ∧ running_ thiz' = r
     ∧ ∃ inner,
         trace w' = trace w ++ [EvCodec (CodecStart enc)] ++ inner
                      ++ [if r then EvReport Started
                          else EvLog Error "Failed to start encoder"]
         ∧ Forall (λ ev, start_inner_event ev = true) inner
         ∧ length (List.filter is_pull_read inner)
           = length (pulls (next_start_episode w).1))
  ∧ (∀ thiz1 w1,
       run_pulls (pulls (next_start_episode w).1) (set_running_ true thiz)
         (next_start_episode (emit (EvCodec (CodecStart enc)) w)).2
       = Ok (thiz1, w1) →
       running_ thiz1 = true
       ∧ Start thiz w
         = Ok (if start_ok (next_start_episode w).1
               then (true, thiz1, report_ Started w1)
               else (false, set_running_ false thiz1,
                     AC_ERROR "Failed to start encoder" w1)))
  ∧ (readout_ thiz = false ∨ input_queue_ thiz = []
     ∨ pulls (next_start_episode w).1 = [] →
     ∃ r thiz' w', Start thiz w = Ok (r, thiz', w')).
Proof.
  intros He Hr. unfold Start. rewrite He, Hr.
  unfold media_codec_source_start. cbv zeta.
  assert (∃ wp, next_start_episode (emit (EvCodec (CodecStart enc)) w)
                = ((next_start_episode w).1, wp)
                ∧ trace wp = trace w ++ [EvCodec (CodecStart enc)])
    as (wp & -> & Htp).
  { unfold next_start_episode. cbn. destruct (start_plan w); eauto. }
  set (ep := (next_start_episode w).1). cbn [snd].
  assert (∀ thiz1 w1,
            run_pulls (pulls ep) (set_running_ true thiz) wp = Ok (thiz1, w1) →
            running_ thiz1 = true) as Hup.
  { intros thiz1 w1 Hrun.
    apply run_pulls_Ok in Hrun as ((_ & _ & _ & Hr1 & _) & _); [ | done].
    now rewrite <- Hr1. }
  assert (∀ thiz1 w1,
            run_pulls (pulls ep) (set_running_ true thiz) wp = Ok (thiz1, w1) →
            ∃ r thiz' w',
              (' (ok, thiz0, w0) ← (' (thiz0, w0) ← Ok (thiz1, w1);
                                    Ok (start_ok ep, thiz0, w0));
               if negb ok
               then Ok (false, set_running_ false thiz0,
                        AC_ERROR "Failed to start encoder" w0)
               else Ok (true, thiz0, report_ Started w0))
              = Ok (r, thiz', w')) as Hret.
  { intros thiz1 w1 _. cbn. destruct (start_ok ep); cbn; eauto. }
  split; [ | split].
  - intros r thiz' w'.
    destruct (run_pulls (pulls ep) (set_running_ true thiz) wp)
      as [[thiz1 w1] | ] eqn:Hrun; [ | discriminate].
    apply run_pulls_Ok in Hrun as (Hd & inner & Ht & Hin & Hlen); [ | done].
    destruct Hd as (_ & _ & _ & Hr1 & _). cbn in Hr1.
    cbn. destruct (start_ok ep); cbn; intros [= <- <- <-].
    + split; [done | ]. split; [done | ]. exists inner. cbn.
      rewrite Ht, Htp. split; [now rewrite <- !app_assoc | done].
    + split; [done | ]. split; [done | ]. exists inner. cbn.
      rewrite Ht, Htp. split; [now rewrite <- !app_assoc | done].
  - intros thiz1 w1 Hrun. split; [exact (Hup _ _ Hrun) | ].
    rewrite Hrun. cbn. destruct (start_ok ep); reflexivity.
  - intros [Hro | [Hq | Hp]].
    + destruct (run_pulls_zero_copy_defined (pulls ep) (set_running_ true thiz) wp)
        as [[thiz1 w1] Hrun]; [done | done | ].
      rewrite Hrun. eapply Hret, Hrun.
    + destruct (run_pulls_empty_queue (pulls ep) (set_running_ true thiz) wp)
        as [w1 Hrun]; [done | done | ].
      rewrite Hrun. eapply Hret, Hrun.
    + assert (run_pulls (pulls ep) (set_running_ true thiz) wp
              = Ok (set_running_ true thiz, wp)) as Hrun by now rewrite Hp.
      rewrite Hrun. eapply Hret, Hrun.
Qed.

Lemma Start_raises_running_first_witness :
  (∃ thiz' w',
     Start (configured_encoder_with [handle_buffer]) pulling_world
     = Ok (true, thiz', w')
     ∧ running_ thiz' = true
     ∧ events_since pulling_world w'
       = [EvCodec (CodecStart 4%positive);
          EvReport (BeganFrame 1000);
          EvPullRead 0 (Some 5%positive);
          EvPullRead (-1011) None;
          EvReport Started])
  ∧ (∃ thiz' w',
       Start (stopped_readout_encoder_with [pixel_buffer]) readout_pulling_world
       = Ok (true, thiz', w')
       ∧ running_ thiz' = true
       ∧ events_since readout_pulling_world w'
         = [EvCodec (CodecStart 4%positive);
            EvReport (BeganFrame 2000);
            EvPullRead 0 (Some 5%positive);
            EvPullRead (-1011) None;
            EvReport Started]).
Proof.
  split.
  - destruct (Start_raises_running_first (configured_encoder_with [handle_buffer])
                pulling_world 4%positive) as (H1 & _ & H3).
    + vm_compute; reflexivity.
    + vm_compute; reflexivity.
    + destruct H3 as (r & thiz' & w' & HS); [left; reflexivity | ].
      destruct (H1 r thiz' w' HS) as (Er & Hrun & _).
      assert (r = true) as -> by (rewrite Er; vm_compute; reflexivity).
      exists thiz', w'. split; [exact HS | ]. split; [exact Hrun | ].
      assert (Start (configured_encoder_with [handle_buffer]) pulling_world
              = Ok (true, thiz', w')) as HS' by exact HS.
      vm_compute in HS'. injection HS' as <- <-. vm_compute. reflexivity.
  - destruct (Start_raises_running_first
                (stopped_readout_encoder_with [pixel_buffer])
                readout_pulling_world 4%positive) as (_ & H2 & _).
    + vm_compute; reflexivity.
    + vm_compute; reflexivity.
    + edestruct H2 as [Hrun HS]; [vm_compute; reflexivity | ].
      eexists _, _. split; [exact HS | ]. split; [exact Hrun | ].
      vm_compute. reflexivity.
Defined.

(** A start that the runtime refuses after one pull-read: the popped buffer
    has been packed, the flag is down again, an error is logged. *)
Example Start_refused_by_runtime :
  ∃ thiz' w',
    Start (configured_encoder_with [handle_buffer]) failing_start_world
    = Ok (false, thiz', w')
    ∧ running_ thiz' = false
    ∧ input_queue_ thiz' = []
    ∧ events_since failing_start_world w'
      = [EvCodec (CodecStart 4%positive);
         EvReport (BeganFrame 1000);
         EvPullRead 0 (Some 5%positive);
         EvLog Error "Failed to start encoder"].
Proof. eexists _, _. vm_compute. repeat split. Qed.

(** ** The pending set *)

Lemma count_pending_app mb l1 l2 :
  count_pending mb (l1 ++ l2) = (count_pending mb l1 + count_pending mb l2)%nat.
Proof. unfold count_pending. now rewrite List.filter_app, length_app. Qed.

Lemma count_pending_zero mb l :
  count_pending mb l = 0%nat ↔ ∀ item, item ∈ l → media_buffer item ≠ mb.
Proof.
  unfold count_pending. induction l as [ | x l IH]; cbn.
  - split; [ | done]. intros _ item Hin. now apply elem_of_nil in Hin.
  - destruct (Pos.eqb_spec (media_buffer x) mb) as [E | NE]; cbn.
    + split; [discriminate | ]. intros H. exfalso. apply (H x); [left | done].
    + rewrite IH. split.
      * intros H item Hin. apply elem_of_cons in Hin as [-> | Hin]; auto.
      * intros H item Hin. apply H. now right.
Qed.

Lemma count_pending_cons mb x l :
  count_pending mb (x :: l)
  = ((if Pos.eqb (media_buffer x) mb then 1 else 0) + count_pending mb l)%nat.
Proof.
  unfold count_pending. cbn. now destruct (Pos.eqb (media_buffer x) mb).
Qed.

Lemma count_pending_delete mb l i item :
  l !! i = Some item →
  count_pending mb l
  = ((if Pos.eqb (media_buffer item) mb then 1 else 0)
     + count_pending mb (delete i l))%nat.
Proof.
  revert i. induction l as [ | x l IH]; intros [ | i] Hl; cbn in Hl;
    try discriminate.
  - injection Hl as ->. apply count_pending_cons.
  - change (delete (S i) (x :: l)) with (x :: delete i l).
    rewrite !count_pending_cons, (IH i Hl). lia.
Qed.

Lemma count_pending_unique mb l a b :
  count_pending mb l = 1%nat →
  a ∈ l → b ∈ l → media_buffer a = mb → media_buffer b = mb → a = b.
Proof.
  induction l as [ | x l IH]; intros Hc Ha Hb Ea Eb.
  - now apply elem_of_nil in Ha.
  - rewrite count_pending_cons in Hc.
    destruct (Pos.eqb_spec (media_buffer x) mb) as [E | NE]; cbn in Hc.
    + assert (count_pending mb l = 0%nat) as Hz by lia.
      rewrite count_pending_zero in Hz.
      apply elem_of_cons in Ha as [-> | Ha]; [ | now destruct (Hz a Ha)].
      apply elem_of_cons in Hb as [-> | Hb]; [done | now destruct (Hz b Hb)].
    + apply elem_of_cons in Ha as [-> | Ha]; [done | ].
      apply elem_of_cons in Hb as [-> | Hb]; [done | ].
      now apply IH.
Qed.

Lemma elem_of_delete_other (l : list BufferItem) i x y :
  l !! i = Some x → y ∈ l → y ≠ x → y ∈ delete i l.
Proof.
  revert i. induction l as [ | z l IH]; intros [ | i]; cbn; try discriminate.
  - intros [= ->] Hy Hne. apply elem_of_cons in Hy as [-> | Hy]; done.
  - intros Hl Hy Hne. apply elem_of_cons in Hy as [-> | Hy]; [left | ].
    right. now apply (IH i).
Qed.

Lemma elem_of_delete_sub (l : list BufferItem) i y :
  y ∈ delete i l → y ∈ l.
Proof.
  revert i. induction l as [ | z l IH]; intros [ | i]; cbn; try done.
  - intros Hy. now right.
  - intros Hy. apply elem_of_cons in Hy as [-> | Hy]; [left | right; eauto].
Qed.

Lemma pending_wf_mono thiz w thiz' w' :
  pending_wf thiz w →
  pending_buffers_ thiz' = pending_buffers_ thiz →
  (next_handle w ≤ next_handle w')%positive →
  pending_wf thiz' w'.
Proof.
  intros Hwf E Hn x Hx. rewrite E in Hx. specialize (Hwf x Hx). lia.
Qed.

Lemma next_handle_media_buffer_release h w :
  next_handle (media_buffer_release h w) = next_handle w.
Proof.
  unfold media_buffer_release. destruct (lookup_buffer h w) as [mb | ]; [ | done].
  now destruct (mb_observer mb).
Qed.

Lemma Configure_pending config thiz w :
  pending_buffers_ (Configure config thiz w).1.2 = pending_buffers_ thiz
  ∧ (next_handle w ≤ next_handle (Configure config thiz w).2)%positive.
Proof.
  unfold Configure. destruct (encoder_ thiz) as [enc | ]; [cbn; split; [done | lia] | ].
  destruct (media_message_create w) as [[format | ] w1] eqn:H1.
  2:{ apply create_object_None in H1 as (_ & _ & Hn & _). cbn. split; [done | lia]. }
  apply create_object_Some in H1 as (-> & _ & Hn1 & _).
  destruct (fill_format_frame (readout_ thiz) config (next_handle w) w1)
    as (Hn1' & _).
  set (wf := fill_format _ _ _ w1) in *. clearbody wf.
  destruct (media_source_create wf) as [[source | ] w2] eqn:H2.
  2:{ apply create_object_None in H2 as (_ & _ & Hn & _). cbn. split; [done | lia]. }
  apply create_object_Some in H2 as (-> & _ & Hn2 & _).
  destruct (media_meta_data_create w2) as [[source_format | ] w3] eqn:H3.
  2:{ apply create_object_None in H3 as (_ & _ & Hn & _). cbn. split; [done | lia]. }
  apply create_object_Some in H3 as (-> & _ & Hn3 & _).
  destruct (fill_source_frame config (next_handle wf) (next_handle w2) w3)
    as (Hn3' & _).
  set (ws := fill_source _ _ _ w3) in *. clearbody ws.
  destruct (media_codec_source_create _ _ _ ws) as [[enc | ] w4] eqn:H4.
  - apply create_object_Some in H4 as (-> & _ & Hn4 & _). cbn. split; [done | lia].
  - apply create_object_None in H4 as (_ & _ & Hn4 & _). cbn. split; [done | lia].
Qed.

Lemma pending_inv_same keep thiz w thiz' w' :
  pending_inv keep thiz w →
  pending_buffers_ thiz' = pending_buffers_ thiz →
  (next_handle w ≤ next_handle w')%positive →
  pending_inv keep thiz' w'.
Proof.
  intros (Hwf & Hk) E Hn. split; [eapply pending_wf_mono; eauto | ].
  intros item Hitem. destruct (Hk item Hitem) as (Hlt & Hc & Hin).
  rewrite E. split; [lia | done].
Qed.

Lemma pending_inv_append keep thiz w new w' :
  pending_inv keep thiz w →
  media_buffer new = next_handle w →
  (next_handle w < next_handle w')%positive →
  pending_inv keep
    (set_pending_buffers_ (pending_buffers_ thiz ++ [new]) thiz) w'.
Proof.
  intros (Hwf & Hk) Hnew Hn. split.
  - intros x Hx. cbn in Hx. apply elem_of_app in Hx as [Hx | Hx].
    + specialize (Hwf x Hx). lia.
    + apply list_elem_of_singleton in Hx as ->. lia.
  - intros item Hitem. destruct (Hk item Hitem) as (Hlt & Hc & Hin).
    cbn [pending_buffers_ set_pending_buffers_].
    split; [lia | ]. split; [ | apply elem_of_app; now left].
    rewrite count_pending_app, Hc, count_pending_cons.
    destruct (Pos.eqb_spec (media_buffer new) (media_buffer item)); [lia | done].
Qed.

Lemma PackBuffer_keeps keep b ts thiz w r thiz' w' :
  pending_inv keep thiz w →
  PackBuffer b ts thiz w = Ok (r, thiz', w') →
  pending_inv keep thiz' w' ∧ (next_handle w ≤ next_handle w')%positive.
Proof.
  intros HJ HP. apply PackBuffer_Ok in HP. destruct r as [p | ].
  - destruct HP as (-> & Hn & -> & _). split; [ | lia].
    apply (pending_inv_append keep thiz w); [done | done | lia].
  - destruct HP as (-> & Hn & _). split; [ | lia].
    eapply pending_inv_same; eauto. lia.
Qed.

Lemma OnSourceRead_keeps keep slot ud thiz w code out thiz' w' :
  pending_inv keep thiz w →
  OnSourceRead slot ud thiz w = Ok (code, out, thiz', w') →
  pending_inv keep thiz' w' ∧ (next_handle w ≤ next_handle w')%positive.
Proof.
  intros HJ. unfold OnSourceRead.
  destruct (negb ud || negb (running_ thiz)).
  { intros [= <- <- <- <-]. split; [done | lia]. }
  destruct (negb slot).
  { intros [= <- <- <- <-]. split; [done | lia]. }
  destruct (input_queue_ thiz) as [ | b rest]; cbn.
  { intros [= <- <- <- <-]. split; [done | lia]. }
  destruct (PackBuffer _ _ _ _) as [[[r thiz1] w1] | ] eqn:HP; [ | discriminate].
  eapply PackBuffer_keeps in HP as [HJ1 Hn1].
  2:{ eapply pending_inv_same; [exact HJ | done | lia]. }
  cbn. destruct r; intros [= <- <- <- <-]; split; try done.
Qed.

Lemma run_pulls_keeps keep slots thiz w thiz' w' :
  pending_inv keep thiz w →
  run_pulls slots thiz w = Ok (thiz', w') →
  pending_inv keep thiz' w' ∧ (next_handle w ≤ next_handle w')%positive.
Proof.
  revert thiz w. induction slots as [ | slot slots IH]; intros thiz w HJ; cbn.
  - intros [= <- <-]. split; [done | lia].
  - destruct (OnSourceRead slot true thiz w) as [[[[code out] thiz1] w1] | ] eqn:HR;
      [ | discriminate].
    cbn. intros Hrun.
    eapply OnSourceRead_keeps in HR as [HJ1 Hn1]; [ | exact HJ].
    apply IH in Hrun as [HJ2 Hn2].
    + split; [done | ]. cbn in Hn2. lia.
    + eapply pending_inv_same; [exact HJ1 | done | cbn; lia].
Qed.

Lemma Start_keeps keep thiz w r thiz' w' :
  pending_inv keep thiz w →
  Start thiz w = Ok (r, thiz', w') →
  pending_inv keep thiz' w'.
Proof.
  intros HJ. unfold Start.
  destruct (encoder_ thiz) as [enc | ]; [ | now intros [= <- <- <-]].
  destruct (running_ thiz); [now intros [= <- <- <-] | ].
  unfold media_codec_source_start. cbv zeta.
  destruct (next_start_episode _) as [ep wp] eqn:Hep.
  assert (next_handle wp = next_handle w) as Hnp.
  { unfold next_start_episode in Hep. cbn in Hep.
    destruct (start_plan w); injection Hep as <- <-; reflexivity. }
  destruct (run_pulls _ _ wp) as [[thiz1 w1] | ] eqn:Hrun; [ | discriminate].
  eapply run_pulls_keeps in Hrun as [HJ1 Hn1].
  2:{ eapply pending_inv_same; [exact HJ | done | lia]. }
  cbn. destruct (start_ok ep); cbn; intros [= <- <- <-];
    (eapply pending_inv_same; [exact HJ1 | done | cbn; lia]).
Qed.

Lemma OnBufferReturned_pending mb thiz w :
  next_handle (OnBufferReturned mb true thiz w).2 = next_handle w
  ∧ (pending_buffers_ (OnBufferReturned mb true thiz w).1 = pending_buffers_ thiz
     ∨ ∃ i item,
         find_pending mb (pending_buffers_ thiz) = Some (i, item)
         ∧ pending_buffers_ (OnBufferReturned mb true thiz w).1
           = delete i (pending_buffers_ thiz)).
Proof.
  unfold OnBufferReturned. cbn.
  destruct (find_pending mb (pending_buffers_ thiz)) as [[i [b m]] | ] eqn:Hf; cbn.
  - split; [now rewrite next_handle_media_buffer_release | ].
    right. eauto.
  - split; [done | now left].
Qed.

Lemma OnBufferReturned_keeps keep q thiz w :
  (∀ item, keep = Some item → q ≠ media_buffer item) →
  pending_inv keep thiz w →
  pending_inv keep (OnBufferReturned q true thiz w).1
    (OnBufferReturned q true thiz w).2.
Proof.
  intros Hne HJ. destruct (OnBufferReturned_pending q thiz w) as [Hn [E | E]].
  - eapply pending_inv_same; [exact HJ | done | lia].
  - destruct E as (i & x & Hf & E). apply find_pending_Some in Hf as [Hl Hx].
    destruct HJ as (Hwf & Hk). split.
    + intros y Hy. rewrite E in Hy. apply elem_of_delete_sub in Hy.
      rewrite Hn. now apply Hwf.
    + intros item Hitem. destruct (Hk item Hitem) as (Hlt & Hc & Hin).
      specialize (Hne item Hitem). rewrite E, Hn.
      split; [done | ]. split.
      * rewrite (count_pending_delete _ _ i x Hl) in Hc.
        destruct (Pos.eqb_spec (media_buffer x) (media_buffer item));
          [congruence | exact Hc].
      * eapply elem_of_delete_other; eauto. congruence.
Qed.

Lemma step_keeps keep o thiz w thiz' w' :
  does_not_return keep o →
  pending_inv keep thiz w →
  step o thiz w = Ok (thiz', w') →
  pending_inv keep thiz' w'.
Proof.
  intros Hop HJ. destruct o; cbn -[OnBufferReturned].
  - destruct (Configure_pending config thiz w) as [E Hn].
    destruct (Configure config thiz w) as [[r thiz1] w1]. intros [= <- <-].
    eapply pending_inv_same; eauto.
  - destruct (Start thiz w) as [[[r thiz1] w1] | ] eqn:HS; [ | discriminate].
    cbn. intros [= <- <-]. eapply Start_keeps; eauto.
  - unfold Stop. destruct (encoder_ thiz); [ | now intros [= <- <-]].
    destruct (running_ thiz); cbn; [ | now intros [= <- <-]].
    destruct (next_stop_ok _); cbn; intros [= <- <-];
      (eapply pending_inv_same; [exact HJ | done | cbn; lia]).
  - unfold QueueBuffer. destruct (running_ thiz); cbn; intros [= <- <-]; [ | done].
    eapply pending_inv_same; [exact HJ | done | cbn; lia].
  - unfold Execute. destruct (running_ thiz); cbn.
    + unfold media_codec_source_read. cbn.
      destruct (read_plan w) as [ | [u | ] plan]; cbn; intros [= <- <-];
        (eapply pending_inv_same; [exact HJ | done | ]);
        unfold notify_delegate; cbn;
        repeat (match goal with |- context [if ?c then _ else _] => destruct c end;
                cbn); lia.
    + intros [= <- <-]. eapply pending_inv_same; [exact HJ | done | cbn; lia].
  - intros [= <- <-]. eapply pending_inv_same; [exact HJ | done | ].
    unfold SendIDRFrame. destruct (encoder_ thiz); cbn; lia.
  - destruct (OnSourceRead slot true thiz w) as [[[[code out] thiz1] w1] | ] eqn:HR;
      [ | discriminate].
    cbn. intros [= <- <-]. eapply OnSourceRead_keeps in HR as [HJ1 _]; [ | exact HJ].
    eapply pending_inv_same; [exact HJ1 | done | cbn; lia].
  - pose proof (OnBufferReturned_keeps keep mb thiz w) as HK.
    destruct (OnBufferReturned mb true thiz w) as [thiz1 w1].
    intros [= <- <-]. apply HK; [ | done].
    intros item Hitem ->. now apply (Hop item Hitem).
Qed.

Lemma run_keeps keep ops thiz w thiz' w' :
  Forall (does_not_return keep) ops →
  pending_inv keep thiz w →
  run ops thiz w = Ok (thiz', w') →
  pending_inv keep thiz' w'.
Proof.
  intros Hops. revert thiz w. induction Hops as [ | o ops Ho _ IH]; intros thiz w HJ.
  - now intros [= <- <-].
  - cbn. destruct (step o thiz w) as [[thiz1 w1] | ] eqn:Hs; [ | discriminate].
    cbn. apply IH. eapply step_keeps; eauto.
Qed.

(** Well-formedness of the pending set is an invariant of the pipeline. *)
Lemma run_keeps_pending_wf ops readout w thiz' w' :
  run ops (Create readout) w = Ok (thiz', w') → pending_wf thiz' w'.
Proof.
  intros Hrun. eapply (run_keeps None) in Hrun as [Hwf _]; [done | | ].
  - apply Forall_forall. intros o _ item [=].
  - split; [ | intros item [=]]. intros item Hin. now apply elem_of_nil in Hin.
Qed.

Lemma OnBufferReturned_unknown q thiz w :
  count_pending q (pending_buffers_ thiz) = 0%nat →
  OnBufferReturned q true thiz w
  = (thiz, AC_WARNING "Didn't remember returned buffer!?" w).
Proof.
  intros Hz. rewrite count_pending_zero in Hz.
  apply (proj2 (find_pending_None _ _)) in Hz.
  unfold OnBufferReturned. cbn. now rewrite Hz.
Qed.

(** C1: a successful [PackBuffer] appends exactly one entry pairing the
    producer-side buffer with the new runtime-side buffer, and no other entry
    refers to that runtime-side buffer.  Whatever the owner and the runtime
    do next, short of returning that buffer, the entry stays the only one for
    it.  The buffer-returned callback for it then removes this entry and no
    other, and releases the producer-side buffer; a second callback for the
    same runtime-side buffer finds nothing, changes nothing and releases
    nothing.  A buffer-returned callback for a runtime-side buffer without an
    entry leaves the encoder as it is and only logs a warning. *)
Theorem pending_entry_lifecycle thiz w b ts p thiz1 w1 :
  pending_wf thiz w →
  PackBuffer b ts thiz w = Ok (Some p, thiz1, w1) →
  let item := {| buffer := b; media_buffer := p |} in
  pending_buffers_ thiz1 = pending_buffers_ thiz ++ [item]
  ∧ count_pending p (pending_buffers_ thiz) = 0%nat
  ∧ count_pending p (pending_buffers_ thiz1) = 1%nat
  ∧ (∀ ops thiz2 w2,
       Forall (λ o, o ≠ OpBufferReturned p) ops →
       run ops thiz1 w1 = Ok (thiz2, w2) →
       count_pending p (pending_buffers_ thiz2) = 1%nat
       ∧ ∃ i,
           pending_buffers_ thiz2 !! i = Some item
           ∧ pending_buffers_ (OnBufferReturned p true thiz2 w2).1
             = delete i (pending_buffers_ thiz2)
           ∧ count_pending p (pending_buffers_ (OnBufferReturned p true thiz2 w2).1)
             = 0%nat
           ∧ events_since w2 (OnBufferReturned p true thiz2 w2).2 = [EvRelease b]
           ∧ OnBufferReturned p true (OnBufferReturned p true thiz2 w2).1
               (OnBufferReturned p true thiz2 w2).2
             = ((OnBufferReturned p true thiz2 w2).1,
                AC_WARNING "Didn't remember returned buffer!?"
                  (OnBufferReturned p true thiz2 w2).2))
  ∧ (∀ q e x,
       count_pending q (pending_buffers_ e) = 0%nat →
       OnBufferReturned q true e x
       = (e, AC_WARNING "Didn't remember returned buffer!?" x)).
Proof.
  intros Hwf HP item.
  apply PackBuffer_Ok in HP as (Hp & Hn1 & -> & _).
  assert (count_pending p (pending_buffers_ thiz) = 0%nat) as Hz.
  { apply count_pending_zero. intros x Hx. specialize (Hwf x Hx). lia. }
  assert (count_pending p (pending_buffers_ thiz ++ [item]) = 1%nat) as H1.
  { rewrite count_pending_app, Hz, count_pending_cons. cbn.
    now rewrite Pos.eqb_refl. }
  split; [done | ]. split; [done | ]. split; [done | ].
  split; [ | intros q e x; apply OnBufferReturned_unknown].
  intros ops thiz2 w2 Hops Hrun.
  eapply (run_keeps (Some item)) in Hrun as [_ Hk].
  2:{ eapply Forall_impl; [exact Hops | ]. intros o Ho x [= <-]. exact Ho. }
  2:{ split.
      - intros x Hx. cbn in Hx. apply elem_of_app in Hx as [Hx | Hx].
        + specialize (Hwf x Hx). lia.
        + apply list_elem_of_singleton in Hx as ->. cbn. lia.
      - intros x [= <-]. cbn [pending_buffers_ set_pending_buffers_ media_buffer item].
        split; [lia | ]. split; [done | ]. apply elem_of_app. right. now left. }
  destruct (Hk item eq_refl) as (_ & Hc & Hin). cbn [media_buffer item] in Hc.
  split; [done | ].
  destruct (OnBufferReturned_cases p thiz2 w2) as [[Hf _] | (i & x & Hf & E1 & E2)].
  { pose proof (proj1 (find_pending_None _ _) Hf) as Hf'.
    pose proof (proj2 (count_pending_zero _ _) Hf'). congruence. }
  apply find_pending_Some in Hf as [Hl Hx].
  assert (x = item) as ->.
  { eapply count_pending_unique; eauto. eapply list_elem_of_lookup_2; eauto. }
  assert (count_pending p (pending_buffers_ (OnBufferReturned p true thiz2 w2).1)
          = 0%nat) as Hz2.
  { rewrite E1. cbn [pending_buffers_ set_pending_buffers_].
    rewrite (count_pending_delete p _ i item Hl) in Hc. cbn in Hc.
    rewrite Pos.eqb_refl in Hc. lia. }
  exists i. split; [done | ]. split; [now rewrite E1 | ]. split; [done | ].
  split; [now apply events_since_app | ].
  now apply OnBufferReturned_unknown.
Qed.

Lemma pending_entry_lifecycle_witness :
  PackBuffer handle_buffer 1000 running_encoder running_world
  = Ok (Some 5%positive, packed_state.1, packed_state.2)
  ∧ pending_buffers_ packed_state.1
    = [{| buffer := handle_buffer; media_buffer := 5%positive |}]
  ∧ run [OpQueueBuffer handle_buffer; OpSourceRead true]
      packed_state.1 packed_state.2
    = Ok later_state
  ∧ count_pending 5%positive (pending_buffers_ later_state.1) = 1%nat
  ∧ events_since later_state.2
      (OnBufferReturned 5%positive true later_state.1 later_state.2).2
    = [EvRelease handle_buffer].
Proof.
  assert (PackBuffer handle_buffer 1000 running_encoder running_world
          = Ok (Some 5%positive, packed_state.1, packed_state.2)) as HP
    by (vm_compute; reflexivity).
  assert (run [OpQueueBuffer handle_buffer; OpSourceRead true]
            packed_state.1 packed_state.2
          = Ok (later_state.1, later_state.2)) as Hrun
    by (vm_compute; reflexivity).
  destruct (pending_entry_lifecycle running_encoder running_world handle_buffer
              1000 5%positive packed_state.1 packed_state.2)
    as (H1 & _ & _ & H2 & _).
  - intros item Hin. vm_compute in Hin. now apply elem_of_nil in Hin.
  - exact HP.
  - destruct (H2 [OpQueueBuffer handle_buffer; OpSourceRead true]
                later_state.1 later_state.2)
      as (Hc & i & _ & _ & _ & Hev & _);
      [repeat constructor; discriminate | exact Hrun | ].
    split; [exact HP | ]. split; [rewrite H1; vm_compute; reflexivity | ].
    split; [vm_compute; reflexivity | ]. split; [exact Hc | exact Hev].
Defined.

(** ** Colour conversion *)

Lemma to_byte_cast_char sgn z c : to_byte (cast_char sgn z + c) = to_byte (z + c).
Proof.
  unfold to_byte, cast_char, char_of_byte. cbv zeta.
  destruct (sgn && (128 <=? z mod 256)).
  - replace (z mod 256 - 256 + c) with (z mod 256 + c + (-1) * 256) by ring.
    rewrite Z_mod_plus_full. apply Zplus_mod_idemp_l.
  - apply Zplus_mod_idemp_l.
Qed.

Lemma to_byte_small z : 0 ≤ z < 256 → to_byte z = z.
Proof. intros H. unfold to_byte. now apply Z.mod_small. Qed.

Lemma char_of_byte_signed_range b : -128 ≤ char_of_byte true b ≤ 127.
Proof.
  unfold char_of_byte. cbv zeta. pose proof (Z.mod_pos_bound b 256 eq_refl).
  cbn. destruct (Z.leb_spec 128 (b mod 256)); lia.
Qed.

Lemma char_of_byte_unsigned_range b : 0 ≤ char_of_byte false b ≤ 255.
Proof.
  unfold char_of_byte. cbv zeta. pose proof (Z.mod_pos_bound b 256 eq_refl).
  cbn. lia.
Qed.

(** The chroma values fit a byte whatever the signedness of [char]; the luma
    value does when [char] is unsigned. *)
Lemma chroma_values_fit sgn rgb width j k :
  16 ≤ u_value sgn rgb width j k ≤ 240 ∧ 16 ≤ v_value sgn rgb width j k ≤ 240.
Proof.
  unfold u_value, v_value, chroma_u, chroma_v, channel.
  set (r := default 0 _). set (g := default 0 _). set (b := default 0 _).
  rewrite !Z.shiftr_div_pow2 by lia. change (2 ^ 8) with 256.
  destruct sgn.
  - pose proof (char_of_byte_signed_range r) as Hr.
    pose proof (char_of_byte_signed_range g) as Hg.
    pose proof (char_of_byte_signed_range b) as Hb.
    split; Z.div_mod_to_equations; lia.
  - pose proof (char_of_byte_unsigned_range r) as Hr.
    pose proof (char_of_byte_unsigned_range g) as Hg.
    pose proof (char_of_byte_unsigned_range b) as Hb.
    split; Z.div_mod_to_equations; lia.
Qed.

Lemma luma_value_fits rgb width j k :
  16 ≤ luma_value false rgb width j k ≤ 235.
Proof.
  unfold luma_value, luma, channel.
  set (r := default 0 _). set (g := default 0 _). set (b := default 0 _).
  pose proof (char_of_byte_unsigned_range r) as Hr.
  pose proof (char_of_byte_unsigned_range g) as Hg.
  pose proof (char_of_byte_unsigned_range b) as Hb.
  rewrite !Z.shiftr_div_pow2 by lia. change (2 ^ 8) with 256.
  Z.div_mod_to_equations; lia.
Qed.

(** Arithmetic of the chroma planes. *)
Lemma chroma_count_even width j k :
  j mod 2 = 0 → k mod 2 = 0 →
  chroma_count width j k = (j / 2) * (width / 2) + k / 2.
Proof.
  intros Hj Hk. unfold chroma_count. rewrite Hj.
  change (0 =? 0) with true. cbv iota.
  replace ((j + 1) / 2) with (j / 2) by (Z.div_mod_to_equations; lia).
  replace ((k + 1) / 2) with (k / 2) by (Z.div_mod_to_equations; lia).
  reflexivity.
Qed.

Lemma chroma_count_next width j k :
  chroma_count width j (k + 1)
  = chroma_count width j k
    + (if (0 =? j `rem` 2) && (0 =? k `rem` 2) then 1 else 0).
Proof.
  unfold chroma_count.
  assert ((0 =? j `rem` 2) = (j mod 2 =? 0)) as ->.
  { destruct (Z.eqb_spec 0 (j `rem` 2)), (Z.eqb_spec (j mod 2) 0);
      try done; Z.to_euclidean_division_equations; lia. }
  destruct (Z.eqb_spec (j mod 2) 0); cbv iota; [ | cbn [andb]; lia].
  destruct (Z.eqb_spec 0 (k `rem` 2)); cbn [andb];
    Z.to_euclidean_division_equations; lia.
Qed.

Lemma chroma_count_row_end width j :
  width mod 2 = 0 → chroma_count width j width = chroma_count width (j + 1) 0.
Proof.
  intros Hw. unfold chroma_count.
  replace ((0 + 1) / 2) with 0 by reflexivity.
  replace ((width + 1) / 2) with (width / 2) by (Z.div_mod_to_equations; lia).
  destruct (Z.eqb_spec (j mod 2) 0), (Z.eqb_spec ((j + 1) mod 2) 0);
    try (Z.div_mod_to_equations; lia).
  - replace ((j + 1 + 1) / 2) with ((j + 1) / 2 + 1) by (Z.div_mod_to_equations; lia).
    lia.
  - replace ((j + 1 + 1) / 2) with ((j + 1) / 2) by (Z.div_mod_to_equations; lia).
    lia.
Qed.

Lemma chroma_index_bound width height j k :
  0 < width → width mod 2 = 0 → height mod 2 = 0 →
  0 ≤ j < height → 0 ≤ k < width → j mod 2 = 0 → k mod 2 = 0 →
  0 ≤ (j / 2) * (width / 2) + k / 2 < width * height / 4.
Proof.
  intros Hw0 Hw Hh Hj Hk Ej Ek.
  assert (∃ a, width = 2 * a) as [a ->] by (exists (width / 2); Z.div_mod_to_equations; lia).
  assert (∃ b, height = 2 * b) as [b ->] by (exists (height / 2); Z.div_mod_to_equations; lia).
  assert (∃ x, j = 2 * x) as [x ->] by (exists (j / 2); Z.div_mod_to_equations; lia).
  assert (∃ y, k = 2 * y) as [y ->] by (exists (k / 2); Z.div_mod_to_equations; lia).
  replace (2 * a * (2 * b) / 4) with (a * b)
    by (apply Z.div_unique_exact; lia).
  rewrite !(Z.mul_comm 2), !Z.div_mul by lia.
  split; [nia | ].
  assert (x + 1 ≤ b) by lia. assert (y + 1 ≤ a) by lia. nia.
Qed.

Lemma chroma_index_before width j k j' k' :
  0 < width → width mod 2 = 0 →
  0 ≤ j' → 0 ≤ k' < width → j' mod 2 = 0 → k' mod 2 = 0 →
  0 ≤ k →
  j' < j ∨ (j' = j ∧ k' < k) →
  (j' / 2) * (width / 2) + k' / 2 < chroma_count width j k.
Proof.
  intros Hw0 Hw Hj' Hk' Ej Ek Hk Hlt. unfold chroma_count.
  assert (∃ a, width = 2 * a) as [a ->] by (exists (width / 2); Z.div_mod_to_equations; lia).
  assert (∃ x, j' = 2 * x) as [x ->] by (exists (j' / 2); Z.div_mod_to_equations; lia).
  assert (∃ y, k' = 2 * y) as [y ->] by (exists (k' / 2); Z.div_mod_to_equations; lia).
  rewrite !(Z.mul_comm 2), !Z.div_mul by lia.
  assert (y + 1 ≤ a) by lia.
  destruct Hlt as [Hlt | [<- Hlt]].
  - assert (x + 1 ≤ (j + 1) / 2) by (Z.div_mod_to_equations; lia).
    assert (0 ≤ (if j mod 2 =? 0 then (k + 1) / 2 else 0))
      by (destruct (j mod 2 =? 0); [Z.div_mod_to_equations; lia | lia]).
    set (m := (j + 1) / 2) in *. set (c := if j mod 2 =? 0 then _ else _) in *.
    assert ((x + 1) * a ≤ m * a) by (apply Z.mul_le_mono_nonneg_r; lia).
    lia.
  - rewrite Ej. change (0 =? 0) with true. cbv iota.
    replace ((2 * x + 1) / 2) with x by (Z.div_mod_to_equations; lia).
    assert (y + 1 ≤ (k + 1) / 2) by (Z.div_mod_to_equations; lia).
    lia.
Qed.

Lemma frame_sizes width height :
  0 < width → 0 < height → width mod 2 = 0 → height mod 2 = 0 →
  4 * (width * height / 4) = width * height
  ∧ width * height * 3 / 2 = width * height + 2 * (width * height / 4)
  ∧ 0 < width * height / 4.
Proof.
  intros Hw0 Hh0 Hw Hh.
  assert (∃ a, width = 2 * a) as [a ->] by (exists (width / 2); Z.div_mod_to_equations; lia).
  assert (∃ b, height = 2 * b) as [b ->] by (exists (height / 2); Z.div_mod_to_equations; lia).
  replace (2 * a * (2 * b) / 4) with (a * b) by (apply Z.div_unique_exact; lia).
  replace (2 * a * (2 * b) * 3 / 2) with (6 * (a * b))
    by (apply Z.div_unique_exact; lia).
  repeat split; nia.
Qed.

Lemma pixel_index_bound width height j k :
  0 ≤ j < height → 0 ≤ k < width → 0 ≤ j * width + k < width * height.
Proof. intros Hj Hk. split; [nia | ]. assert (j + 1 ≤ height) by lia. nia. Qed.

Lemma pixel_index_before width j k j' k' :
  0 ≤ j' → 0 ≤ k' < width → 0 ≤ k →
  j' < j ∨ (j' = j ∧ k' < k) →
  j' * width + k' < j * width + k.
Proof.
  intros Hj' Hk' Hk [Hlt | [-> Hlt]]; [ | lia].
  assert ((j' + 1) * width ≤ j * width) by (apply Z.mul_le_mono_nonneg_r; lia).
  lia.
Qed.

Lemma load_char_ok sgn (mem : list Z) idx :
  0 ≤ idx < Z.of_nat (length mem) →
  load_char sgn mem idx
  = Ok (char_of_byte sgn (default 0 (mem !! Z.to_nat idx))).
Proof.
  intros H. unfold load_char.
  destruct (Z.leb_spec 0 idx), (Z.ltb_spec idx (Z.of_nat (length mem)));
    [done | lia | lia | lia].
Qed.

Lemma store_char_ok (mem : list Z) idx v :
  0 ≤ idx < Z.of_nat (length mem) →
  store_char mem idx v = Ok (<[Z.to_nat idx := to_byte v]> mem).
Proof.
  intros H. unfold store_char.
  destruct (Z.leb_spec 0 idx), (Z.ltb_spec idx (Z.of_nat (length mem)));
    [done | lia | lia | lia].
Qed.

Lemma pixel_converted_insert sgn rgb width height (yuv : list Z) idx v j' k' :
  0 < width → 0 < height →
  0 ≤ idx → 0 ≤ j' → 0 ≤ k' < width →
  idx ≠ j' * width + k' →
  (j' mod 2 = 0 → k' mod 2 = 0 →
   idx ≠ width * height + (j' / 2) * (width / 2) + k' / 2
   ∧ idx ≠ width * height + width * height / 4 + (j' / 2) * (width / 2) + k' / 2) →
  pixel_converted sgn rgb width height yuv j' k' →
  pixel_converted sgn rgb width height (<[Z.to_nat idx := v]> yuv) j' k'.
Proof.
  intros Hw Hh Hidx Hj' Hk' Hn Hc [HY HUV].
  assert (0 ≤ j' / 2) by (apply Z.div_pos; lia).
  assert (0 ≤ k' / 2) by (apply Z.div_pos; lia).
  assert (0 ≤ width / 2) by (apply Z.div_pos; lia).
  assert (0 ≤ width * height / 4) by (apply Z.div_pos; nia).
  assert (0 ≤ j' / 2 * (width / 2)) by (apply Z.mul_nonneg_nonneg; lia).
  assert (0 ≤ width * height) by nia.
  assert (0 ≤ j' * width) by nia.
  split.
  - rewrite list_lookup_insert_ne by lia. exact HY.
  - intros Ej Ek. destruct (Hc Ej Ek) as [Hu Hv]. destruct (HUV Ej Ek) as [HU HV].
    rewrite !list_lookup_insert_ne by lia. now split.
Qed.

Lemma chroma_count_nonneg width j k :
  0 < width → 0 ≤ j → 0 ≤ k → 0 ≤ chroma_count width j k.
Proof.
  intros Hw Hj Hk. unfold chroma_count.
  assert (0 ≤ (j + 1) / 2) by (apply Z.div_pos; lia).
  assert (0 ≤ width / 2) by (apply Z.div_pos; lia).
  assert (0 ≤ (k + 1) / 2) by (apply Z.div_pos; lia).
  assert (0 ≤ (j + 1) / 2 * (width / 2)) by (apply Z.mul_nonneg_nonneg; lia).
  destruct (j mod 2 =? 0); lia.
Qed.

(** A write of pixel (j, k) does not touch the bytes of an earlier pixel. *)
Lemma pixel_converted_insert_later sgn rgb width height (yuv : list Z) idx v
    j k j' k' :
  0 < width → 0 < height → width mod 2 = 0 → height mod 2 = 0 →
  0 ≤ j < height → 0 ≤ k < width →
  0 ≤ j' → 0 ≤ k' < width →
  j' < j ∨ (j' = j ∧ k' < k) →
  idx = j * width + k
  ∨ (chroma_count width j k < width * height / 4
     ∧ (idx = width * height + chroma_count width j k
        ∨ idx = width * height + width * height / 4 + chroma_count width j k)) →
  pixel_converted sgn rgb width height yuv j' k' →
  pixel_converted sgn rgb width height (<[Z.to_nat idx := v]> yuv) j' k'.
Proof.
  intros Hw Hh Ew Eh Hj Hk Hj' Hk' Hlt Hidx.
  destruct (frame_sizes width height Hw Hh Ew Eh) as (Hq & HLq & Hq0).
  pose proof (pixel_index_bound width height j k Hj Hk) as Hn.
  pose proof (pixel_index_before width j k j' k' Hj' Hk' (proj1 Hk) Hlt) as Hn'.
  pose proof (chroma_count_nonneg width j k Hw (proj1 Hj) (proj1 Hk)) as Hc0.
  assert (0 ≤ j' * width + k') by nia.
  apply pixel_converted_insert; try done.
  - destruct Hidx as [-> | [_ [-> | ->]]]; lia.
  - destruct Hidx as [-> | [_ [-> | ->]]]; lia.
  - intros Ej Ek.
    pose proof (chroma_index_before width j k j' k' Hw Ew Hj' Hk' Ej Ek
                  (proj1 Hk) Hlt) as Hc.
    assert (0 ≤ j' / 2 * (width / 2) + k' / 2).
    { assert (0 ≤ j' / 2) by (apply Z.div_pos; lia).
      assert (0 ≤ k' / 2) by (apply Z.div_pos; lia).
      assert (0 ≤ width / 2) by (apply Z.div_pos; lia).
      assert (0 ≤ j' / 2 * (width / 2)) by (apply Z.mul_nonneg_nonneg; lia).
      lia. }
    destruct Hidx as [-> | [Hcq [-> | ->]]]; lia.
Qed.

Lemma bind_Ok {A B} (a : A) (f : A → result B) : (Ok a ≫= f) = f a.
Proof. reflexivity. Qed.

Lemma even_test j k :
  0 ≤ j → 0 ≤ k →
  (0 =? j `rem` 2) && (0 =? k `rem` 2) = true ↔ j mod 2 = 0 ∧ k mod 2 = 0.
Proof.
  intros Hj Hk. rewrite !Z.rem_mod_nonneg by lia.
  rewrite andb_true_iff, !Z.eqb_eq. intuition lia.
Qed.

(** One iteration of the inner loop moves the cursor to the next pixel. *)
Lemma pixel_step sgn rgb width height j k c :
  0 < width → 0 < height → width mod 2 = 0 → height mod 2 = 0 →
  width * height < 2 ^ 30 →
  4 * width * height ≤ Z.of_nat (length rgb) →
  0 ≤ j < height → 0 ≤ k < width →
  cursor_at sgn rgb width height j k c →
  ∃ c', pixel sgn rgb j k c = Ok c'
        ∧ cursor_at sgn rgb width height j (k + 1) c'.
Proof.
  intros Hw Hh Ew Eh Hfit Hlen Hj Hk (Hi & Hs & Hu & Hv & HL & Hprev).
  destruct (frame_sizes width height Hw Hh Ew Eh) as (Hq & HLq & Hq0).
  pose proof (pixel_index_bound width height j k Hj Hk) as Hn.
  pose proof (chroma_count_nonneg width j k Hw (proj1 Hj) (proj1 Hk)) as Hc0.
  pose proof (chroma_count_next width j k) as Hnext.
  assert (2 ^ 30 = 1073741824) as P30 by reflexivity.
  assert (2 ^ 32 = 4294967296) as P32 by reflexivity.
  unfold pixel. rewrite Hs, Hi, Hu, Hv.
  rewrite (wrap32_small (4 * (j * width + k) + 0)) by lia.
  rewrite (wrap32_small (4 * (j * width + k) + 1)) by lia.
  rewrite (wrap32_small (4 * (j * width + k) + 2)) by lia.
  rewrite !load_char_ok by lia. rewrite !bind_Ok.
  change (char_of_byte sgn (default 0 (rgb !! Z.to_nat (4 * (j * width + k) + 0))))
    with (channel sgn rgb width j k 0).
  change (char_of_byte sgn (default 0 (rgb !! Z.to_nat (4 * (j * width + k) + 1))))
    with (channel sgn rgb width j k 1).
  change (char_of_byte sgn (default 0 (rgb !! Z.to_nat (4 * (j * width + k) + 2))))
    with (channel sgn rgb width j k 2).
  rewrite store_char_ok by lia. rewrite bind_Ok.
  rewrite !to_byte_cast_char.
  fold (luma_value sgn rgb width j k).
  set (y1 := <[Z.to_nat (j * width + k) := _]> (yuv420p c)).
  assert (Z.of_nat (length y1) = width * height * 3 / 2) as HL1
    by (unfold y1; now rewrite length_insert).
  assert (∀ j' k', 0 ≤ j' → 0 ≤ k' < width → j' < j ∨ (j' = j ∧ k' < k) →
                   pixel_converted sgn rgb width height y1 j' k') as Hprev1.
  { intros j' k' Hj' Hk' Hlt. unfold y1.
    apply (pixel_converted_insert_later sgn rgb width height _ _ _ j k j' k'
             Hw Hh Ew Eh Hj Hk Hj' Hk'); [done | now left | now apply Hprev]. }
  assert (y1 !! Z.to_nat (j * width + k)
          = Some (to_byte (luma_value sgn rgb width j k))) as HY1.
  { unfold y1. apply list_lookup_insert_eq. lia. }
  destruct ((0 =? j `rem` 2) && (0 =? k `rem` 2)) eqn:Etest.
  - cbv iota in Hnext.
    apply even_test in Etest as [Ej Ek]; [ | lia | lia].
    pose proof (chroma_index_bound width height j k Hw Ew Eh Hj Hk Ej Ek) as Hcb.
    rewrite <- (chroma_count_even width j k Ej Ek) in Hcb.
    rewrite store_char_ok by lia. rewrite bind_Ok.
    rewrite store_char_ok by (rewrite length_insert; lia). rewrite bind_Ok.
    rewrite !to_byte_cast_char.
    fold (u_value sgn rgb width j k). fold (v_value sgn rgb width j k).
    eexists. split; [reflexivity | ].
    unfold cursor_at. cbn [i_ s_ ui_ vi_ yuv420p]. rewrite !wrap32_small by lia.
    split; [lia | ]. split; [lia | ]. split; [lia | ]. split; [lia | ].
    split; [now rewrite !length_insert | ].
    intros j' k' Hj' Hk' Hlt.
    assert (j' < j ∨ (j' = j ∧ k' < k) ∨ (j' = j ∧ k' = k)) as [Hb | [Hb | [-> ->]]]
      by lia.
    + apply (pixel_converted_insert_later sgn rgb width height _ _ _ j k j' k'
               Hw Hh Ew Eh Hj Hk Hj' Hk');
        [now left | right; split; [lia | now right] | ].
      apply (pixel_converted_insert_later sgn rgb width height _ _ _ j k j' k'
               Hw Hh Ew Eh Hj Hk Hj' Hk');
        [now left | right; split; [lia | now left] | ].
      apply Hprev1; [done | done | now left].
    + apply (pixel_converted_insert_later sgn rgb width height _ _ _ j k j' k'
               Hw Hh Ew Eh Hj Hk Hj' Hk');
        [now right | right; split; [lia | now right] | ].
      apply (pixel_converted_insert_later sgn rgb width height _ _ _ j k j' k'
               Hw Hh Ew Eh Hj Hk Hj' Hk');
        [now right | right; split; [lia | now left] | ].
      apply Hprev1; [done | done | now right].
    + split.
      * rewrite !list_lookup_insert_ne by lia. exact HY1.
      * intros _ _. rewrite (chroma_count_even width j k Ej Ek) in *.
        rewrite !Z.add_assoc.
        assert (0 ≤ width * height + j / 2 * (width / 2) + k / 2) by lia.
        split.
        -- rewrite list_lookup_insert_ne by lia.
           apply list_lookup_insert_eq. lia.
        -- apply list_lookup_insert_eq. rewrite length_insert. lia.
  - cbv iota in Hnext.
    eexists. split; [reflexivity | ].
    unfold cursor_at. cbn [i_ s_ ui_ vi_ yuv420p]. rewrite !wrap32_small by lia.
    split; [lia | ]. split; [lia | ]. split; [lia | ]. split; [lia | ].
    split; [done | ].
    intros j' k' Hj' Hk' Hlt.
    assert (j' < j ∨ (j' = j ∧ k' < k) ∨ (j' = j ∧ k' = k)) as [Hb | [Hb | [-> ->]]]
      by lia.
    + apply Hprev1; [done | done | now left].
    + apply Hprev1; [done | done | now right].
    + split; [exact HY1 | ].
      intros Ej Ek. exfalso.
      assert ((0 =? j `rem` 2) && (0 =? k `rem` 2) = true) as Ht
        by (apply even_test; [lia | lia | done]).
      congruence.
Qed.

Section Loops.

Variables (sgn : bool) (rgb : list Z) (width height : Z).
Hypotheses (Hw : 0 < width) (Hh : 0 < height)
  (Ew : width mod 2 = 0) (Eh : height mod 2 = 0)
  (Hfit : width * height < 2 ^ 30)
  (Hlen : 4 * width * height ≤ Z.of_nat (length rgb)).

(** The inner loop finishes the row it is in. *)
Lemma columns_finish_row j n k c :
  0 ≤ j < height → 0 ≤ k → k + Z.of_nat n = width →
  cursor_at sgn rgb width height j k c →
  ∃ c', columns n sgn rgb j k c = Ok c'
        ∧ cursor_at sgn rgb width height j width c'.
Proof using All.
  intros Hj. revert k c. induction n as [ | n IH]; intros k c Hk Hn Hc.
  - cbn. exists c. split; [done | ]. assert (k = width) as E by lia.
    rewrite E in Hc. exact Hc.
  - cbn [columns].
    destruct (pixel_step sgn rgb width height j k c) as (c1 & -> & Hc1);
      try done; [lia | ].
    rewrite bind_Ok. apply IH; [lia | lia | done].
Qed.

(** The end of a row is the beginning of the next one. *)
Lemma cursor_next_row j c :
  0 ≤ j →
  cursor_at sgn rgb width height j width c →
  cursor_at sgn rgb width height (j + 1) 0 c.
Proof using Hw Ew.
  intros Hj (Hi & Hs & Hu & Hv & HL & Hprev).
  pose proof (chroma_count_row_end width j Ew) as Hrow.
  unfold cursor_at. rewrite <- Hrow.
  split; [lia | ]. split; [lia | ]. split; [lia | ]. split; [lia | ].
  split; [done | ].
  intros j' k' Hj' Hk' Hlt. apply Hprev; [done | done | lia].
Qed.

(** The outer loop converts all remaining rows. *)
Lemma rows_finish_frame n j c :
  0 ≤ j → j + Z.of_nat n = height →
  cursor_at sgn rgb width height j 0 c →
  ∃ c', rows n sgn rgb width j c = Ok c'
        ∧ cursor_at sgn rgb width height height 0 c'.
Proof using All.
  revert j c. induction n as [ | n IH]; intros j c Hj Hn Hc.
  - cbn. exists c. split; [done | ]. assert (j = height) as E by lia.
    rewrite E in Hc. exact Hc.
  - cbn [rows].
    destruct (columns_finish_row j (Z.to_nat width) 0 c) as (c1 & -> & Hc1);
      [lia | lia | lia | done | ].
    rewrite bind_Ok. apply IH; [lia | lia | ].
    now apply cursor_next_row.
Qed.

(** [rgb2yuv420p] on a frame of even dimensions, given enough input and an
    output of width*height*3/2 bytes. *)
Lemma rgb2yuv420p_converts (yuv0 : list Z) :
  Z.of_nat (length yuv0) = width * height * 3 / 2 →
  ∃ yuv, rgb2yuv420p sgn rgb yuv0 width height = Ok yuv
         ∧ Z.of_nat (length yuv) = width * height * 3 / 2
         ∧ ∀ j k, 0 ≤ j < height → 0 ≤ k < width →
                  pixel_converted sgn rgb width height yuv j k.
Proof using All.
  intros HL.
  destruct (frame_sizes width height Hw Hh Ew Eh) as (Hq & HLq & Hq0).
  assert (2 ^ 30 = 1073741824) as P30 by reflexivity.
  assert (2 ^ 32 = 4294967296) as P32 by reflexivity.
  assert (INT_MAX = 2147483647) as PM by reflexivity.
  assert (0 < width * height) by nia.
  assert (width < 2 ^ 30 ∧ height < 2 ^ 30) as [Hwb Hhb] by nia.
  unfold rgb2yuv420p.
  destruct (Z.ltb_spec INT_MAX height); [lia | ].
  destruct (Z.ltb_spec INT_MAX width); [lia | ].
  rewrite andb_false_r. cbn [orb].
  rewrite (wrap32_small (width * height)) by lia.
  rewrite wrap32_small by lia.
  destruct (rows_finish_frame (Z.to_nat height) 0
              {| yuv420p := yuv0; i_ := 0; ui_ := width * height;
                 vi_ := width * height + width * height / 4; s_ := 0 |})
    as (c' & -> & (_ & _ & _ & _ & HL' & Hall)).
  - lia.
  - lia.
  - unfold cursor_at. cbn [i_ s_ ui_ vi_ yuv420p].
    assert (chroma_count width 0 0 = 0) as -> by reflexivity.
    split; [lia | ]. split; [lia | ]. split; [lia | ]. split; [lia | ].
    split; [done | ]. intros j' k' Hj' Hk' Hlt. lia.
  - rewrite bind_Ok. exists (yuv420p c'). split; [done | ]. split; [done | ].
    intros j k Hj Hk. apply Hall; [lia | done | lia].
Qed.

End Loops.

(** Where plain [char] is unsigned and the input holds bytes, what
    [rgb2yuv420p] stores for a pixel is the value of the formulas at the
    bytes of the pixel. *)
Lemma pixel_converted_unsigned rgb width height yuv j k :
  Forall is_byte rgb →
  pixel_converted false rgb width height yuv j k →
  yuv420p_pixel rgb width height yuv j k.
Proof.
  intros Hbytes [Hy Hc].
  assert (∀ c, channel false rgb width j k c = rgb_byte rgb width j k c) as Hch.
  { intros c. unfold channel, rgb_byte, char_of_byte. cbn [andb].
    apply Z.mod_small.
    destruct (rgb !! Z.to_nat (4 * (j * width + k) + c)) as [x | ] eqn:E; cbn.
    - exact (Forall_lookup_1 _ _ _ _ Hbytes E).
    - lia. }
  pose proof (luma_value_fits rgb width j k) as Hl.
  destruct (chroma_values_fit false rgb width j k) as [Hu Hv].
  rewrite to_byte_small in Hy by lia.
  unfold luma_value, u_value, v_value, luma, chroma_u, chroma_v in *.
  rewrite !Hch in *.
  split; [exact Hy | ].
  intros Ej Ek. destruct (Hc Ej Ek) as [Hcu Hcv].
  rewrite to_byte_small in Hcu, Hcv by lia. done.
Qed.

(** C6, as stated, fails: having no native handle and a nonzero length is
    not enough for the conversion.
    - With a configured frame of 2 by 2 pixels and an input buffer of 4
      bytes, [rgb2yuv420p] reads beyond the input: [PackBuffer] only checks
      that the length is not zero.
    - With a configured frame of 3 by 3 pixels and a full input of 36 bytes
      [rgb2yuv420p] writes beyond the 13 bytes (3*3*3/2) of the runtime
      buffer.  Both are undefined behaviour; no converted buffer is returned.
    - When the runtime cannot allocate the buffer, [PackBuffer] returns none.
    - Where plain [char] is signed, the bytes 200, 200, 200 of a pixel are
      read as -56 and the luma byte becomes 224, whereas the formula at
      R = G = B = 200 gives 188. *)
Lemma PackBuffer_readout_fails_to_convert :
  (readout_ (readout_encoder_with []) = true
   ∧ has_native_handle one_pixel_buffer = false
   ∧ 0 < Length one_pixel_buffer
   ∧ PackBuffer one_pixel_buffer 3000 (readout_encoder_with [])
       configured_readout_2x2.2 = UB
   ∧ ¬ packs_yuv420p one_pixel_buffer 3000 (readout_encoder_with [])
         configured_readout_2x2.2)
  ∧ (readout_ configured_readout_3x3.1.2 = true
     ∧ has_native_handle frame_3x3 = false
     ∧ Length frame_3x3 = 4 * 3 * 3
     ∧ PackBuffer frame_3x3 4000 configured_readout_3x3.1.2
         configured_readout_3x3.2 = UB
     ∧ ¬ packs_yuv420p frame_3x3 4000 configured_readout_3x3.1.2
           configured_readout_3x3.2)
  ∧ (has_native_handle pixel_buffer = false
     ∧ Length pixel_buffer = 4 * 2 * 2
     ∧ ¬ packs_yuv420p pixel_buffer 2000 (readout_encoder_with [])
           (set_alloc_plan [false] configured_readout_2x2.2))
  ∧ (has_native_handle bright_frame_2x2 = false
     ∧ Length bright_frame_2x2 = 4 * 2 * 2
     ∧ match PackBuffer bright_frame_2x2 5000 (readout_encoder_with [])
               (set_abi abi_x86_64 configured_readout_2x2.2) with
       | Ok (Some p, _, w') =>
           mb_data <$> lookup_buffer p w'
           = Some (Bytes [224; 224; 224; 224; 128; 128])
       | _ => False
       end
     ∧ (luma 200 200 200 ≫ 8) + 16 = 188
     ∧ ¬ packs_yuv420p bright_frame_2x2 5000 (readout_encoder_with [])
           (set_abi abi_x86_64 configured_readout_2x2.2)).
Proof.
  assert (PackBuffer one_pixel_buffer 3000 (readout_encoder_with [])
            configured_readout_2x2.2 = UB) as H1 by (vm_compute; reflexivity).
  assert (PackBuffer frame_3x3 4000 configured_readout_3x3.1.2
            configured_readout_3x3.2 = UB) as H2 by (vm_compute; reflexivity).
  assert (∃ w', PackBuffer pixel_buffer 2000 (readout_encoder_with [])
                  (set_alloc_plan [false] configured_readout_2x2.2)
                = Ok (None, readout_encoder_with [], w')) as [w3 H3]
    by (eexists; vm_compute; reflexivity).
  assert (∃ p thiz4 w4,
            PackBuffer bright_frame_2x2 5000 (readout_encoder_with [])
              (set_abi abi_x86_64 configured_readout_2x2.2)
            = Ok (Some p, thiz4, w4)
            ∧ mb_data <$> lookup_buffer p w4
              = Some (Bytes [224; 224; 224; 224; 128; 128]))
    as (p4 & thiz4 & w4 & H4 & Hd4)
    by (eexists _, _, _; split; vm_compute; reflexivity).
  split; [ | split; [ | split]].
  - split; [vm_compute; reflexivity | ]. split; [reflexivity | ].
    split; [reflexivity | ]. split; [exact H1 | ].
    intros (p & thiz' & w' & yuv & HP & _). rewrite H1 in HP. discriminate.
  - split; [vm_compute; reflexivity | ]. split; [reflexivity | ].
    split; [reflexivity | ]. split; [exact H2 | ].
    intros (p & thiz' & w' & yuv & HP & _). rewrite H2 in HP. discriminate.
  - split; [reflexivity | ]. split; [reflexivity | ].
    intros (p & thiz' & w' & yuv & HP & _). rewrite H3 in HP. discriminate.
  - split; [reflexivity | ]. split; [reflexivity | ].
    split; [vm_compute; reflexivity | ]. split; [vm_compute; reflexivity | ].
    intros (p & thiz' & w' & yuv & HP & _ & Hd & _ & Hall).
    rewrite H4 in HP. injection HP as <- <- <-.
    rewrite Hd4 in Hd. injection Hd as <-.
    destruct (Hall 0 0) as [Hy _]; [vm_compute; split; congruence .. | ].
    vm_compute in Hy. discriminate.
Qed.

(** C6 (amended): in readout mode, where plain [char] is unsigned, for a
    configured frame of even width and height, packing an input buffer (of
    bytes) without native handle that holds at least 4 bytes per pixel
    returns, if the runtime can allocate it, a runtime buffer of exactly
    width*height*3/2 bytes in planar YUV 4:2:0 layout.  With R, G, B the
    first three bytes of the 4-byte group of a pixel: the luma byte of every
    pixel is ((66*R + 129*G + 25*B + 128) >> 8) + 16; for the pixels in even
    rows and columns, and only those, the bytes
    ((-38*R - 74*G + 112*B + 128) >> 8) + 128 and
    ((112*R - 94*G - 18*B + 128) >> 8) + 128 follow one another in scan order
    in the U plane from offset width*height and in the V plane from offset
    width*height + width*height/4.  ([Length] is a [uint32_t], hence below
    2^32.)  Nothing is said about frames of odd width or height and about
    targets whose plain [char] is signed. *)
Theorem PackBuffer_readout_converts b ts thiz w :
  readout_ thiz = true →
  char_signed (abi w) = false →
  has_native_handle b = false →
  Forall is_byte (Data b) →
  0 < Length b < 2 ^ 32 →
  0 < width (config_ thiz) →
  0 < height (config_ thiz) →
  width (config_ thiz) mod 2 = 0 →
  height (config_ thiz) mod 2 = 0 →
  4 * width (config_ thiz) * height (config_ thiz) ≤ Length b →
  next_alloc_ok w = true →
  packs_yuv420p b ts thiz w.
Proof.
  intros Hro Hsgn Hnh Hbytes HLen Hw Hh Ew Eh Hin Hok.
  set (W := width (config_ thiz)) in *. set (H := height (config_ thiz)) in *.
  destruct (frame_sizes W H Hw Hh Ew Eh) as (Hq & HLq & Hq0).
  assert (2 ^ 30 = 1073741824) as P30 by reflexivity.
  assert (2 ^ 32 = 4294967296) as P32 by reflexivity.
  assert (0 < W * H) by nia.
  assert (W * H < 2 ^ 30) as Hfit by lia.
  assert (wrap32 (wrap32 (W * H) * 3) / 2 = W * H * 3 / 2) as Hsize.
  { rewrite (wrap32_small (W * H)) by lia. now rewrite wrap32_small by lia. }
  unfold packs_yuv420p, PackBuffer. fold W H.
  rewrite Hro, Hnh. destruct (Z.ltb_spec 0 (Length b)); [ | lia]. cbn [negb andb].
  rewrite Hsize. unfold media_buffer_create. rewrite create_object_ok by done.
  set (mb0 := {| mb_size := W * H * 3 / 2; mb_data := _; mb_meta := [];
                 mb_observer := false |}).
  set (w1 := set_next_handle _ _).
  assert (heap w1 !! next_handle w = Some (ObjBuffer mb0)) as Hheap
    by (unfold w1; cbn; apply lookup_insert_eq).
  assert (media_buffer_get_data (next_handle w) w1
          = replicate (Z.to_nat (W * H * 3 / 2)) 0) as ->.
  { unfold media_buffer_get_data, lookup_buffer. now rewrite Hheap. }
  assert (abi w1 = abi w) as -> by reflexivity.
  rewrite Hsgn.
  destruct (rgb2yuv420p_converts false (Data b) W H
              Hw Hh Ew Eh Hfit Hin (replicate (Z.to_nat (W * H * 3 / 2)) 0))
    as (yuv & -> & HL & Hall).
  { rewrite length_replicate. lia. }
  rewrite bind_Ok. unfold register_packed.
  eexists _, _, _, yuv. split; [reflexivity | ].
  unfold lookup_buffer, media_buffer_meta_set_int64,
    media_buffer_set_return_callback, media_buffer_write, update_buffer.
  rewrite !heap_update_object_eq, Hheap. cbn.
  split; [done | ]. split; [done | ]. split; [done | ].
  intros j k Hj Hk. apply pixel_converted_unsigned; [done | ]. now apply Hall.
Qed.

Lemma PackBuffer_readout_converts_witness :
  packs_yuv420p pixel_buffer 2000 (readout_encoder_with [])
    configured_readout_2x2.2
  ∧ match PackBuffer pixel_buffer 2000 (readout_encoder_with [])
            configured_readout_2x2.2 with
    | Ok (Some p, _, w') =>
        mb_data <$> lookup_buffer p w' = Some (Bytes [82; 144; 41; 235; 90; 240])
    | _ => False
    end.
Proof.
  split.
  - apply (PackBuffer_readout_converts pixel_buffer 2000 (readout_encoder_with [])
             configured_readout_2x2.2);
      try (vm_compute; first [reflexivity | discriminate | split; reflexivity]).
    repeat constructor; vm_compute; congruence.
  - vm_compute. reflexivity.
Defined.

(** * Further properties of the code *)

(** ** [rgb2yuv420p] on arbitrary input *)

Lemma bind_Ok_inv {A B} (r : result A) (f : A → result B) b :
  r ≫= f = Ok b → ∃ a, r = Ok a ∧ f a = Ok b.
Proof. destruct r as [a | ]; [eauto | discriminate]. Qed.

Lemma store_char_Ok_inv (mem : list Z) idx v mem' :
  store_char mem idx v = Ok mem' →
  0 ≤ idx < Z.of_nat (length mem) ∧ mem' = <[Z.to_nat idx := to_byte v]> mem.
Proof.
  unfold store_char.
  destruct (Z.leb_spec 0 idx), (Z.ltb_spec idx (Z.of_nat (length mem)));
    cbn; intros [= <-]; split; (lia || done).
Qed.

Lemma load_char_Ok_inv sgn (mem : list Z) idx v :
  load_char sgn mem idx = Ok v → 0 ≤ idx < Z.of_nat (length mem).
Proof.
  unfold load_char.
  destruct (Z.leb_spec 0 idx), (Z.ltb_spec idx (Z.of_nat (length mem)));
    cbn; intros [= <-]; lia.
Qed.

(** What one returning iteration has done: it read the three bytes at [s],
    kept the size of the output and moved [s] by four. *)
Lemma pixel_Ok_inv sgn rgb j k c c' :
  pixel sgn rgb j k c = Ok c' →
  wrap32 (s_ c + 2) < Z.of_nat (length rgb)
  ∧ s_ c' = wrap32 (s_ c + 4)
  ∧ length (yuv420p c') = length (yuv420p c).
Proof.
  unfold pixel. intros H.
  apply bind_Ok_inv in H as (sR & _ & H).
  apply bind_Ok_inv in H as (sG & _ & H).
  apply bind_Ok_inv in H as (sB & HB & H).
  apply load_char_Ok_inv in HB.
  apply bind_Ok_inv in H as (y1 & H1 & H).
  apply store_char_Ok_inv in H1 as [_ ->].
  destruct ((0 =? j `rem` 2) && (0 =? k `rem` 2)).
  - apply bind_Ok_inv in H as (y2 & H2 & H).
    apply store_char_Ok_inv in H2 as [_ ->].
    apply bind_Ok_inv in H as (y3 & H3 & H).
    apply store_char_Ok_inv in H3 as [_ ->].
    injection H as <-. cbn. rewrite !length_insert. split; [lia | done].
  - injection H as <-. cbn. rewrite !length_insert. split; [lia | done].
Qed.

Lemma columns_Ok_inv sgn rgb j n k c c' :
  columns n sgn rgb j k c = Ok c' →
  s_ c + 4 * Z.of_nat n < 2 ^ 32 → 0 ≤ s_ c →
  s_ c' = s_ c + 4 * Z.of_nat n
  ∧ length (yuv420p c') = length (yuv420p c)
  ∧ (0 < Z.of_nat n → s_ c + 4 * Z.of_nat n - 2 < Z.of_nat (length rgb)).
Proof.
  revert k c. induction n as [ | n IH]; intros k c; cbn [columns].
  - intros [= <-] _ _. split; [lia | ]. split; [done | lia].
  - intros H Hs H0. apply bind_Ok_inv in H as (c1 & H1 & H).
    apply pixel_Ok_inv in H1 as (Hld & Hs1 & HL1).
    assert (2 ^ 32 = 4294967296) as P32 by reflexivity.
    rewrite !wrap32_small in * by lia.
    apply IH in H as (Hs' & HL' & Hb); [ | lia | lia].
    split; [lia | ]. split; [congruence | ].
    intros _. destruct n as [ | n]; [cbn in *; lia | lia].
Qed.

Lemma rows_Ok_inv sgn rgb width n j c c' :
  rows n sgn rgb width j c = Ok c' →
  0 ≤ width →
  s_ c + 4 * width * Z.of_nat n < 2 ^ 32 → 0 ≤ s_ c →
  s_ c' = s_ c + 4 * width * Z.of_nat n
  ∧ length (yuv420p c') = length (yuv420p c)
  ∧ (0 < Z.of_nat n → 0 < width →
     s_ c + 4 * width * Z.of_nat n - 2 < Z.of_nat (length rgb)).
Proof.
  revert j c. induction n as [ | n IH]; intros j c; cbn [rows].
  - intros [= <-] _ _ _. split; [lia | ]. split; [done | lia].
  - intros H Hw Hs H0. apply bind_Ok_inv in H as (c1 & H1 & H).
    apply columns_Ok_inv in H1 as (Hs1 & HL1 & Hb1); [ | nia | lia].
    rewrite Z2Nat.id in * by lia.
    apply IH in H as (Hs' & HL' & Hb); [ | lia | nia | lia].
    split; [lia | ]. split; [congruence | ].
    intros _ Hw0. destruct n as [ | n]; [ | lia].
    assert (s_ c' = s_ c1) by lia. specialize (Hb1 Hw0). lia.
Qed.





(** A frame without pixels: nothing is read and the output is returned as it
    is.  (With a height of zero any width will do; with a width of zero the
    row counter still has to stay within [int].) *)
Theorem rgb2yuv420p_empty_frame sgn rgb yuv width height :
  height = 0 ∨ (width = 0 ∧ 0 ≤ height ≤ INT_MAX) →
  rgb2yuv420p sgn rgb yuv width height = Ok yuv.
Proof.
  intros [-> | [-> Hh]]; unfold rgb2yuv420p.
  - reflexivity.
  - destruct (Z.ltb_spec INT_MAX height); [lia | ].
    rewrite andb_false_r. cbn [orb].
    assert (∀ n j c, rows n sgn rgb 0 j c = Ok c) as Hrows.
    { induction n as [ | n IH]; intros j c; cbn; [done | apply IH]. }
    now rewrite Hrows.
Qed.

Lemma rgb2yuv420p_empty_frame_witness :
  rgb2yuv420p true [] [1; 2; 3] 0 5 = Ok [1; 2; 3].
Proof.
  apply rgb2yuv420p_empty_frame. right. split; [reflexivity | ].
  split; [discriminate | vm_compute; discriminate].
Defined.

(** The input must hold the pixels: for a frame with pixels (fewer than
    2^30), an input of fewer than 4*width*height - 1 bytes is read out of
    bounds, whatever the output buffer. *)
Theorem rgb2yuv420p_short_input sgn rgb yuv width height :
  0 < width → 0 < height →
  width * height < 2 ^ 30 →
  Z.of_nat (length rgb) < 4 * width * height - 1 →
  rgb2yuv420p sgn rgb yuv width height = UB.
Proof.
  intros Hw Hh Hfit Hshort.
  destruct (rgb2yuv420p sgn rgb yuv width height) as [yuv' | ] eqn:E; [ | done].
  exfalso. unfold rgb2yuv420p in E.
  destruct ((INT_MAX <? height) || (0 <? height) && (INT_MAX <? width));
    [discriminate | ].
  apply bind_Ok_inv in E as (c & E & _).
  assert (2 ^ 30 = 1073741824) as P30 by reflexivity.
  assert (2 ^ 32 = 4294967296) as P32 by reflexivity.
  apply rows_Ok_inv in E as (_ & _ & Hb); cbn [s_]; [ | lia | | lia].
  - rewrite Z2Nat.id in Hb by lia. cbn [s_] in Hb. specialize (Hb Hh Hw). lia.
  - rewrite Z2Nat.id by lia. lia.
Qed.

Lemma rgb2yuv420p_short_input_witness :
  rgb2yuv420p false [255; 0; 0; 255; 0; 255] (replicate 6 0) 2 2 = UB.
Proof.
  apply rgb2yuv420p_short_input; vm_compute; reflexivity.
Defined.

(** *** The fourth byte of a pixel *)

Lemma load_char_agree sgn (rgb rgb' : list Z) idx :
  length rgb = length rgb' →
  rgb !! Z.to_nat idx = rgb' !! Z.to_nat idx →
  load_char sgn rgb idx = load_char sgn rgb' idx.
Proof. intros HL E. unfold load_char. now rewrite HL, E. Qed.

Lemma pixel_agree sgn (rgb rgb' : list Z) j k c :
  length rgb = length rgb' →
  (∀ i : nat, Z.of_nat i mod 4 ≠ 3 → rgb !! i = rgb' !! i) →
  on_pixel c →
  pixel sgn rgb j k c = pixel sgn rgb' j k c.
Proof.
  intros HL Hagree [Hs Hm]. unfold pixel.
  assert (2 ^ 32 = 4294967296) as P32 by reflexivity.
  assert (s_ c + 3 < 2 ^ 32) by (Z.div_mod_to_equations; lia).
  rewrite (wrap32_small (s_ c + 0)), (wrap32_small (s_ c + 1)),
    (wrap32_small (s_ c + 2)) by lia.
  rewrite (load_char_agree sgn rgb rgb' (s_ c + 0)),
    (load_char_agree sgn rgb rgb' (s_ c + 1)),
    (load_char_agree sgn rgb rgb' (s_ c + 2)); try done;
    apply Hagree; rewrite Z2Nat.id by lia; Z.div_mod_to_equations; lia.
Qed.

Lemma pixel_on_pixel sgn rgb j k c c' :
  pixel sgn rgb j k c = Ok c' → on_pixel c → on_pixel c'.
Proof.
  intros H [Hs Hm]. apply pixel_Ok_inv in H as (_ & E & _).
  unfold on_pixel. rewrite E. unfold wrap32.
  assert (2 ^ 32 = 4294967296) as P32 by reflexivity. rewrite P32.
  split; Z.div_mod_to_equations; lia.
Qed.

Lemma columns_agree sgn (rgb rgb' : list Z) j n k c :
  length rgb = length rgb' →
  (∀ i : nat, Z.of_nat i mod 4 ≠ 3 → rgb !! i = rgb' !! i) →
  on_pixel c →
  columns n sgn rgb j k c = columns n sgn rgb' j k c
  ∧ ∀ c', columns n sgn rgb j k c = Ok c' → on_pixel c'.
Proof.
  intros HL Hagree. revert k c. induction n as [ | n IH]; intros k c Hc.
  - cbn. split; [done | ]. now intros c' [= <-].
  - cbn [columns]. rewrite <- (pixel_agree sgn rgb rgb' j k c) by done.
    destruct (pixel sgn rgb j k c) as [c1 | ] eqn:E1; [ | done].
    apply pixel_on_pixel in E1; [ | done].
    rewrite !bind_Ok. now apply IH.
Qed.

Lemma rows_agree sgn (rgb rgb' : list Z) width n j c :
  length rgb = length rgb' →
  (∀ i : nat, Z.of_nat i mod 4 ≠ 3 → rgb !! i = rgb' !! i) →
  on_pixel c →
  rows n sgn rgb width j c = rows n sgn rgb' width j c.
Proof.
  intros HL Hagree. revert j c. induction n as [ | n IH]; intros j c Hc.
  - done.
  - cbn [rows].
    destruct (columns_agree sgn rgb rgb' j (Z.to_nat width) 0 c HL Hagree Hc)
      as [<- Hon].
    destruct (columns (Z.to_nat width) sgn rgb j 0 c) as [c1 | ]; [ | done].
    rewrite !bind_Ok. apply IH. now apply Hon.
Qed.

(** The fourth byte of every pixel (alpha, or padding) has no influence:
    two inputs of the same size that agree on the first three bytes of every
    pixel give the same outcome, whatever the dimensions. *)
Theorem rgb2yuv420p_ignores_alpha sgn (rgb rgb' : list Z) yuv width height :
  length rgb = length rgb' →
  (∀ i : nat, Z.of_nat i mod 4 ≠ 3 → rgb !! i = rgb' !! i) →
  rgb2yuv420p sgn rgb yuv width height = rgb2yuv420p sgn rgb' yuv width height.
Proof.
  intros HL Hagree. unfold rgb2yuv420p.
  destruct ((INT_MAX <? height) || (0 <? height) && (INT_MAX <? width));
    [done | ].
  rewrite (rows_agree sgn rgb rgb') by (done || (split; cbn; done)).
  done.
Qed.

Lemma rgb2yuv420p_ignores_alpha_witness :
  rgb2yuv420p false (Data pixel_buffer) (replicate 6 0) 2 2
  = rgb2yuv420p false
      [255; 0; 0; 0;  0; 255; 0; 1;  0; 0; 255; 2;  255; 255; 255; 3]
      (replicate 6 0) 2 2.
Proof.
  apply rgb2yuv420p_ignores_alpha; [reflexivity | ].
  intros i Hi.
  do 16 (destruct i as [ | i]; [first [reflexivity | now exfalso; apply Hi] | ]).
  reflexivity.
Defined.

(** *** The planes of the output *)

Section Planes.

Variables (width height : Z).
Hypotheses (Hw : 0 < width) (Hh : 0 < height)
  (Ew : width mod 2 = 0) (Eh : height mod 2 = 0).

(** Every byte of a width*height*3/2 buffer is the luma byte of a pixel or a
    chroma byte of a pixel in an even row and column. *)
Lemma plane_of_index (i : Z) :
  0 ≤ i < width * height * 3 / 2 →
  ∃ j k, 0 ≤ j < height ∧ 0 ≤ k < width
    ∧ ((i < width * height ∧ i = j * width + k)
       ∨ (width * height ≤ i ∧ j mod 2 = 0 ∧ k mod 2 = 0
          ∧ (i = width * height + (j / 2) * (width / 2) + k / 2
             ∨ i = width * height + width * height / 4
                   + (j / 2) * (width / 2) + k / 2))).
Proof using All.
  intros Hi.
  destruct (frame_sizes width height Hw Hh Ew Eh) as (Hq & HLq & Hq0).
  rewrite HLq in Hi.
  assert (∃ a, width = 2 * a) as [a Ea]
    by (exists (width / 2); Z.div_mod_to_equations; lia).
  assert (∃ b, height = 2 * b) as [b Eb]
    by (exists (height / 2); Z.div_mod_to_equations; lia).
  assert (width * height / 4 = a * b) as Eq
    by (subst; symmetry; apply Z.div_unique_exact; lia).
  assert (width / 2 = a) as Ea2 by (subst; Z.div_mod_to_equations; lia).
  assert (0 < a) by lia. assert (0 < b) by lia.
  assert (∀ m, 0 ≤ m < a * b →
               0 ≤ 2 * (m / a) < height ∧ 0 ≤ 2 * (m mod a) < width
               ∧ (2 * (m / a)) mod 2 = 0 ∧ (2 * (m mod a)) mod 2 = 0
               ∧ m = (2 * (m / a) / 2) * a + 2 * (m mod a) / 2) as Hchroma.
  { intros m Hm.
    pose proof (Z.div_mod m a ltac:(lia)) as Hdm.
    pose proof (Z.mod_pos_bound m a ltac:(lia)) as Hr.
    assert (0 ≤ m / a) by (apply Z.div_pos; lia).
    assert (m / a < b) by (apply Z.div_lt_upper_bound; lia).
    rewrite !(Z.mul_comm 2), !Z.div_mul, !Z.mod_mul by lia.
    repeat split; lia. }
  destruct (Z.lt_ge_cases i (width * height)) as [Hy | Hc].
  - exists (i / width), (i mod width).
    pose proof (Z.div_mod i width ltac:(lia)) as Hdm.
    pose proof (Z.mod_pos_bound i width ltac:(lia)) as Hr.
    assert (0 ≤ i / width) by (apply Z.div_pos; lia).
    assert (i / width < height)
      by (apply Z.div_lt_upper_bound; lia).
    split; [lia | ]. split; [lia | ]. left. split; [done | lia].
  - destruct (Z.lt_ge_cases i (width * height + a * b)) as [Hu | Hv].
    + destruct (Hchroma (i - width * height)) as (Hj & Hk & Ej & Ek & Em);
        [lia | ].
      eexists _, _. split; [exact Hj | ]. split; [exact Hk | ].
      right. split; [done | ]. split; [done | ]. split; [done | ].
      left. rewrite Ea2. lia.
    + destruct (Hchroma (i - width * height - a * b))
        as (Hj & Hk & Ej & Ek & Em); [lia | ].
      eexists _, _. split; [exact Hj | ]. split; [exact Hk | ].
      right. split; [done | ]. split; [done | ]. split; [done | ].
      right. rewrite Ea2, Eq. lia.
Qed.

End Planes.

(** Every byte of the output buffer is overwritten: the result does not
    depend on what the buffer held before. *)
Theorem rgb2yuv420p_overwrites sgn rgb (yuv0 yuv1 : list Z) width height :
  0 < width → 0 < height → width mod 2 = 0 → height mod 2 = 0 →
  width * height < 2 ^ 30 →
  4 * width * height ≤ Z.of_nat (length rgb) →
  Z.of_nat (length yuv0) = width * height * 3 / 2 →
  Z.of_nat (length yuv1) = width * height * 3 / 2 →
  rgb2yuv420p sgn rgb yuv0 width height = rgb2yuv420p sgn rgb yuv1 width height.
Proof.
  intros Hw Hh Ew Eh Hfit Hlen HL0 HL1.
  destruct (rgb2yuv420p_converts sgn rgb width height Hw Hh Ew Eh Hfit Hlen
              yuv0 HL0) as (y0 & -> & HLy0 & Hall0).
  destruct (rgb2yuv420p_converts sgn rgb width height Hw Hh Ew Eh Hfit Hlen
              yuv1 HL1) as (y1 & -> & HLy1 & Hall1).
  f_equal. apply list_eq. intros i.
  destruct (decide (Z.of_nat i < width * height * 3 / 2)) as [Hi | Hi].
  - destruct (plane_of_index width height Hw Hh Ew Eh (Z.of_nat i))
      as (j & k & Hj & Hk & Hcase); [lia | ].
    destruct (Hall0 j k Hj Hk) as [Hy0 Hc0].
    destruct (Hall1 j k Hj Hk) as [Hy1 Hc1].
    destruct Hcase as [(_ & E) | (_ & Ej & Ek & [E | E])].
    + rewrite <- E, Nat2Z.id in Hy0, Hy1. congruence.
    + destruct (Hc0 Ej Ek) as [Hu0 _]. destruct (Hc1 Ej Ek) as [Hu1 _].
      rewrite <- E, Nat2Z.id in Hu0, Hu1. congruence.
    + destruct (Hc0 Ej Ek) as [_ Hv0]. destruct (Hc1 Ej Ek) as [_ Hv1].
      rewrite <- E, Nat2Z.id in Hv0, Hv1. congruence.
  - rewrite !lookup_ge_None_2 by lia. done.
Qed.

Lemma rgb2yuv420p_overwrites_witness :
  rgb2yuv420p true (Data pixel_buffer) (replicate 6 0) 2 2
  = rgb2yuv420p true (Data pixel_buffer) [9; 8; 7; 6; 5; 4] 2 2.
Proof.
  apply rgb2yuv420p_overwrites; vm_compute; first [reflexivity | discriminate].
Defined.

(** Where plain [char] is unsigned, a converted frame is in video range:
    luma bytes lie in [16, 235] and chroma bytes in [16, 240].  The chroma
    bytes do so whatever the signedness of [char]. *)
Theorem rgb2yuv420p_video_range sgn rgb yuv0 width height yuv (i : nat) (y : Z) :
  0 < width → 0 < height → width mod 2 = 0 → height mod 2 = 0 →
  width * height < 2 ^ 30 →
  4 * width * height ≤ Z.of_nat (length rgb) →
  Z.of_nat (length yuv0) = width * height * 3 / 2 →
  rgb2yuv420p sgn rgb yuv0 width height = Ok yuv →
  yuv !! i = Some y →
  (Z.of_nat i < width * height → sgn = false → 16 ≤ y ≤ 235)
  ∧ (width * height ≤ Z.of_nat i → 16 ≤ y ≤ 240).
Proof.
  intros Hw Hh Ew Eh Hfit Hlen HL0 Hrun Hy.
  destruct (rgb2yuv420p_converts sgn rgb width height Hw Hh Ew Eh Hfit Hlen
              yuv0 HL0) as (y0 & Hrun' & HLy & Hall).
  assert (y0 = yuv) as -> by congruence.
  apply lookup_lt_Some in Hy as Hlt.
  destruct (plane_of_index width height Hw Hh Ew Eh (Z.of_nat i))
    as (j & k & Hj & Hk & Hcase); [lia | ].
  destruct (Hall j k Hj Hk) as [Hluma Hchroma].
  destruct (chroma_values_fit sgn rgb width j k) as [Hu Hv].
  destruct Hcase as [(Hi & E) | (Hi & Ej & Ek & [E | E])].
  - split; [ | lia]. intros _ ->.
    pose proof (luma_value_fits rgb width j k) as Hfits.
    rewrite <- E, Nat2Z.id, Hy, to_byte_small in Hluma by lia.
    injection Hluma as ->. done.
  - split; [lia | ]. intros _.
    destruct (Hchroma Ej Ek) as [Hu' _].
    rewrite <- E, Nat2Z.id, Hy, to_byte_small in Hu' by lia.
    injection Hu' as ->. done.
  - split; [lia | ]. intros _.
    destruct (Hchroma Ej Ek) as [_ Hv'].
    rewrite <- E, Nat2Z.id, Hy, to_byte_small in Hv' by lia.
    injection Hv' as ->. done.
Qed.

Lemma rgb2yuv420p_video_range_witness :
  (Z.of_nat 0 < 2 * 2 → false = false → 16 ≤ 82 ≤ 235)
  ∧ (2 * 2 ≤ Z.of_nat 0 → 16 ≤ 82 ≤ 240).
Proof.
  apply (rgb2yuv420p_video_range false (Data pixel_buffer) (replicate 6 0) 2 2
           [82; 144; 41; 235; 90; 240]);
    vm_compute; first [reflexivity | discriminate].
Defined.

(** A grey frame has neutral chroma: when the three colour bytes of every
    pixel are equal, every byte of the U and V planes is 128, whatever the
    signedness of [char]. *)
Theorem rgb2yuv420p_grey sgn rgb yuv0 width height yuv (i : nat) (y : Z) :
  0 < width → 0 < height → width mod 2 = 0 → height mod 2 = 0 →
  width * height < 2 ^ 30 →
  4 * width * height ≤ Z.of_nat (length rgb) →
  Z.of_nat (length yuv0) = width * height * 3 / 2 →
  (∀ p : nat, Z.of_nat p < width * height →
     rgb !! (4 * p)%nat = rgb !! (4 * p + 1)%nat
     ∧ rgb !! (4 * p)%nat = rgb !! (4 * p + 2)%nat) →
  rgb2yuv420p sgn rgb yuv0 width height = Ok yuv →
  width * height ≤ Z.of_nat i →
  yuv !! i = Some y →
  y = 128.
Proof.
  intros Hw Hh Ew Eh Hfit Hlen HL0 Hgrey Hrun Hi Hy.
  destruct (rgb2yuv420p_converts sgn rgb width height Hw Hh Ew Eh Hfit Hlen
              yuv0 HL0) as (y0 & Hrun' & HLy & Hall).
  assert (y0 = yuv) as -> by congruence.
  apply lookup_lt_Some in Hy as Hlt.
  destruct (plane_of_index width height Hw Hh Ew Eh (Z.of_nat i))
    as (j & k & Hj & Hk & Hcase); [lia | ].
  destruct (Hall j k Hj Hk) as [_ Hchroma].
  pose proof (pixel_index_bound width height j k Hj Hk) as Hp.
  destruct (Hgrey (Z.to_nat (j * width + k)) ltac:(lia)) as [E1 E2].
  assert (u_value sgn rgb width j k = 128 ∧ v_value sgn rgb width j k = 128)
    as [Eu Ev].
  { unfold u_value, v_value, channel.
    replace (Z.to_nat (4 * (j * width + k) + 0))
      with (4 * Z.to_nat (j * width + k))%nat by lia.
    replace (Z.to_nat (4 * (j * width + k) + 1))
      with (4 * Z.to_nat (j * width + k) + 1)%nat by lia.
    replace (Z.to_nat (4 * (j * width + k) + 2))
      with (4 * Z.to_nat (j * width + k) + 2)%nat by lia.
    rewrite <- E1, <- E2.
    set (x := char_of_byte sgn _). unfold chroma_u, chroma_v.
    replace (-38 * x - 74 * x + 112 * x + 128) with 128 by lia.
    replace (112 * x - 94 * x - 18 * x + 128) with 128 by lia.
    done. }
  destruct Hcase as [(Hi' & _) | (_ & Ej & Ek & [E | E])]; [lia | | ].
  - destruct (Hchroma Ej Ek) as [Hu _].
    rewrite <- E, Nat2Z.id, Hy, Eu in Hu. now injection Hu.
  - destruct (Hchroma Ej Ek) as [_ Hv].
    rewrite <- E, Nat2Z.id, Hy, Ev in Hv. now injection Hv.
Qed.

Lemma rgb2yuv420p_grey_witness :
  rgb2yuv420p true (Data bright_frame_2x2) (replicate 6 0) 2 2
  = Ok [224; 224; 224; 224; 128; 128] ∧ 128 = 128.
Proof.
  split; [vm_compute; reflexivity | ].
  apply (rgb2yuv420p_grey true (Data bright_frame_2x2) (replicate 6 0) 2 2
           [224; 224; 224; 224; 128; 128] 5 128);
    try (vm_compute; first [reflexivity | discriminate]).
  intros p Hp. do 4 (destruct p as [ | p]; [split; reflexivity | ]).
  exfalso. lia.
Defined.

(** ** [Execute] while running *)

(** [Execute] on a running encoder reads one unit from the codec.  When the
    read fails, it logs an error and reports nothing.  When it yields a unit,
    the frame is reported as finished with the timestamp of the unit, and a
    delegate that is still alive receives a copy of the unit: first as
    codec configuration (if the unit is flagged so), then as available
    buffer.  The encoder object is never changed. *)
Theorem Execute_running thiz w :
  running_ thiz = true →
  match read_plan w with
  | Some u :: plan =>
      ∃ w', Execute thiz w = (true, thiz, w')
        ∧ read_plan w' = plan ∧ heap w' = heap w
        ∧ msb_buffer (MediaSourceBuffer_Create u) = eu_data u
        ∧ msb_size (MediaSourceBuffer_Create u) = Z.of_nat (length (eu_data u))
        ∧ events_since w w'
          = [EvCodec (CodecRead (encoder_ thiz));
             EvReport (FinishedFrame (ExtractTimestamp u))]
            ++ (if delegate_alive w then
                  (if DoesBufferContainCodecConfig u
                   then [EvDelegate (OnBufferWithCodecConfig (MediaSourceBuffer_Create u))]
                   else [])
                  ++ [EvDelegate (OnBufferAvailable (MediaSourceBuffer_Create u))]
                else [])
  | no_unit =>
      ∃ w', Execute thiz w = (false, thiz, w')
        ∧ read_plan w' = tail no_unit ∧ heap w' = heap w
        ∧ events_since w w'
          = [EvCodec (CodecRead (encoder_ thiz));
             EvLog Error "Failed to read a new buffer from encoder"]
  end.
Proof.
  intros Hr. unfold Execute, media_codec_source_read. rewrite Hr. cbn.
  destruct (read_plan w) as [ | [u | ] plan] eqn:Hp; cbn [tail].
  - eexists. split; [reflexivity | ]. split; [done | ]. split; [done | ].
    apply events_since_app. cbn. now rewrite <- app_assoc.
  - unfold notify_delegate. cbn.
    destruct (DoesBufferContainCodecConfig u), (delegate_alive w) eqn:Ha; cbn;
      rewrite ?Ha; cbn;
      (eexists; split; [reflexivity | ]; split; [done | ]; split; [done | ];
       split; [done | ]; split; [done | ];
       apply events_since_app; cbn; now rewrite <- ?app_assoc).
  - eexists. split; [reflexivity | ]. split; [done | ]. split; [done | ].
    apply events_since_app. cbn. now rewrite <- app_assoc.
Qed.

Lemma Execute_running_witness :
  ∃ w', Execute running_encoder (set_read_plan [Some stamped_unit] running_world)
        = (true, running_encoder, w')
    ∧ events_since (set_read_plan [Some stamped_unit] running_world) w'
      = [EvCodec (CodecRead (Some 4%positive));
         EvReport (FinishedFrame 4000);
         EvDelegate (OnBufferWithCodecConfig
                       {| msb_buffer := [0; 0; 0; 1; 103]; msb_size := 5;
                          msb_timestamp := 4000 |});
         EvDelegate (OnBufferAvailable
                       {| msb_buffer := [0; 0; 0; 1; 103]; msb_size := 5;
                          msb_timestamp := 4000 |})].
Proof.
  destruct (Execute_running running_encoder
              (set_read_plan [Some stamped_unit] running_world))
    as (w' & HE & _ & _ & _ & _ & Hev); [vm_compute; reflexivity | ].
  exists w'. split; [exact HE | ]. rewrite Hev. vm_compute. reflexivity.
Defined.

(** ** What a packed buffer holds *)

Lemma lookup_buffer_update_buffer f h w :
  lookup_buffer h (update_buffer f h w) = f <$> lookup_buffer h w.
Proof.
  unfold lookup_buffer, update_buffer. rewrite heap_update_object_eq.
  destruct (heap w !! h) as [[ | | | | mb] | ]; reflexivity.
Qed.

Lemma heap_update_buffer_ne f h w h' :
  h ≠ h' → heap (update_buffer f h w) !! h' = heap w !! h'.
Proof. apply heap_update_object_ne. Qed.

Lemma lookup_buffer_register_packed b ts p thiz w mb :
  lookup_buffer p w = Some mb →
  lookup_buffer p (register_packed b ts p thiz w).2
  = Some {| mb_size := mb_size mb; mb_data := mb_data mb;
            mb_meta := (KEY_TIME, MetaInt64 ts) :: mb_meta mb;
            mb_observer := true |}.
Proof.
  intros H. unfold register_packed. cbn [snd].
  unfold media_buffer_meta_set_int64, media_buffer_set_return_callback.
  rewrite !lookup_buffer_update_buffer, H. reflexivity.
Qed.

Lemma heap_register_packed_ne b ts p thiz w h :
  h ≠ p → heap (register_packed b ts p thiz w).2 !! h = heap w !! h.
Proof.
  intros H. unfold register_packed. cbn [snd].
  unfold media_buffer_meta_set_int64, media_buffer_set_return_callback.
  rewrite !heap_update_buffer_ne by done. reflexivity.
Qed.

Lemma lookup_buffer_created size w p w1 :
  media_buffer_create size w = (Some p, w1) →
  lookup_buffer p w1
  = Some {| mb_size := size; mb_data := Bytes (replicate (Z.to_nat size) 0);
            mb_meta := []; mb_observer := false |}
  ∧ ∀ h, h ≠ p → heap w1 !! h = heap w !! h.
Proof.
  intros H. apply create_object_Some in H as (_ & Hh & _).
  unfold lookup_buffer. rewrite Hh. split.
  - now rewrite lookup_insert_eq.
  - intros h Hne. now rewrite lookup_insert_ne.
Qed.

(** The runtime buffer behind a successful [PackBuffer]: the buffer as it
    was created and written, with the callback registered and the timestamp
    set. *)
Lemma PackBuffer_Some_buffer b ts thiz w p thiz' w' :
  PackBuffer b ts thiz w = Ok (Some p, thiz', w') →
  ∃ size data,
    lookup_buffer p w'
    = Some {| mb_size := size; mb_data := data;
              mb_meta := [(KEY_TIME, MetaInt64 ts)]; mb_observer := true |}
    ∧ (readout_ thiz = false →
       is_Some (NativeHandle b)
       ∧ size = sizeof_VideoNativeMetadata (abi w)
       ∧ data = NativeMetadata kMetadataBufferTypeANWBuffer (NativeHandle b) (-1))
    ∧ ∀ h, h ≠ p → heap w' !! h = heap w !! h.
Proof.
  unfold PackBuffer.
  destruct (readout_ thiz) eqn:Hr; cbn [andb negb].
  - destruct (negb (has_native_handle b) && (0 <? Length b)).
    2:{ intros [= ]. }
    destruct (media_buffer_create _ w) as [[q | ] w1] eqn:Hc; [ | intros [= ]].
    destruct (rgb2yuv420p _ _ _ _ _) as [yuv | ]; [ | discriminate].
    rewrite bind_Ok. intros H.
    apply lookup_buffer_created in Hc as [Hc Hother].
    assert (q = p ∧ w' = (register_packed b ts q thiz
                            (media_buffer_write q (Bytes yuv) w1)).2) as [-> ->]
      by (unfold register_packed in H |- *; injection H as -> _ <-; done).
    eexists _, _. split.
    { erewrite lookup_buffer_register_packed; cycle 1.
      - unfold media_buffer_write.
        rewrite lookup_buffer_update_buffer, Hc. reflexivity.
      - reflexivity. }
    split; [done | ].
    intros h Hne. rewrite heap_register_packed_ne by done.
    unfold media_buffer_write. rewrite heap_update_buffer_ne by done. auto.
  - unfold has_native_handle. destruct (NativeHandle b) as [nh | ] eqn:Hn.
    2:{ intros [= ]. }
    destruct (media_buffer_create _ w) as [[q | ] w1] eqn:Hc; [ | intros [= ]].
    intros H.
    apply lookup_buffer_created in Hc as [Hc Hother].
    assert (q = p ∧ w' = (register_packed b ts q thiz
                            (media_buffer_write q
                               (NativeMetadata kMetadataBufferTypeANWBuffer
                                  (Some nh) (-1))
                               w1)).2) as [-> ->]
      by (unfold register_packed in H |- *; injection H as -> _ <-; done).
    eexists _, _. split.
    { erewrite lookup_buffer_register_packed; cycle 1.
      - unfold media_buffer_write.
        rewrite lookup_buffer_update_buffer, Hc. reflexivity.
      - reflexivity. }
    split; [intros _; split; [eauto | done] | ].
    intros h Hne. rewrite heap_register_packed_ne by done.
    unfold media_buffer_write. rewrite heap_update_buffer_ne by done. auto.
Qed.

(** Whatever the mode, a runtime buffer that [PackBuffer] hands out has the
    return callback registered and carries the timestamp under [KEY_TIME],
    from where [ExtractTimestamp] reads it back; no other runtime object is
    touched.  In zero-copy mode the buffer holds the native-metadata
    structure that refers to the native handle of the frame buffer. *)
Theorem PackBuffer_packed b ts thiz w p thiz' w' :
  PackBuffer b ts thiz w = Ok (Some p, thiz', w') →
  ∃ mb, lookup_buffer p w' = Some mb
    ∧ mb_observer mb = true
    ∧ mb_meta mb = [(KEY_TIME, MetaInt64 ts)]
    ∧ (∀ d, ExtractTimestamp {| eu_data := d; eu_meta := Some (mb_meta mb) |} = ts)
    ∧ (readout_ thiz = false →
       is_Some (NativeHandle b) ∧ mb = native_metadata_buffer w b ts)
    ∧ ∀ h, h ≠ p → heap w' !! h = heap w !! h.
Proof.
  intros HP.
  destruct (PackBuffer_Some_buffer _ _ _ _ _ _ _ HP)
    as (size & data & Hmb & Hzero & Hother).
  eexists. split; [exact Hmb | ]. cbn [mb_observer mb_meta].
  split; [reflexivity | ]. split; [reflexivity | ].
  split.
  { intros d. unfold ExtractTimestamp. cbn [eu_meta meta_find].
    now rewrite decide_True. }
  split; [ | exact Hother].
  intros Hro. destruct (Hzero Hro) as (Hnh & -> & ->).
  split; [exact Hnh | reflexivity].
Qed.

Lemma PackBuffer_packed_witness :
  ∃ mb, lookup_buffer 5%positive packed_state.2 = Some mb
    ∧ mb_observer mb = true
    ∧ mb_meta mb = [(KEY_TIME, MetaInt64 1000)]
    ∧ mb_data mb = NativeMetadata 2 (Some 99%positive) (-1).
Proof.
  destruct (PackBuffer_packed handle_buffer 1000 running_encoder running_world
              5%positive packed_state.1 packed_state.2)
    as (mb & Hmb & Hobs & Hmeta & _ & Hz & _); [vm_compute; reflexivity | ].
  exists mb. split; [exact Hmb | ]. split; [exact Hobs | ]. split; [exact Hmeta | ].
  destruct Hz as [_ ->]; [vm_compute; reflexivity | ]. reflexivity.
Defined.

(** ** What a pull-read returns *)

Lemma PackBuffer_None_heap b ts thiz w thiz' w' :
  PackBuffer b ts thiz w = Ok (None, thiz', w') → heap w' = heap w.
Proof.
  unfold PackBuffer, media_buffer_create.
  destruct (readout_ thiz && negb (has_native_handle b) && (0 <? Length b)).
  { destruct (create_object _ w) as [[p | ] w1] eqn:Hc.
    - destruct (rgb2yuv420p _ _ _ _ _) as [yuv | ]; [ | discriminate].
      intros [= ].
    - apply create_object_None in Hc as (_ & Hh & _).
      intros [= _ <-]. exact Hh. }
  destruct (negb (readout_ thiz) && has_native_handle b).
  { destruct (create_object _ w) as [[p | ] w1] eqn:Hc.
    - intros [= ].
    - apply create_object_None in Hc as (_ & Hh & _).
      intros [= _ <-]. exact Hh. }
  now intros [= _ <-].
Qed.

(** The status of a pull-read is 0 or one of three error codes, and the
    output slot is filled exactly when it is 0.  Status 0 means: the callback
    was given an instance and a slot, the encoder was running, the oldest
    queued buffer was taken and packed into a new runtime buffer stamped with
    its timestamp, the pair became the last pending entry, and the frame was
    reported as begun.  With an error status no entry is added and the
    runtime objects are as before. *)
Theorem OnSourceRead_returns slot user_data thiz w code out thiz' w' :
  OnSourceRead slot user_data thiz w = Ok (code, out, thiz', w') →
  (code = 0
   ∧ ∃ b rest p,
       user_data = true ∧ slot = true ∧ running_ thiz = true
       ∧ input_queue_ thiz = b :: rest ∧ input_queue_ thiz' = rest
       ∧ out = Some p ∧ p = next_handle w
       ∧ pending_buffers_ thiz'
         = pending_buffers_ thiz ++ [{| buffer := b; media_buffer := p |}]
       ∧ mb_meta <$> lookup_buffer p w' = Some [(KEY_TIME, MetaInt64 (Timestamp b))]
       ∧ events_since w w' = [EvReport (BeganFrame (Timestamp b))])
  ∨ ((code = kAndroidMediaErrorNotConnected
      ∨ code = kAndroidMediaErrorBufferTooSmall
      ∨ code = kAndroidMediaErrorEndOfStream)
     ∧ out = None
     ∧ pending_buffers_ thiz' = pending_buffers_ thiz
     ∧ heap w' = heap w).
Proof.
  unfold OnSourceRead.
  destruct user_data; cbn [negb orb].
  2:{ intros [= <- <- <- <-]. right. split; [now left | now repeat split]. }
  destruct (running_ thiz) eqn:Hr; cbn [negb].
  2:{ intros [= <- <- <- <-]. right. split; [now left | now repeat split]. }
  destruct slot; cbn [negb].
  2:{ intros [= <- <- <- <-]. right. split; [now right; left | now repeat split]. }
  destruct (input_queue_ thiz) as [ | b rest] eqn:Hq; cbn [BufferQueue.Next].
  { intros [= <- <- <- <-]. right.
    split; [now right; right | now repeat split]. }
  destruct (PackBuffer _ _ _ _) as [[[r thiz1] w1] | ] eqn:HP; [ | discriminate].
  rewrite bind_Ok. destruct r as [p | ].
  - intros [= <- <- <- <-]. left. split; [reflexivity | ].
    pose proof (PackBuffer_Some_buffer _ _ _ _ _ _ _ HP)
      as (size & data & Hmb & _).
    apply PackBuffer_Ok in HP as (-> & _ & -> & Ht).
    exists b, rest, (next_handle w).
    split; [reflexivity | ]. split; [reflexivity | ]. split; [reflexivity | ].
    split; [reflexivity | ]. split; [reflexivity | ]. split; [reflexivity | ].
    split; [reflexivity | ]. split; [reflexivity | ].
    split.
    + assert (lookup_buffer (next_handle w)
                (report_ (BeganFrame (Timestamp b)) w1)
              = lookup_buffer (next_handle w) w1) as -> by reflexivity.
      rewrite Hmb. reflexivity.
    + apply events_since_app. cbn [report_ emit trace]. now rewrite Ht.
  - intros [= <- <- <- <-]. right.
    split; [now right; right | ]. split; [reflexivity | ].
    pose proof (PackBuffer_None_heap _ _ _ _ _ _ HP) as Hh.
    apply PackBuffer_Ok in HP as (-> & _). split; [reflexivity | exact Hh].
Qed.

Lemma OnSourceRead_returns_witness :
  ∃ b rest p,
    input_queue_ (zero_copy_encoder_with [handle_buffer]) = b :: rest
    ∧ Some 5%positive = Some p
    ∧ mb_meta <$> lookup_buffer p (report_ (BeganFrame 1000) packed_state.2)
      = Some [(KEY_TIME, MetaInt64 (Timestamp b))].
Proof.
  destruct (OnSourceRead_returns true true (zero_copy_encoder_with [handle_buffer])
              running_world 0 (Some 5%positive) packed_state.1
              (report_ (BeganFrame 1000) packed_state.2))
    as [(_ & b & rest & p & _ & _ & _ & Hq & _ & Hout & _ & _ & Hmeta & _)
       | ([Hcode | [Hcode | Hcode]] & _)].
  - vm_compute. reflexivity.
  - exists b, rest, p. split; [exact Hq | ]. split; [exact Hout | exact Hmeta].
  - vm_compute in Hcode. discriminate.
  - vm_compute in Hcode. discriminate.
  - vm_compute in Hcode. discriminate.
Defined.

(** ** Returning a buffer to the encoder *)

(** Returning a pending buffer frees its runtime object. *)
Lemma OnBufferReturned_known_heap mb thiz w i item x :
  find_pending mb (pending_buffers_ thiz) = Some (i, item) →
  lookup_buffer mb w = Some x →
  heap (OnBufferReturned mb true thiz w).2 = delete mb (heap w).
Proof.
  intros Hf Hx. pose proof (find_pending_Some _ _ _ _ Hf) as [_ Hmb].
  unfold OnBufferReturned. cbn [negb]. rewrite Hf.
  destruct item as [buf imb]. cbn in Hmb. subst imb. cbn [fst snd].
  assert (lookup_buffer mb (media_buffer_set_return_callback mb false w)
          = Some {| mb_size := mb_size x; mb_data := mb_data x;
                    mb_meta := mb_meta x; mb_observer := false |}) as Hl.
  { unfold media_buffer_set_return_callback.
    now rewrite lookup_buffer_update_buffer, Hx. }
  unfold media_buffer_release. rewrite Hl. cbn [mb_observer].
  cbn. apply delete_alter_eq.
Qed.

(** The callback is unregistered before the release, so the release frees
    the runtime buffer: when the runtime returns a pending buffer, exactly
    that runtime object goes away, its entry leaves the pending set and the
    frame buffer of the entry is released. *)
Theorem OnBufferReturned_frees mb thiz w i item x :
  find_pending mb (pending_buffers_ thiz) = Some (i, item) →
  lookup_buffer mb w = Some x →
  heap (OnBufferReturned mb true thiz w).2 = delete mb (heap w)
  ∧ pending_buffers_ (OnBufferReturned mb true thiz w).1
    = delete i (pending_buffers_ thiz)
  ∧ events_since w (OnBufferReturned mb true thiz w).2 = [EvRelease (buffer item)].
Proof.
  intros Hf Hx.
  split; [eapply OnBufferReturned_known_heap; eauto | ].
  destruct (OnBufferReturned_cases mb thiz w)
    as [[Hnone _] | (i' & item' & Hf' & Hthiz & Ht)]; [congruence | ].
  assert (i' = i ∧ item' = item) as [-> ->] by (split; congruence).
  split.
  - rewrite Hthiz. reflexivity.
  - now apply events_since_app.
Qed.

Lemma OnBufferReturned_frees_witness :
  heap (OnBufferReturned 5%positive true packed_state.1 packed_state.2).2
  = delete 5%positive (heap packed_state.2)
  ∧ pending_buffers_ (OnBufferReturned 5%positive true packed_state.1 packed_state.2).1
    = delete 0%nat (pending_buffers_ packed_state.1)
  ∧ events_since packed_state.2
      (OnBufferReturned 5%positive true packed_state.1 packed_state.2).2
    = [EvRelease handle_buffer].
Proof.
  apply (OnBufferReturned_frees 5%positive packed_state.1 packed_state.2 0
           {| buffer := handle_buffer; media_buffer := 5%positive |}
           (native_metadata_buffer running_world handle_buffer 1000));
    vm_compute; reflexivity.
Defined.

Lemma find_pending_app_new mb l item :
  (∀ x, x ∈ l → media_buffer x ≠ mb) →
  media_buffer item = mb →
  find_pending mb (l ++ [item]) = Some (length l, item).
Proof.
  intros Hl Hi. induction l as [ | y l IH]; cbn.
  - now rewrite decide_True.
  - rewrite decide_False by (apply Hl; left).
    rewrite IH by (intros x Hx; apply Hl; now right). reflexivity.
Qed.

Lemma set_pending_buffers_same thiz l :
  set_pending_buffers_ (pending_buffers_ thiz) (set_pending_buffers_ l thiz) = thiz.
Proof. now destruct thiz. Qed.

(** Packing a buffer and having it returned by the runtime is a round trip:
    the encoder and the runtime objects are as before, and the frame buffer
    has been released once. *)
Theorem PackBuffer_then_returned b ts thiz w p thiz1 w1 :
  heap_fresh w →
  pending_wf thiz w →
  PackBuffer b ts thiz w = Ok (Some p, thiz1, w1) →
  (OnBufferReturned p true thiz1 w1).1 = thiz
  ∧ heap (OnBufferReturned p true thiz1 w1).2 = heap w
  ∧ events_since w (OnBufferReturned p true thiz1 w1).2 = [EvRelease b].
Proof.
  intros Hfresh Hwf HP.
  pose proof (PackBuffer_Some_buffer _ _ _ _ _ _ _ HP)
    as (size & data & Hmb & _ & Hother).
  apply PackBuffer_Ok in HP as (-> & _ & -> & Ht).
  set (item := {| buffer := b; media_buffer := next_handle w |}).
  assert (find_pending (next_handle w) (pending_buffers_ thiz ++ [item])
          = Some (length (pending_buffers_ thiz), item)) as Hf.
  { apply find_pending_app_new; [ | done].
    intros x Hx. specialize (Hwf x Hx). lia. }
  pose proof (OnBufferReturned_known_heap (next_handle w)
                (set_pending_buffers_ (pending_buffers_ thiz ++ [item]) thiz)
                w1 _ _ _ Hf Hmb) as Hheap.
  destruct (OnBufferReturned_cases (next_handle w)
              (set_pending_buffers_ (pending_buffers_ thiz ++ [item]) thiz) w1)
    as [[Hnone _] | (i' & item' & Hf' & _ & Hev)];
    [cbn [pending_buffers_ set_pending_buffers_] in Hnone; congruence | ].
  cbn [pending_buffers_ set_pending_buffers_] in Hf'.
  assert (item' = item) as -> by congruence.
  split; [ | split].
  - unfold OnBufferReturned. cbn [negb pending_buffers_ set_pending_buffers_].
    rewrite Hf. cbn [fst item]. rewrite delete_middle, app_nil_r.
    apply set_pending_buffers_same.
  - rewrite Hheap. apply map_eq. intros h.
    destruct (decide (h = next_handle w)) as [-> | Hne].
    + rewrite lookup_delete_eq. symmetry. apply Hfresh. lia.
    + rewrite lookup_delete_ne by done. now apply Hother.
  - apply events_since_app. rewrite Hev, Ht. reflexivity.
Qed.

Lemma PackBuffer_then_returned_witness :
  (OnBufferReturned 5%positive true packed_state.1 packed_state.2).1 = running_encoder
  ∧ heap (OnBufferReturned 5%positive true packed_state.1 packed_state.2).2
    = heap running_world
  ∧ events_since running_world
      (OnBufferReturned 5%positive true packed_state.1 packed_state.2).2
    = [EvRelease handle_buffer].
Proof.
  apply (PackBuffer_then_returned handle_buffer 1000 running_encoder running_world).
  - intros h Hh. destruct (heap running_world !! h) as [o | ] eqn:E; [ | done].
    exfalso. apply elem_of_map_to_list in E.
    remember (map_to_list (heap running_world)) as l eqn:El.
    vm_compute in El. subst l.
    repeat (apply elem_of_cons in E as [E | E];
            [injection E as -> _; vm_compute in Hh; now apply Hh | ]).
    now apply elem_of_nil in E.
  - intros item Hitem. vm_compute in Hitem. now apply elem_of_nil in Hitem.
  - vm_compute. reflexivity.
Defined.

(** ** What [Configure] tells the codec *)

Ltac entry_of_fill :=
  rewrite ?lookup_insert_ne by done;
  first [apply lookup_insert_eq | apply lookup_empty].

Lemma fill_format_entries readout c format w :
  heap w !! format = Some (ObjMessage ∅) →
  ∃ m, heap (fill_format readout c format w) !! format = Some (ObjMessage m)
    ∧ m !! kFormatKeyMime = Some (MsgString kH264MimeType)
    ∧ m !! kFormatKeyStoreMetaDataInBuffers
      = Some (MsgInt32 (metadata_buffer_type readout))
    ∧ m !! "android._input-metadata-buffer-type"
      = Some (MsgInt32 (metadata_buffer_type readout))
    ∧ m !! kFormatKeyStoreMetaDataInBuffersOutput = Some (MsgInt32 0)
    ∧ m !! "android._store-metadata-in-buffers-output" = Some (MsgInt32 0)
    ∧ m !! kFormatKeyWidth = Some (MsgInt32 (to_int32 (width c)))
    ∧ m !! kFormatKeyStride = Some (MsgInt32 (to_int32 (width c)))
    ∧ m !! kFormatKeyHeight = Some (MsgInt32 (to_int32 (height c)))
    ∧ m !! kFormatKeySliceHeight = Some (MsgInt32 (to_int32 (height c)))
    ∧ m !! kFormatKeyColorFormat = Some (MsgInt32 (color_format w))
    ∧ m !! kFormatKeyBitrate = Some (MsgInt32 (to_int32 (bitrate c)))
    ∧ m !! kFormatKeyBitrateMode = Some (MsgInt32 kOMXVideoControlRateConstant)
    ∧ m !! kFormatKeyFramerate = Some (MsgInt32 (framerate c))
    ∧ m !! kFormatKeyIntraRefreshMode = Some (MsgInt32 0)
    ∧ m !! kFormatKeyPrependSpsPpstoIdrFrames = Some (MsgInt32 1)
    ∧ m !! kFormatKeyIFrameInterval
      = (if 0 <? i_frame_interval c
         then Some (MsgInt32 (to_int32 (i_frame_interval c))) else None)
    ∧ m !! kFormatKeyProfileIdc
      = (if 0 <? profile_idc c
         then Some (MsgInt32 (to_int32 (profile_idc c))) else None)
    ∧ m !! kFormatKeyLevelIdc
      = (if 0 <? level_idc c
         then Some (MsgInt32 (to_int32 (level_idc c))) else None)
    ∧ m !! kFormatKeyConstraintSet
      = (if 0 <? constraint_set c
         then Some (MsgInt32 (to_int32 (constraint_set c))) else None).
Proof.
  intros H0.
  unfold fill_format, media_message_set_int32, media_message_set_string.
  cbv zeta.
  destruct (0 <? i_frame_interval c), (0 <? profile_idc c),
    (0 <? level_idc c), (0 <? constraint_set c);
    rewrite !heap_update_object_eq, H0; cbn [fmap option_fmap option_map message_set];
    eexists; (split; [reflexivity | ]);
    unfold kFormatKeyMime, kFormatKeyStoreMetaDataInBuffers,
      kFormatKeyStoreMetaDataInBuffersOutput, kFormatKeyWidth, kFormatKeyHeight,
      kFormatKeyStride, kFormatKeySliceHeight, kFormatKeyColorFormat,
      kFormatKeyBitrate, kFormatKeyBitrateMode, kFormatKeyFramerate,
      kFormatKeyIntraRefreshMode, kFormatKeyIntraRefreshCIRMbs,
      kFormatKeyIFrameInterval, kFormatKeyProfileIdc, kFormatKeyLevelIdc,
      kFormatKeyConstraintSet, kFormatKeyPrependSpsPpstoIdrFrames;
    repeat split; entry_of_fill.
Qed.

Lemma fill_source_objects c source source_format w :
  source ≠ source_format →
  heap w !! source = Some (ObjSource None []) →
  heap w !! source_format = Some (ObjMetaData []) →
  heap (fill_source c source source_format w) !! source
  = Some (ObjSource (Some source_format) [CbStart; CbStop; CbRead; CbPause])
  ∧ ∃ md, heap (fill_source c source source_format w) !! source_format
          = Some (ObjMetaData md)
      ∧ meta_find KEY_MIME md = Some (MetaCString kRawMimeType)
      ∧ meta_find KEY_COLOR_FORMAT md = Some (MetaInt32 kOMXColorFormatAndroidOpaque)
      ∧ meta_find KEY_WIDTH md = Some (MetaInt32 (to_int32 (width c)))
      ∧ meta_find KEY_STRIDE md = Some (MetaInt32 (to_int32 (width c)))
      ∧ meta_find KEY_HEIGHT md = Some (MetaInt32 (to_int32 (height c)))
      ∧ meta_find KEY_SLICE_HEIGHT md = Some (MetaInt32 (to_int32 (height c)))
      ∧ meta_find KEY_FRAMERATE md = Some (MetaInt32 (framerate c)).
Proof.
  intros Hne Hs Hf.
  unfold fill_source, media_meta_data_set_cstring, media_meta_data_set_int32,
    media_source_set_format, media_source_set_callback.
  cbv zeta. split.
  - rewrite !heap_update_object_eq.
    rewrite !heap_update_object_ne by done. rewrite Hs. reflexivity.
  - rewrite !heap_update_object_ne by done.
    rewrite !heap_update_object_eq, Hf. cbn [fmap option_fmap option_map meta_set].
    eexists. split; [reflexivity | ]. repeat split.
Qed.

(** The four runtime objects a successful [Configure] leaves behind. *)
Lemma Configure_true_heap config thiz w thiz' w' :
  Configure config thiz w = (true, thiz', w') →
  ∃ w1 w3,
    heap w1 !! next_handle w = Some (ObjMessage ∅)
    ∧ widi_colorformat w1 = widi_colorformat w
    ∧ heap w3 !! Pos.succ (next_handle w) = Some (ObjSource None [])
    ∧ heap w3 !! Pos.succ (Pos.succ (next_handle w)) = Some (ObjMetaData [])
    ∧ heap w' !! next_handle w
      = heap (fill_format (readout_ thiz) config (next_handle w) w1) !! next_handle w
    ∧ heap w' !! Pos.succ (next_handle w)
      = heap (fill_source config (Pos.succ (next_handle w))
                (Pos.succ (Pos.succ (next_handle w))) w3)
          !! Pos.succ (next_handle w)
    ∧ heap w' !! Pos.succ (Pos.succ (next_handle w))
      = heap (fill_source config (Pos.succ (next_handle w))
                (Pos.succ (Pos.succ (next_handle w))) w3)
          !! Pos.succ (Pos.succ (next_handle w))
    ∧ heap w' !! Pos.succ (Pos.succ (Pos.succ (next_handle w)))
      = Some (ObjCodecSource (next_handle w) (Pos.succ (next_handle w)) 0)
    ∧ next_handle w' = Pos.succ (Pos.succ (Pos.succ (Pos.succ (next_handle w))))
    ∧ ∀ h, (h < next_handle w)%positive → heap w' !! h = heap w !! h.
Proof.
  unfold Configure. destruct (encoder_ thiz) as [enc | ] eqn:Henc; [discriminate | ].
  destruct (media_message_create w) as [[format | ] w1] eqn:H1; [ | discriminate].
  assert (widi_colorformat w1 = widi_colorformat w) as Hcf.
  { unfold media_message_create, create_object in H1.
    destruct (next_alloc_ok w); injection H1 as _ <-; reflexivity. }
  apply create_object_Some in H1 as (-> & Hh1 & Hn1 & Ht1 & _).
  destruct (fill_format_frame (readout_ thiz) config (next_handle w) w1)
    as (Hn1' & _ & Ht1' & Hf1).
  set (wf := fill_format _ _ _ w1) in *.
  destruct (media_source_create wf) as [[source | ] w2] eqn:H2; [ | discriminate].
  apply create_object_Some in H2 as (-> & Hh2 & Hn2 & Ht2 & _).
  destruct (media_meta_data_create w2) as [[source_format | ] w3] eqn:H3;
    [ | discriminate].
  apply create_object_Some in H3 as (-> & Hh3 & Hn3 & Ht3 & _).
  destruct (fill_source_frame config (next_handle wf) (next_handle w2) w3)
    as (Hn3' & _ & Ht3' & Hh3').
  set (ws := fill_source _ _ _ w3) in *.
  destruct (media_codec_source_create _ _ _ ws) as [[enc | ] w4] eqn:H4;
    [ | discriminate].
  apply create_object_Some in H4 as (-> & Hh4 & Hn4 & Ht4 & _).
  rewrite Hn1 in Hn1'. rewrite Hn1' in *. rewrite Hn2 in *.
  rewrite Hn3 in Hn3'. rewrite Hn3' in *.
  intros [= <- <-].
  exists w1, w3.
  split; [rewrite Hh1; apply lookup_insert_eq | ].
  split; [exact Hcf | ].
  split; [rewrite Hh3, lookup_insert_ne by lia; rewrite Hh2; apply lookup_insert_eq | ].
  split; [rewrite Hh3; apply lookup_insert_eq | ].
  split.
  { rewrite Hh4, lookup_insert_ne by lia. rewrite Hh3' by lia.
    rewrite Hh3, lookup_insert_ne by lia. rewrite Hh2, lookup_insert_ne by lia.
    reflexivity. }
  split; [rewrite Hh4, lookup_insert_ne by lia; unfold ws; now rewrite Hn1', Hn2 | ].
  split; [rewrite Hh4, lookup_insert_ne by lia; unfold ws; now rewrite Hn1', Hn2 | ].
  split; [rewrite Hh4; apply lookup_insert_eq | ].
  split; [exact Hn4 | ].
  intros h Hlt.
  rewrite Hh4, lookup_insert_ne by lia. rewrite Hh3' by lia.
  rewrite Hh3, lookup_insert_ne by lia. rewrite Hh2, lookup_insert_ne by lia.
  rewrite Hf1 by lia. rewrite Hh1, lookup_insert_ne by lia. reflexivity.
Qed.

(** The format message of a configured encoder.  Stride and slice height
    repeat width and height; the two input-metadata entries say whether the
    input buffers carry native handles (type 2) or pixels (type -1, in readout
    mode); the colour format is the opaque one unless the system property
    overrides it; the bitrate mode is constant; the four optional entries are
    present exactly when the configuration gives a positive value. *)
Theorem Configure_format_message config thiz w thiz' w' :
  Configure config thiz w = (true, thiz', w') →
  format_entry "mime" thiz' w' = Some (MsgString "video/avc")
  ∧ format_entry "store-metadata-in-buffers" thiz' w'
    = Some (MsgInt32 (if readout_ thiz then -1 else 2))
  ∧ format_entry "android._input-metadata-buffer-type" thiz' w'
    = Some (MsgInt32 (if readout_ thiz then -1 else 2))
  ∧ format_entry "store-metadata-in-buffers-output" thiz' w' = Some (MsgInt32 0)
  ∧ format_entry "android._store-metadata-in-buffers-output" thiz' w'
    = Some (MsgInt32 0)
  ∧ format_entry "width" thiz' w' = Some (MsgInt32 (to_int32 (width config)))
  ∧ format_entry "stride" thiz' w' = Some (MsgInt32 (to_int32 (width config)))
  ∧ format_entry "height" thiz' w' = Some (MsgInt32 (to_int32 (height config)))
  ∧ format_entry "slice-height" thiz' w'
    = Some (MsgInt32 (to_int32 (height config)))
  ∧ format_entry "color-format" thiz' w'
    = Some (MsgInt32
              (if 0 <? to_int32 (default 0 (widi_colorformat w))
               then to_int32 (default 0 (widi_colorformat w))
               else 0x7F000789))
  ∧ format_entry "bitrate" thiz' w' = Some (MsgInt32 (to_int32 (bitrate config)))
  ∧ format_entry "bitrate-mode" thiz' w' = Some (MsgInt32 2)
  ∧ format_entry "frame-rate" thiz' w' = Some (MsgInt32 (framerate config))
  ∧ format_entry "intra-refresh-mode" thiz' w' = Some (MsgInt32 0)
  ∧ format_entry "prepend-sps-pps-to-idr-frames" thiz' w' = Some (MsgInt32 1)
  ∧ format_entry "i-frame-interval" thiz' w'
    = (if 0 <? i_frame_interval config
       then Some (MsgInt32 (to_int32 (i_frame_interval config))) else None)
  ∧ format_entry "profile-idc" thiz' w'
    = (if 0 <? profile_idc config
       then Some (MsgInt32 (to_int32 (profile_idc config))) else None)
  ∧ format_entry "level-idc" thiz' w'
    = (if 0 <? level_idc config
       then Some (MsgInt32 (to_int32 (level_idc config))) else None)
  ∧ format_entry "constraint-set" thiz' w'
    = (if 0 <? constraint_set config
       then Some (MsgInt32 (to_int32 (constraint_set config))) else None).
Proof.
  intros HC.
  pose proof (Configure_true _ _ _ _ _ HC) as (_ & Hthiz & _).
  apply Configure_true_heap in HC
    as (w1 & w3 & Hm0 & Hcf & _ & _ & Hformat & _).
  destruct (fill_format_entries (readout_ thiz) config (next_handle w) w1 Hm0)
    as (m & Hm & Hentries).
  assert (∀ key, format_entry key thiz' w' = m !! key) as Hkey.
  { intros key. unfold format_entry. rewrite Hthiz. cbn [format_ set_configuration].
    now rewrite Hformat, Hm. }
  rewrite !Hkey.
  assert (color_format w1
          = if 0 <? to_int32 (default 0 (widi_colorformat w))
            then to_int32 (default 0 (widi_colorformat w)) else 0x7F000789) as Hcol.
  { unfold color_format. now rewrite Hcf. }
  rewrite Hcol in Hentries.
  unfold metadata_buffer_type in Hentries.
  exact Hentries.
Qed.

Lemma Configure_format_message_witness :
  format_entry "stride" configured_720p.1.2 configured_720p.2 = Some (MsgInt32 1280)
  ∧ format_entry "slice-height" configured_720p.1.2 configured_720p.2
    = Some (MsgInt32 720)
  ∧ format_entry "store-metadata-in-buffers" configured_720p.1.2 configured_720p.2
    = Some (MsgInt32 2)
  ∧ format_entry "color-format" configured_720p.1.2 configured_720p.2
    = Some (MsgInt32 0x7F000789)
  ∧ format_entry "profile-idc" configured_720p.1.2 configured_720p.2 = None.
Proof.
  destruct (Configure_format_message config_720p (Create false) quiet_world
              configured_720p.1.2 configured_720p.2)
    as (_ & Hmeta & _ & _ & _ & _ & Hstride & _ & Hslice & Hcol & _ & _ & _ & _
        & _ & _ & Hprofile & _).
  - vm_compute. reflexivity.
  - split; [exact Hstride | ]. split; [exact Hslice | ]. split; [exact Hmeta | ].
    split; [exact Hcol | exact Hprofile].
Defined.

(** What else a successful [Configure] creates: four new runtime objects at
    consecutive handles, no existing object touched.  The codec source is
    made from the format message and the media source, with flags 0; the
    media source has the source format and the four callbacks, registered in
    the order start, stop, read, pause; the source format describes raw
    video of the configured size in the opaque colour format, whatever the
    colour-format override says. *)
Theorem Configure_source config thiz w thiz' w' :
  Configure config thiz w = (true, thiz', w') →
  ∃ format source source_format enc md,
    format = next_handle w ∧ source = Pos.succ format
    ∧ source_format = Pos.succ source ∧ enc = Pos.succ source_format
    ∧ next_handle w' = Pos.succ enc
    ∧ format_ thiz' = Some format
    ∧ source_format_ thiz' = Some source_format
    ∧ encoder_ thiz' = Some enc
    ∧ config_ thiz' = config
    ∧ heap w' !! enc = Some (ObjCodecSource format source 0)
    ∧ heap w' !! source
      = Some (ObjSource (Some source_format) [CbStart; CbStop; CbRead; CbPause])
    ∧ heap w' !! source_format = Some (ObjMetaData md)
    ∧ meta_find KEY_MIME md = Some (MetaCString "video/raw")
    ∧ meta_find KEY_COLOR_FORMAT md = Some (MetaInt32 0x7F000789)
    ∧ meta_find KEY_WIDTH md = Some (MetaInt32 (to_int32 (width config)))
    ∧ meta_find KEY_STRIDE md = Some (MetaInt32 (to_int32 (width config)))
    ∧ meta_find KEY_HEIGHT md = Some (MetaInt32 (to_int32 (height config)))
    ∧ meta_find KEY_SLICE_HEIGHT md = Some (MetaInt32 (to_int32 (height config)))
    ∧ meta_find KEY_FRAMERATE md = Some (MetaInt32 (framerate config))
    ∧ ∀ h, (h < next_handle w)%positive → heap w' !! h = heap w !! h.
Proof.
  intros HC.
  pose proof (Configure_true _ _ _ _ _ HC) as (_ & Hthiz & _).
  apply Configure_true_heap in HC
    as (w1 & w3 & _ & _ & Hs0 & Hf0 & _ & Hsource & Hsformat & Henc & Hnext
        & Hframe).
  destruct (fill_source_objects config (Pos.succ (next_handle w))
              (Pos.succ (Pos.succ (next_handle w))) w3)
    as (Hs & md & Hmd & Hfind); [lia | done | done | ].
  eexists _, _, _, _, md.
  split; [reflexivity | ]. split; [reflexivity | ]. split; [reflexivity | ].
  split; [reflexivity | ]. split; [exact Hnext | ].
  rewrite Hthiz. cbn [format_ source_format_ encoder_ config_ set_configuration
                      set_encoder_].
  split; [reflexivity | ]. split; [reflexivity | ]. split; [reflexivity | ].
  split; [reflexivity | ]. split; [exact Henc | ].
  split; [now rewrite Hsource | ]. split; [now rewrite Hsformat | ].
  destruct Hfind as (? & ? & ? & ? & ? & ? & ?).
  repeat (split; [assumption | ]). exact Hframe.
Qed.

Lemma Configure_source_witness :
  ∃ md,
    heap configured_720p.2 !! 4%positive
    = Some (ObjCodecSource 1%positive 2%positive 0)
    ∧ heap configured_720p.2 !! 3%positive = Some (ObjMetaData md)
    ∧ meta_find KEY_STRIDE md = Some (MetaInt32 1280)
    ∧ meta_find KEY_COLOR_FORMAT md = Some (MetaInt32 0x7F000789).
Proof.
  destruct (Configure_source config_720p (Create false) quiet_world
              configured_720p.1.2 configured_720p.2)
    as (format & source & source_format & enc & md & -> & -> & -> & -> & _ & _
        & _ & _ & _ & Henc & _ & Hmd & _ & Hcol & _ & Hstride & _).
  - vm_compute. reflexivity.
  - exists md. split; [exact Henc | ]. split; [exact Hmd | ].
    split; [exact Hstride | exact Hcol].
Defined.

(** ** Invariants of the pipeline *)

Lemma same_configuration_refl a : same_configuration a a.
Proof. now repeat split. Qed.

Lemma same_configuration_trans a b c :
  same_configuration a b → same_configuration b c → same_configuration a c.
Proof.
  intros (? & ? & ? & ? & ? & ? & ?) (? & ? & ? & ? & ? & ? & ?).
  repeat split; congruence.
Qed.

Lemma only_buffers_differ_same a b :
  only_buffers_differ a b → same_configuration a b.
Proof. intros (? & ? & ? & ? & ? & ? & ? & ?). now repeat split. Qed.

Lemma Start_same_configuration thiz w r thiz' w' :
  Start thiz w = Ok (r, thiz', w') → same_configuration thiz thiz'.
Proof.
  unfold Start. destruct (encoder_ thiz) as [enc | ] eqn:He.
  2:{ intros [= _ <- _]. apply same_configuration_refl. }
  destruct (running_ thiz) eqn:Hr.
  { intros [= _ <- _]. apply same_configuration_refl. }
  unfold media_codec_source_start. cbv zeta.
  destruct (next_start_episode _) as [ep wp].
  destruct (run_pulls (pulls ep) (set_running_ true thiz) wp)
    as [[thiz1 w1] | ] eqn:Hrun; [ | discriminate].
  apply run_pulls_Ok in Hrun as (Hd & _); [ | done].
  apply only_buffers_differ_same in Hd.
  assert (same_configuration thiz thiz1) as Hs.
  { eapply same_configuration_trans; [ | exact Hd]. now repeat split. }
  cbn. destruct (start_ok ep); cbn; intros [= _ <- _]; [exact Hs | ].
  eapply same_configuration_trans; [exact Hs | ]. now repeat split.
Qed.

(** No call changes the mode or the two counters, and no call changes the
    configuration of a configured encoder. *)
Lemma step_same_configuration o thiz w thiz' w' :
  step o thiz w = Ok (thiz', w') →
  readout_ thiz' = readout_ thiz
  ∧ start_time_ thiz' = start_time_ thiz
  ∧ frame_count_ thiz' = frame_count_ thiz
  ∧ (is_Some (encoder_ thiz) → same_configuration thiz thiz').
Proof.
  assert (∀ a b, same_configuration a b →
            readout_ b = readout_ a ∧ start_time_ b = start_time_ a
            ∧ frame_count_ b = frame_count_ a
            ∧ (is_Some (encoder_ a) → same_configuration a b)) as Hall.
  { intros a b Hs. pose proof Hs as (_ & _ & _ & ? & _ & ? & ?). eauto. }
  destruct o; cbn -[OnBufferReturned].
  - destruct (Configure config thiz w) as [[[ | ] thiz1] w1] eqn:HC;
      intros [= <- <-].
    + apply Configure_true in HC as (He & -> & _).
      split; [reflexivity | ]. split; [reflexivity | ]. split; [reflexivity | ].
      intros [enc Henc]. congruence.
    + apply Configure_false in HC as ->. apply Hall, same_configuration_refl.
  - intros Hs. apply Hall. revert Hs.
    destruct (Start thiz w) as [[[r thiz1] w1] | ] eqn:HS; [ | discriminate].
    cbn. intros [= <- <-]. eapply Start_same_configuration, HS.
  - intros Hs. apply Hall. revert Hs.
    unfold Stop. destruct (encoder_ thiz);
      [ | intros [= <- <-]; apply same_configuration_refl].
    destruct (running_ thiz); cbn;
      [ | intros [= <- <-]; apply same_configuration_refl].
    destruct (next_stop_ok _); cbn; intros [= <- <-]; now repeat split.
  - intros Hs. apply Hall. revert Hs.
    unfold QueueBuffer. destruct (running_ thiz); cbn; intros [= <- <-];
      now repeat split.
  - intros Hs. apply Hall. revert Hs.
    unfold Execute. destruct (running_ thiz); cbn.
    + destruct (media_codec_source_read _ _) as [[u | ] w1]; intros [= <- <-];
        apply same_configuration_refl.
    + intros [= <- <-]. apply same_configuration_refl.
  - intros [= <- <-]. apply Hall, same_configuration_refl.
  - intros Hs. apply Hall. revert Hs.
    destruct (OnSourceRead slot true thiz w) as [[[[code out] thiz1] w1] | ] eqn:HR;
      [ | discriminate].
    cbn. intros [= <- <-].
    destruct (running_ thiz) eqn:Hr.
    + apply OnSourceRead_Ok in HR as (Hd & _); [ | done].
      now apply only_buffers_differ_same.
    + unfold OnSourceRead in HR. rewrite Hr in HR. cbn in HR.
      assert (thiz1 = thiz) as -> by congruence. apply same_configuration_refl.
  - intros Hs. apply Hall. revert Hs.
    destruct (OnBufferReturned_cases mb thiz w) as [[_ E] | (i & item & _ & E & _)].
    + rewrite E. intros [= <- <-]. apply same_configuration_refl.
    + destruct (OnBufferReturned mb true thiz w) as [thiz1 w1]. cbn in E.
      intros [= <- <-]. rewrite E. now repeat split.
Qed.

(** Until [Configure] has succeeded, no call has an effect on the encoder. *)
Lemma step_unconfigured o readout w thiz' w' :
  step o (Create readout) w = Ok (thiz', w') →
  encoder_ thiz' = None →
  thiz' = Create readout.
Proof.
  destruct o; [cbn [step] | cbn ..].
  - destruct (Configure config (Create readout) w) as [[[ | ] thiz1] w1] eqn:HC;
      intros [= <- <-].
    + apply Configure_true in HC as (_ & -> & _). discriminate.
    + now apply Configure_false in HC.
  - now intros [= <- <-].
  - now intros [= <- <-].
  - now intros [= <- <-].
  - now intros [= <- <-].
  - now intros [= <- <-].
  - now intros [= <- <-].
  - now intros [= <- <-].
Qed.

(** Whatever calls an encoder receives after its creation: the mode and the
    two counters stay as the constructor set them (the counters are never
    used); as long as no [Configure] has succeeded, the encoder is exactly as
    created, so it holds no buffer and is not running; a running encoder is
    a configured one. *)
Theorem run_from_Create ops readout w thiz' w' :
  run ops (Create readout) w = Ok (thiz', w') →
  readout_ thiz' = readout
  ∧ start_time_ thiz' = -1
  ∧ frame_count_ thiz' = 0
  ∧ (encoder_ thiz' = None → thiz' = Create readout)
  ∧ (running_ thiz' = true → is_Some (encoder_ thiz')).
Proof.
  assert (∀ thiz,
            readout_ thiz = readout ∧ start_time_ thiz = -1
            ∧ frame_count_ thiz = 0
            ∧ (encoder_ thiz = None → thiz = Create readout) →
            ∀ w, run ops thiz w = Ok (thiz', w') →
            readout_ thiz' = readout ∧ start_time_ thiz' = -1
            ∧ frame_count_ thiz' = 0
            ∧ (encoder_ thiz' = None → thiz' = Create readout)) as Hinv.
  { induction ops as [ | o ops IH]; intros thiz HI w0.
    - now intros [= <- <-].
    - cbn [run].
      destruct (step o thiz w0) as [[thiz1 w1] | ] eqn:Hs; [ | discriminate].
      rewrite bind_Ok. apply IH. clear IH.
      destruct HI as (Hro & Hst & Hfc & Hun).
      pose proof (step_same_configuration _ _ _ _ _ Hs) as (Ero & Est & Efc & Hcfg).
      split; [congruence | ]. split; [congruence | ]. split; [congruence | ].
      intros He1.
      destruct (encoder_ thiz) as [enc | ] eqn:He.
      + destruct Hcfg as (_ & _ & Henc & _); [eauto | ]. congruence.
      + rewrite (Hun eq_refl) in Hs. eapply step_unconfigured; eauto. }
  intros Hrun. apply Hinv in Hrun as (Hro & Hst & Hfc & Hun).
  2:{ now repeat split. }
  split; [done | ]. split; [done | ]. split; [done | ]. split; [done | ].
  intros Hr. destruct (encoder_ thiz') as [enc | ] eqn:He; [eauto | ].
  rewrite (Hun eq_refl) in Hr. discriminate.
Qed.

Lemma run_from_Create_witness :
  ∃ w', run [OpStart; OpQueueBuffer pixel_buffer; OpSourceRead true; OpExecute;
             OpBufferReturned 1%positive; OpStop]
          (Create true) quiet_world
        = Ok (Create true, w').
Proof.
  assert (∃ t w',
            run [OpStart; OpQueueBuffer pixel_buffer; OpSourceRead true; OpExecute;
                 OpBufferReturned 1%positive; OpStop]
              (Create true) quiet_world = Ok (t, w')
            ∧ encoder_ t = None) as (t & w' & E & He)
    by (eexists _, _; split; vm_compute; reflexivity).
  destruct (run_from_Create _ _ _ _ _ E) as (_ & _ & _ & Hun & _).
  rewrite (Hun He) in E. exists w'. exact E.
Defined.

(** Once [Configure] has succeeded the configuration is fixed: no sequence of
    calls changes the configuration record, the handles of the format
    message, of the source format and of the codec source, or the mode. *)
Theorem run_configured ops thiz w thiz' w' :
  is_Some (encoder_ thiz) →
  run ops thiz w = Ok (thiz', w') →
  same_configuration thiz thiz'.
Proof.
  revert thiz w. induction ops as [ | o ops IH]; intros thiz w He.
  - intros [= <- <-]. apply same_configuration_refl.
  - cbn [run].
    destruct (step o thiz w) as [[thiz1 w1] | ] eqn:Hs; [ | discriminate].
    rewrite bind_Ok. intros Hrun.
    apply step_same_configuration in Hs as (_ & _ & _ & Hcfg).
    specialize (Hcfg He).
    eapply same_configuration_trans; [exact Hcfg | ].
    eapply IH; [ | exact Hrun].
    destruct Hcfg as (_ & _ & <- & _). exact He.
Qed.

Lemma run_configured_witness :
  same_configuration packed_state.1 later_state.1.
Proof.
  apply (run_configured [OpQueueBuffer handle_buffer; OpSourceRead true]
           packed_state.1 packed_state.2 later_state.1 later_state.2).
  - vm_compute. eauto.
  - vm_compute. reflexivity.
Defined.

(** ** Accounting for buffers *)









(** ** The order of frames *)







(** ** The destructor *)

